(** * MCP-Hub gateway: a shallow embedding of the Python services

    The development follows the layout of the repository:
    - [app/utils/retries.py]              -> [Retries]
    - [app/utils/id_map.py]               -> [IdMapper]
    - [app/services/auth_manager.py]      -> [AuthManager]
    - [app/services/registry_loader.py]   -> [RegistryLoader]
    - [app/services/connection_manager.py]-> [ConnectionManager]
    - [app/services/session_manager.py]   -> [SessionManager]
    - [app/services/multiplexer.py]       -> [Multiplexer]
    - [app/services/protocol_handler.py]  -> [ProtocolHandler]

    Python values that travel as JSON are modelled by the type [json];
    exceptions by the type [exn] and the result type [res]; the mutable
    objects of the process (connection table, runtime sessions, id map)
    by the record [World], threaded through a state-and-exception monad.
    What the process cannot decide by itself (upstream HTTP replies, the
    JSON decoder, the random source of [uuid4], the wall clock) is read
    from an environment record [Env]. *)

From Stdlib Require Import ZArith QArith Qpower Qabs String Ascii List Lia Bool.
From Stdlib Require Import PrimFloat.
From stdpp Require Import base gmap strings list fin_maps pretty.

Open Scope string_scope.
Open Scope Z_scope.
Open Scope list_scope.

Set Warnings "-register-all".

(* ===================================================================== *)
(** * Python values                                                       *)
(* ===================================================================== *)

(** A decoded JSON document, as [json.loads] returns it.  Python's [None]
    is [JNull]; a [dict] keeps its insertion order, hence the association
    list under [JObj]. *)
Inductive json : Type :=
| JNull
| JBool (b : bool)
| JInt (n : Z)
| JFloat (x : float)
| JStr (s : string)
| JArr (items : list json)
| JObj (fields : list (string * json)).

(** [Dict[str, Any]] with insertion order. *)
Abbreviation pydict := (list (string * json)).

(** Python truthiness: [bool(v)]. *)
Definition truthy (v : json) : bool :=
  match v with
  | JNull => false
  | JBool b => b
  | JInt n => negb (n =? 0)
  | JFloat x => negb (PrimFloat.eqb x 0%float)
  | JStr s => negb (String.eqb s "")
  | JArr l => match l with [] => false | _ => true end
  | JObj f => match f with [] => false | _ => true end
  end.

(** [a or b]. *)
Definition py_or (a b : json) : json := if truthy a then a else b.


Definition is_dict (v : json) : bool :=
  match v with JObj _ => true | _ => false end.

Section Assoc.
Context {A : Type}.

(** [k in d] / [d.get(k)] on an insertion-ordered dict. *)
Fixpoint assoc_lookup (k : string) (d : list (string * A)) : option A :=
  match d with
  | [] => None
  | (k', v) :: rest => if String.eqb k k' then Some v else assoc_lookup k rest
  end.

(** [d[k] = v]: an existing key keeps its position, a new key goes last. *)
Fixpoint assoc_set (k : string) (v : A) (d : list (string * A)) : list (string * A) :=
  match d with
  | [] => [(k, v)]
  | (k', v') :: rest =>
      if String.eqb k k' then (k, v) :: rest else (k', v') :: assoc_set k v rest
  end.

Definition assoc_keys (d : list (string * A)) : list string := map fst d.

End Assoc.

(** [d.get(k)] with the default [None]. *)
Definition dict_get (k : string) (d : pydict) : json :=
  match assoc_lookup k d with Some v => v | None => JNull end.

(** [d.get(k, dflt)]. *)
Definition dict_get_default (k : string) (dflt : json) (d : pydict) : json :=
  match assoc_lookup k d with Some v => v | None => dflt end.

Definition dict_contains (k : string) (d : pydict) : bool :=
  match assoc_lookup k d with Some _ => true | None => false end.

Definition dict_set (k : string) (v : json) (d : pydict) : pydict := assoc_set k v d.

(* ===================================================================== *)
(** * Strings                                                             *)
(* ===================================================================== *)

(** Each [ascii] stands for one character (a code point below 256). *)

Definition char_code (c : ascii) : N := N_of_ascii c.

Definition in_range (lo hi n : N) : bool := ((lo <=? n) && (n <=? hi))%N.

(** [str.lower()] on one character. *)
Definition lower_char (c : ascii) : ascii :=
  let n := char_code c in
  if in_range 65 90 n then ascii_of_N (n + 32)
  else if in_range 192 222 n && negb (n =? 215)%N then ascii_of_N (n + 32)
  else c.

Fixpoint lower (s : string) : string :=
  match s with
  | EmptyString => EmptyString
  | String c rest => String (lower_char c) (lower rest)
  end.

(** [str.isspace()] on one character. *)
Definition is_space (c : ascii) : bool :=
  let n := char_code c in
  in_range 9 13 n || in_range 28 32 n || (n =? 133)%N || (n =? 160)%N.

(** The line boundaries of [str.splitlines()]. *)
Definition is_line_boundary (c : ascii) : bool :=
  let n := char_code c in
  in_range 10 13 n || in_range 28 30 n || (n =? 133)%N.

Fixpoint lstrip (s : string) : string :=
  match s with
  | EmptyString => EmptyString
  | String c rest => if is_space c then lstrip rest else s
  end.

Fixpoint rstrip (s : string) : string :=
  match s with
  | EmptyString => EmptyString
  | String c rest =>
      let rest' := rstrip rest in
      if String.eqb rest' "" && is_space c then EmptyString else String c rest'
  end.

(** [s.strip()]. *)
Definition strip (s : string) : string := rstrip (lstrip s).

(** [s.splitlines()]; [after_cr] remembers that the previous character was
    a carriage return, so that a following line feed closes the same line. *)
Fixpoint splitlines_from (after_cr : bool) (cur : string) (s : string) : list string :=
  match s with
  | EmptyString => if String.eqb cur "" then [] else [cur]
  | String c rest =>
      if after_cr && (char_code c =? 10)%N then splitlines_from false cur rest
      else if is_line_boundary c then cur :: splitlines_from (char_code c =? 13)%N "" rest
      else splitlines_from false (cur +:+ String c "") rest
  end.

Definition splitlines (s : string) : list string := splitlines_from false "" s.

(** [s.startswith(p)]. *)
Definition startswith (s p : string) : bool := String.prefix p s.

(** [s[n:]]. *)
Fixpoint drop_chars (n : nat) (s : string) : string :=
  match n, s with
  | O, _ => s
  | S n', EmptyString => EmptyString
  | S n', String _ rest => drop_chars n' rest
  end.

(** [s[:n]]. *)
Fixpoint take_chars (n : nat) (s : string) : string :=
  match n, s with
  | O, _ => EmptyString
  | S n', EmptyString => EmptyString
  | S n', String c rest => String c (take_chars n' rest)
  end.

(** [sub in s] for strings. *)
Definition str_contains (sub s : string) : bool :=
  match String.index 0 sub s with Some _ => true | None => false end.

(* ===================================================================== *)
(** * Exceptions and results                                              *)
(* ===================================================================== *)

(** An [httpx.Response], as far as the gateway reads it. *)
Record Response := {
  status_code : Z;
  resp_headers : list (string * string);
  text : string;
}.

(** The exception classes that occur in the services.  In httpx,
    [TimeoutException] is a [RequestError], and both [RequestError] and
    [HTTPStatusError] are [HTTPError]s; [json.JSONDecodeError] is a
    [ValueError]; [RecursionError] is a [RuntimeError] and no
    [ValueError]. *)
Inductive exn : Type :=
| KeyError (msg : string)
| ValueError (msg : string)
| TypeError (msg : string)
| AttributeError (msg : string)
| RuntimeError (msg : string)
| RecursionError (msg : string)
| RequestError (msg : string)
| TimeoutException (msg : string)
| HTTPStatusError (msg : string) (response : Response).

(** [str(e)]. *)
Definition exn_message (e : exn) : string :=
  match e with
  | KeyError m | ValueError m | TypeError m | AttributeError m
  | RuntimeError m | RecursionError m | RequestError m | TimeoutException m => m
  | HTTPStatusError m _ => m
  end.

Definition is_ValueError (e : exn) : bool :=
  match e with ValueError _ => true | _ => false end.

Definition is_KeyError (e : exn) : bool :=
  match e with KeyError _ => true | _ => false end.

Definition is_RecursionError (e : exn) : bool :=
  match e with RecursionError _ => true | _ => false end.

Definition is_TimeoutException (e : exn) : bool :=
  match e with TimeoutException _ => true | _ => false end.

Definition is_HTTPStatusError (e : exn) : bool :=
  match e with HTTPStatusError _ _ => true | _ => false end.

(** [isinstance(e, httpx.RequestError)]. *)
Definition is_RequestError (e : exn) : bool :=
  match e with RequestError _ | TimeoutException _ => true | _ => false end.

(** [isinstance(e, httpx.HTTPError)]. *)
Definition is_HTTPError (e : exn) : bool :=
  is_RequestError e || is_HTTPStatusError e.

(** The outcome of evaluating an expression: a value or a raised exception. *)
Inductive res (A : Type) : Type :=
| Ok (a : A)
| Raise (e : exn).
Arguments Ok {A} a.
Arguments Raise {A} e.

Definition res_bind {A B} (r : res A) (k : A -> res B) : res B :=
  match r with Ok a => k a | Raise e => Raise e end.

Notation "'let!' x ':=' r 'in' k" := (res_bind r (fun x => k))
  (at level 10, x pattern, r at level 100, k at level 200).

(** [v.get(k)]: only a dict has the method. *)
Definition py_get (v : json) (k : string) : res json :=
  match v with
  | JObj d => Ok (dict_get k d)
  | _ => Raise (AttributeError "object has no attribute 'get'")
  end.

(** [k in v] for a string [k]. *)
Definition py_in (k : string) (v : json) : res bool :=
  match v with
  | JObj d => Ok (dict_contains k d)
  | JArr l => Ok (existsb (fun x => match x with JStr t => String.eqb k t | _ => false end) l)
  | JStr s => Ok (str_contains k s)
  | _ => Raise (TypeError "argument is not iterable")
  end.

(** [v[k]] for a string [k]. *)
Definition py_getitem (v : json) (k : string) : res json :=
  match v with
  | JObj d => match assoc_lookup k d with
              | Some x => Ok x
              | None => Raise (KeyError k)
              end
  | JArr _ => Raise (TypeError "list indices must be integers or slices, not str")
  | JStr _ => Raise (TypeError "string indices must be integers, not 'str'")
  | _ => Raise (TypeError "object is not subscriptable")
  end.

Fixpoint chars_of (s : string) : list json :=
  match s with
  | EmptyString => []
  | String c rest => JStr (String c "") :: chars_of rest
  end.

(** [for x in v]: the items a [for] loop visits. *)
Definition py_iter (v : json) : res (list json) :=
  match v with
  | JArr l => Ok l
  | JObj d => Ok (map (fun kv => JStr (fst kv)) d)
  | JStr s => Ok (chars_of s)
  | _ => Raise (TypeError "object is not iterable")
  end.

(* ===================================================================== *)
(** * app/utils/retries.py                                                *)
(* ===================================================================== *)

Module Retries.

(** A delay as Python holds it: a binary64 float, given by its exact
    value when it is finite, or the infinity that doubling overflows to
    ([negative] for [-inf]). *)
Inductive pyfloat : Type :=
| Finite (value : Q)
| Infinity (negative : bool).

(** [sys.float_info.max], the largest finite float. *)
Definition float_max : Q := inject_Z (2 ^ 1024 - 2 ^ 971).

(** [delay * 2]: doubling a finite float is exact, unless the result
    lies beyond [float_max], where it is the infinity of the same sign. *)
Definition double (delay : pyfloat) : pyfloat :=
  match delay with
  | Finite q =>
      if Qle_bool (Qabs (q * 2)) float_max then Finite (q * 2)
      else Infinity (negb (Qle_bool 0 q))
  | Infinity negative => Infinity negative
  end.

(** What an observer of [async_retry] sees: an invocation of the operation,
    or a call of [asyncio.sleep] with the delay it is given, in seconds. *)
Inductive event : Type :=
| Called
| Slept (delay : pyfloat).

Section AsyncRetry.
Context {W T : Type}.

(** [func]: the awaited operation, acting on the state [W] of its world.
    [exc_types]: membership in the tuple of transient exception classes. *)
Variable func : W -> res T * W.
Variable exc_types : exn -> bool.
Variable retries : Z.

(** The [while True] loop; [fuel] bounds the number of iterations and
    [None] means the bound was hit.  A sleep is recorded with the delay
    it is given and the loop goes on after it. *)
Fixpoint async_retry_loop (fuel : nat) (attempt : Z) (delay : pyfloat) (w : W)
    (log : list event) : option (res T * W * list event) :=
  match fuel with
  | O => None
  | S fuel' =>
      let '(r, w1) := func w in
      let log1 := log ++ [Called] in
      match r with
      | Ok v => Some (Ok v, w1, log1)
      | Raise e =>
          if exc_types e then
            if attempt >=? retries then Some (Raise e, w1, log1)
            else async_retry_loop fuel' (attempt + 1) (double delay) w1
                   (log1 ++ [Slept delay])
          else Some (Raise e, w1, log1)
      end
  end.

(** Iterations the loop can need: one more than the retries still allowed. *)
Definition enough_fuel : nat := S (Z.to_nat retries).

(** [async_retry(func, retries=..., base_delay=..., exceptions=...)], with
    the log of what it did.  The loop ends within [enough_fuel] iterations,
    so the last branch is never taken. *)
Definition async_retry (base_delay : pyfloat) (w : W) : res T * W * list event :=
  match async_retry_loop enough_fuel 0 base_delay w [] with
  | Some out => out
  | None => (Raise (RuntimeError "unreachable"), w, [])
  end.

End AsyncRetry.

(** The number of invocations and the delays slept, read off a log. *)
Fixpoint calls (log : list event) : nat :=
  match log with
  | [] => O
  | Called :: rest => S (calls rest)
  | Slept _ :: rest => calls rest
  end.

Fixpoint sleeps (log : list event) : list pyfloat :=
  match log with
  | [] => []
  | Called :: rest => sleeps rest
  | Slept d :: rest => d :: sleeps rest
  end.

(** The state before the [k]-th invocation (counted from 0) and its outcome. *)
Fixpoint state_before {W T} (func : W -> res T * W) (w : W) (k : nat) : W :=
  match k with
  | O => w
  | S k' => state_before func (snd (func w)) k'
  end.

Definition outcome_at {W T} (func : W -> res T * W) (w : W) (k : nat) : res T :=
  fst (func (state_before func w k)).

(** Every attempt before the [k]-th failed, with a transient kind. *)
Definition transient_up_to {W T} (func : W -> res T * W) (exc_types : exn -> bool)
    (w : W) (k : nat) : Prop :=
  forall i, (i < k)%nat ->
    exists e, outcome_at func w i = Raise e /\ exc_types e = true.

(** The log of [j] failed attempts, each followed by its sleep, and one
    last attempt. *)
Fixpoint backoff_log (j : nat) (delay : pyfloat) : list event :=
  match j with
  | O => [Called]
  | S j' => Called :: Slept delay :: backoff_log j' (double delay)
  end.

(** The time asked of [asyncio.sleep] in all, in seconds: the sum of the
    delays, infinite as soon as one of them is. *)
Definition add_delay (a b : pyfloat) : pyfloat :=
  match a, b with
  | Finite x, Finite y => Finite (x + y)
  | Infinity negative, _ => Infinity negative
  | _, Infinity negative => Infinity negative
  end.

Definition total_sleep (log : list event) : pyfloat :=
  fold_right add_delay (Finite 0) (sleeps log).

End Retries.

(* ===================================================================== *)
(** * Data model                                                          *)
(* ===================================================================== *)

(** A 128-bit identifier ([uuid.UUID]), by its integer value. *)
Abbreviation UUID := N.

(** [app/config.py]: [Settings]. *)
Record Settings := {
  backend_timeout : Q;
  retry_attempts : Z;
  retry_backoff_base : Q;
}.

(** [app/services/registry_loader.py]: [ProviderConfig]. *)
Record ProviderConfig := {
  name : string;
  protocol : string;
  rpc_endpoint : string;
  auth_type : option string;
  api_key_header_name : option string;
  extra_headers : gmap string string;
  persist_response_headers : list string;
}.

(** [app/db/models.py]: [MCPGatewaySession].  [servers] holds the provider
    names of [servers_json] and [credentials] the bags of
    [credentials_json], in decoded form. *)
Record MCPGatewaySession := {
  session_id : UUID;
  state : string;
  servers : list string;
  credentials : gmap string (gmap string json);
}.

(** [app/services/connection_manager.py]: [BackendHandle].
    [client_headers] are the default headers of the wrapped client. *)
Record BackendHandle := {
  base_url : string;
  client_headers : gmap string json;
  closed : bool;
}.

(** A value of the tool map: [{"provider": ..., "backend_tool_name": ...}]. *)
Record ToolMapEntry := {
  provider : string;
  backend_tool_name : string;
}.

(** The dict stored in [cached_tools]: [{"result": ..., "tool_map": ...}]. *)
Record CachedTools := {
  cached_result : pydict;
  cached_tool_map : gmap string ToolMapEntry;
}.

(** [app/services/session_manager.py]: [RuntimeSessionState].  A handle is
    an object shared with the connection manager, so [connections] holds
    its address in the heap of handles. *)
Record RuntimeSessionState := {
  connections : list (string * nat);
  tool_name_map : gmap string ToolMapEntry;
  provider_session_headers : gmap string (gmap string string);
  cached_tools : option CachedTools;
  cached_tools_ts : option Q;
  cached_tools_providers : option (gset string);
}.

(** One HTTP request as it leaves a [BackendHandle]. *)
Record Request := {
  req_url : string;
  req_headers : gmap string json;
  req_json : pydict;
  req_timeout : Q;
}.

(** What [json.loads] makes of a text: the decoded value, a
    [JSONDecodeError] with its message, or, for a text nested deeper
    than the interpreter's recursion limit, a [RecursionError]. *)
Inductive loads_outcome : Type :=
| Decoded (v : json)
| DecodeError (msg : string)
| TooDeep (msg : string).

(** What the process reads from outside.
    - [json_loads]: [json.loads].
    - [request_url base_url]: the URL of a request that a client built
      with [httpx.AsyncClient(base_url=base_url)] posts to the relative
      URL [""]: httpx parses and normalises the base URL, puts a
      trailing slash on its path and merges the empty path into it.
    - [str_other]: [str(v)] for a float, a list or a dict.
    - [repr_str]: [repr(s)] of a string.
    - [status_error_message]: the text of the [HTTPStatusError] that
      [raise_for_status] builds.
    - [upstream k req]: what the [k]-th HTTP request of the process
      receives, a response or a raised transport exception.
    - [uuid4 k]: the [k]-th identifier drawn from [uuid.uuid4].
    - [time_time k]: the [k]-th reading of [time.time()], in seconds.
    Times are rationals. *)
Record Env := {
  settings : Settings;
  json_loads : string -> loads_outcome;
  request_url : string -> string;
  str_other : json -> string;
  repr_str : string -> string;
  status_error_message : Response -> string;
  upstream : nat -> Request -> res Response;
  uuid4 : nat -> UUID;
  time_time : nat -> Q;
}.

(** The mutable objects of the process.
    - [sessions_table]: the persistent table of session records.
    - [_providers]: [RegistryLoader._providers].
    - [handle_heap]: the [BackendHandle] objects, by address.
    - [_handles]: [ConnectionManager._handles].
    - [_runtime_sessions]: [SessionManager._runtime_sessions].
    - [_backend_to_client]: [IdMapper._backend_to_client].
    - [http_log]: every HTTP request sent so far, oldest first.
    - [uuids_drawn], [clock_reads]: how much of [uuid4] and [time_time]
      has been consumed. *)
Record World := {
  sessions_table : gmap UUID MCPGatewaySession;
  _providers : gmap string ProviderConfig;
  handle_heap : list BackendHandle;
  _handles : gmap UUID (gmap string nat);
  _runtime_sessions : gmap UUID RuntimeSessionState;
  _backend_to_client : gmap string (gmap string json);
  http_log : list Request;
  uuids_drawn : nat;
  clock_reads : nat;
}.

Definition set_handle_heap (f : list BackendHandle -> list BackendHandle) (w : World) : World :=
  {| sessions_table := sessions_table w; _providers := _providers w;
     handle_heap := f (handle_heap w); _handles := _handles w;
     _runtime_sessions := _runtime_sessions w;
     _backend_to_client := _backend_to_client w; http_log := http_log w;
     uuids_drawn := uuids_drawn w; clock_reads := clock_reads w |}.

Definition set_handles (f : gmap UUID (gmap string nat) -> gmap UUID (gmap string nat))
    (w : World) : World :=
  {| sessions_table := sessions_table w; _providers := _providers w;
     handle_heap := handle_heap w; _handles := f (_handles w);
     _runtime_sessions := _runtime_sessions w;
     _backend_to_client := _backend_to_client w; http_log := http_log w;
     uuids_drawn := uuids_drawn w; clock_reads := clock_reads w |}.

Definition set_runtime_sessions
    (f : gmap UUID RuntimeSessionState -> gmap UUID RuntimeSessionState)
    (w : World) : World :=
  {| sessions_table := sessions_table w; _providers := _providers w;
     handle_heap := handle_heap w; _handles := _handles w;
     _runtime_sessions := f (_runtime_sessions w);
     _backend_to_client := _backend_to_client w; http_log := http_log w;
     uuids_drawn := uuids_drawn w; clock_reads := clock_reads w |}.

Definition set_backend_to_client
    (f : gmap string (gmap string json) -> gmap string (gmap string json))
    (w : World) : World :=
  {| sessions_table := sessions_table w; _providers := _providers w;
     handle_heap := handle_heap w; _handles := _handles w;
     _runtime_sessions := _runtime_sessions w;
     _backend_to_client := f (_backend_to_client w); http_log := http_log w;
     uuids_drawn := uuids_drawn w; clock_reads := clock_reads w |}.

Definition set_http_log (f : list Request -> list Request) (w : World) : World :=
  {| sessions_table := sessions_table w; _providers := _providers w;
     handle_heap := handle_heap w; _handles := _handles w;
     _runtime_sessions := _runtime_sessions w;
     _backend_to_client := _backend_to_client w; http_log := f (http_log w);
     uuids_drawn := uuids_drawn w; clock_reads := clock_reads w |}.

Definition set_uuids_drawn (f : nat -> nat) (w : World) : World :=
  {| sessions_table := sessions_table w; _providers := _providers w;
     handle_heap := handle_heap w; _handles := _handles w;
     _runtime_sessions := _runtime_sessions w;
     _backend_to_client := _backend_to_client w; http_log := http_log w;
     uuids_drawn := f (uuids_drawn w); clock_reads := clock_reads w |}.

Definition set_clock_reads (f : nat -> nat) (w : World) : World :=
  {| sessions_table := sessions_table w; _providers := _providers w;
     handle_heap := handle_heap w; _handles := _handles w;
     _runtime_sessions := _runtime_sessions w;
     _backend_to_client := _backend_to_client w; http_log := http_log w;
     uuids_drawn := uuids_drawn w; clock_reads := f (clock_reads w) |}.

(* ===================================================================== *)
(** * The monad of the services: state and exceptions                     *)
(* ===================================================================== *)

(** A computation that may change the world and either returns or raises.
    The world survives a raise: what was mutated stays mutated. *)
Definition M (A : Type) : Type := World -> res A * World.

Definition ret {A} (a : A) : M A := fun w => (Ok a, w).

Definition raise {A} (e : exn) : M A := fun w => (Raise e, w).

Definition bind {A B} (m : M A) (k : A -> M B) : M B :=
  fun w =>
    match m w with
    | (Ok a, w') => k a w'
    | (Raise e, w') => (Raise e, w')
    end.

Notation "'let*' x ':=' m 'in' k" := (bind m (fun x => k))
  (at level 10, x pattern, m at level 100, k at level 200).

(** A pure expression that may raise. *)
Definition lift {A} (r : res A) : M A := fun w => (r, w).

Definition get_world : M World := fun w => (Ok w, w).

Definition modify (f : World -> World) : M unit := fun w => (Ok tt, f w).

(** A [try] block seen from its [except] clauses: the exception, caught. *)
Definition attempt {A} (m : M A) : M (res A) :=
  fun w => let '(r, w') := m w in (Ok r, w').

(** [await asyncio.gather] over the tasks: the results in the order of the tasks.
    The tasks are run one after the other, in list order; under asyncio
    their requests interleave, but no task reads what another writes, so
    the results are the same.  The first exception that escapes a task
    escapes the gather. *)
Fixpoint gather {A} (tasks : list (M A)) : M (list A) :=
  match tasks with
  | [] => ret []
  | t :: rest =>
      let* x := t in
      let* xs := gather rest in
      ret (x :: xs)
  end.

(** The world without its HTTP log: what a request leaves untouched. *)
Definition frame (w : World) : World := set_http_log (fun _ => []) w.

(** [str(v)]. *)
Definition py_str (E : Env) (v : json) : string :=
  match v with
  | JStr s => s
  | JNull => "None"
  | JBool true => "True"
  | JBool false => "False"
  | JInt n => pretty n
  | _ => str_other E v
  end.

(** [bool(error)] where [error] is an exception or [None]. *)
Definition is_Some_b {A} (o : option A) : bool :=
  match o with Some _ => true | None => false end.

(** [str(error)] where [error] is an exception or [None]. *)
Definition str_error (error : option exn) : string :=
  match error with
  | Some e => exn_message e
  | None => "None"
  end.

(** [json.loads(s)]. *)
Definition loads (E : Env) (s : string) : res json :=
  match json_loads E s with
  | Decoded v => Ok v
  | DecodeError msg => Raise (ValueError msg)
  | TooDeep msg => Raise (RecursionError msg)
  end.

(** [a < b] on rationals, as a boolean. *)
Definition Qltb (a b : Q) : bool := negb (Qle_bool b a).

(* ===================================================================== *)
(** * app/utils/id_map.py                                                 *)
(* ===================================================================== *)

Module IdMapper.

(** One lowercase hexadecimal digit. *)
Definition hex_char (d : N) : ascii :=
  if (d <? 10)%N then ascii_of_N (48 + d) else ascii_of_N (87 + d).

(** The [width] low hexadecimal digits of [n], most significant first. *)
Fixpoint hex_digits (width : nat) (n : N) : list ascii :=
  match width with
  | O => []
  | S width' => hex_digits width' (n / 16) ++ [hex_char (n mod 16)]
  end.

(** The groups of the canonical form, 8-4-4-4-12 digits joined by hyphens. *)
Definition hyphenate (h : list ascii) : list ascii :=
  firstn 8 h ++ "-"%char :: firstn 4 (skipn 8 h) ++ "-"%char ::
  firstn 4 (skipn 12 h) ++ "-"%char :: firstn 4 (skipn 16 h) ++ "-"%char ::
  skipn 20 h.

(** [str(u)] for a [UUID]: 32 hexadecimal digits in the canonical form. *)
Definition uuid_str (u : UUID) : string :=
  string_of_list_ascii (hyphenate (hex_digits 32 u)).

(** The canonical textual form of a UUID, as a check on a string: 36
    characters, hyphens at positions 8, 13, 18 and 23, lowercase
    hexadecimal digits elsewhere. *)
Definition is_hex_digit (c : ascii) : bool :=
  let n := char_code c in in_range 48 57 n || in_range 97 102 n.

Fixpoint canonical_from (pos : nat) (s : list ascii) : bool :=
  match s with
  | [] => Nat.eqb pos 36
  | c :: rest =>
      (if Nat.eqb pos 8 || Nat.eqb pos 13 || Nat.eqb pos 18 || Nat.eqb pos 23
       then Ascii.eqb c "-" else is_hex_digit c)
      && canonical_from (S pos) rest
  end.

Definition is_canonical_uuid (s : string) : bool :=
  canonical_from 0 (list_ascii_of_string s).

(** Reading the canonical form back: the digits without the hyphens, and
    the number they denote. *)
Definition unhyphenate (s : list ascii) : list ascii :=
  firstn 8 s ++ firstn 4 (skipn 9 s) ++ firstn 4 (skipn 14 s) ++
  firstn 4 (skipn 19 s) ++ skipn 24 s.

Definition hex_val (c : ascii) : N :=
  let n := char_code c in
  if in_range 48 57 n then (n - 48)%N else (n - 87)%N.

Definition of_hex_digits (h : list ascii) : N :=
  fold_left (fun acc c => (16 * acc + hex_val c)%N) h 0%N.

Definition parse_uuid (s : string) : UUID :=
  of_hex_digits (unhyphenate (list_ascii_of_string s)).

(** [IdMapper._key]: [f"{session_id}:{provider}"]. *)
Definition _key (session_id : UUID) (provider : string) : string :=
  uuid_str session_id +:+ ":" +:+ provider.

Section WithEnv.
Variable E : Env.

(** [IdMapper.register]. *)
Definition register (session_id : UUID) (provider : string) (client_id : json) : M string :=
  fun w =>
    let backend_id := uuid_str (uuid4 E (uuids_drawn w)) in
    let w := set_uuids_drawn S w in
    let key := _key session_id provider in
    let per_key := default ∅ (_backend_to_client w !! key) in
    (Ok backend_id,
     set_backend_to_client (fun m => <[key := <[backend_id := client_id]> per_key]> m) w).

(** [IdMapper.resolve_backend]; a miss is Python's [None]. *)
Definition resolve_backend (session_id : UUID) (provider : string) (backend_id : json)
    (w : World) : json :=
  let key := _key session_id provider in
  default JNull (default ∅ (_backend_to_client w !! key) !! py_str E backend_id).

End WithEnv.

(** [IdMapper.clear_session]. *)
Definition clear_session (session_id : UUID) : M unit :=
  let prefix := uuid_str session_id +:+ ":" in
  modify (set_backend_to_client
            (fun m => filter (fun kv : string * gmap string json =>
                                startswith kv.1 prefix = false) m)).

End IdMapper.

(* ===================================================================== *)
(** * app/services/auth_manager.py                                        *)
(* ===================================================================== *)

Module AuthManager.

(** The dict objects that [build_headers] touches live in a heap, by
    address: the dict behind [provider.extra_headers], the credential bag
    it is given, and the dict it returns. *)
Abbreviation dict_heap := (list (gmap string json)).

Definition deref (h : dict_heap) (l : nat) : gmap string json :=
  default ∅ (h !! l).

(** [(provider.auth_type or "none").lower()]. *)
Definition effective_auth_type (provider : ProviderConfig) : string :=
  lower (match auth_type provider with
         | Some s => if String.eqb s "" then "none" else s
         | None => "none"
         end).

(** [provider.api_key_header_name or "x-api-key"]. *)
Definition effective_header_name (provider : ProviderConfig) : string :=
  match api_key_header_name provider with
  | Some s => if String.eqb s "" then "x-api-key" else s
  | None => "x-api-key"
  end.

Section WithEnv.
Variable E : Env.

(** [AuthManager.build_headers] on objects.  [extra_ref] is the address of
    the dict that [provider.extra_headers] refers to and [creds_ref] that
    of the credential bag; the result is the address of [headers]. *)
Definition build_headers_obj (provider : ProviderConfig) (extra_ref creds_ref : nat)
    (h : dict_heap) : res nat * dict_heap :=
  (* headers = dict(provider.extra_headers or {}) *)
  let headers := length h in
  let h := h ++ [deref h extra_ref] in
  let auth_type_ := effective_auth_type provider in
  if String.eqb auth_type_ "none" || String.eqb auth_type_ "" then (Ok headers, h)
  else if String.eqb auth_type_ "bearer" then
    let token := default JNull (deref h creds_ref !! "token") in
    if negb (truthy token) then
      (Raise (ValueError ("Missing 'token' for bearer auth (provider=" +:+ name provider +:+ ")")), h)
    else
      (Ok headers,
       <[headers := <["Authorization" := JStr ("Bearer " +:+ py_str E token)]> (deref h headers)]> h)
  else if String.eqb auth_type_ "api_key" then
    let get k := default JNull (deref h creds_ref !! k) in
    let key := py_or (py_or (get "api_key") (get "key")) (get "token") in
    if negb (truthy key) then
      (Raise (ValueError ("Missing API key credential for provider=" +:+ name provider +:+
                          " (expected 'api_key' or 'key' or 'token')")), h)
    else
      let header_name := effective_header_name provider in
      (Ok headers, <[headers := <[header_name := key]> (deref h headers)]> h)
  else
    (Raise (ValueError ("Unsupported auth_type '" +:+ default "" (auth_type provider) +:+
                        "' for provider=" +:+ name provider)), h).

(** [build_headers] on values: the provider's extra headers at address 0,
    the credential bag at address 1, and the returned dict read back. *)
Definition build_headers (provider : ProviderConfig) (credentials : gmap string json)
    : res (gmap string json) :=
  let '(r, h) :=
    build_headers_obj provider 0 1 [JStr <$> extra_headers provider; credentials] in
  match r with
  | Ok headers => Ok (deref h headers)
  | Raise e => Raise e
  end.

End WithEnv.

End AuthManager.

(* ===================================================================== *)
(** * app/services/registry_loader.py                                     *)
(* ===================================================================== *)

Module RegistryLoader.

(** [RegistryLoader.get_provider_config]. *)
Definition get_provider_config (name : string) : M ProviderConfig :=
  fun w =>
    match _providers w !! name with
    | Some cfg => (Ok cfg, w)
    | None => (Raise (KeyError ("Provider '" +:+ name +:+ "' not found in registry")), w)
    end.

(** [RegistryLoader.list_providers]. *)
Definition list_providers : M (gmap string ProviderConfig) :=
  fun w => (Ok (_providers w), w).

End RegistryLoader.

(* ===================================================================== *)
(** * app/services/connection_manager.py                                  *)
(* ===================================================================== *)

Module ConnectionManager.

(** [BackendHandle.__init__]. *)
Definition new_handle (base_url : string) (headers : gmap string json) : BackendHandle :=
  {| base_url := base_url; client_headers := headers; closed := false |}.

Section WithEnv.
Variable E : Env.

(** [do_request] inside [BackendHandle.post]: one HTTP request, posted
    to the relative URL [""] of the client and sent with the default
    headers the client has at that moment.  An address outside the heap
    does not occur in a running process. *)
Definition do_request (handle : nat) (json : pydict) (timeout : option Q)
    : World -> res Response * World :=
  fun w =>
    match handle_heap w !! handle with
    | None => (Raise (RuntimeError "no such handle"), w)
    | Some hd =>
        let req := {| req_url := request_url E (base_url hd);
                      req_headers := client_headers hd;
                      req_json := json;
                      req_timeout :=
                        match timeout with
                        | Some t => if Qeq_bool t 0 then backend_timeout (settings E) else t
                        | None => backend_timeout (settings E)
                        end |} in
        (upstream E (length (http_log w)) req, set_http_log (fun l => l ++ [req]) w)
    end.

(** [BackendHandle.post]. *)
Definition post (handle : nat) (json : pydict) (timeout : option Q) : M Response :=
  fun w =>
    match handle_heap w !! handle with
    | None => (Raise (RuntimeError "no such handle"), w)
    | Some hd =>
        if closed hd then (Raise (RuntimeError "BackendHandle is closed"), w)
        else
          let '(resp, w', _) :=
            Retries.async_retry (do_request handle json timeout) is_RequestError
              (retry_attempts (settings E))
              (Retries.Finite (retry_backoff_base (settings E))) w in
          (resp, w')
    end.

End WithEnv.

(** [BackendHandle.update_headers]: the new entries win.  Header names
    are compared as dict keys. *)
Definition update_headers (handle : nat) (headers : gmap string string) : M unit :=
  modify (set_handle_heap (fun hp =>
    match hp !! handle with
    | Some hd =>
        <[handle := {| base_url := base_url hd;
                       client_headers := (JStr <$> headers) ∪ client_headers hd;
                       closed := closed hd |}]> hp
    | None => hp
    end)).

(** [BackendHandle.aclose]. *)
Definition aclose (handle : nat) : M unit :=
  modify (set_handle_heap (fun hp =>
    match hp !! handle with
    | Some hd =>
        if closed hd then hp
        else <[handle := {| base_url := base_url hd;
                            client_headers := client_headers hd;
                            closed := true |}]> hp
    | None => hp
    end)).

(** [ConnectionManager.get_or_create_handle]; the body runs under the
    manager's lock. *)
Definition get_or_create_handle (session_id : UUID) (provider_name rpc_endpoint : string)
    (headers : gmap string json) (runtime : option RuntimeSessionState) : M nat :=
  fun w =>
    (* per_session = self._handles.setdefault(session_id, {}) *)
    let per_session := default ∅ (_handles w !! session_id) in
    let w := set_handles (fun m => <[session_id := per_session]> m) w in
    match per_session !! provider_name with
    | Some handle => (Ok handle, w)
    | None =>
        let merged_headers : gmap string json := headers in
        let merged_headers :=
          match runtime with
          | Some rt =>
              let provider_headers :=
                default ∅ (provider_session_headers rt !! provider_name) in
              (JStr <$> provider_headers) ∪ merged_headers
          | None => merged_headers
          end in
        (* handle = BackendHandle(base_url=rpc_endpoint, headers=headers) *)
        let handle := length (handle_heap w) in
        let w := set_handle_heap (fun hp => hp ++ [new_handle rpc_endpoint headers]) w in
        let w := set_handles
                   (fun m => <[session_id := <[provider_name := handle]> per_session]> m) w in
        (Ok handle, w)
    end.

(** [ConnectionManager.get_handle]. *)
Definition get_handle (session_id : UUID) (provider_name : string) (w : World) : option nat :=
  default ∅ (_handles w !! session_id) !! provider_name.

(** [ConnectionManager.aclose_all]. *)
Definition aclose_all : M unit :=
  fun w =>
    let all := concat (map (fun per_session : gmap string nat => map snd (map_to_list per_session))
                           (map snd (map_to_list (_handles w)))) in
    let '(_, w) := gather (map aclose all) w in
    (Ok tt, set_handles (fun _ => ∅) w).

End ConnectionManager.

(* ===================================================================== *)
(** * app/services/session_manager.py                                     *)
(* ===================================================================== *)

Module SessionManager.

(** [RuntimeSessionState(connections={}, tool_name_map={})]. *)
Definition new_runtime : RuntimeSessionState :=
  {| connections := []; tool_name_map := ∅; provider_session_headers := ∅;
     cached_tools := None; cached_tools_ts := None; cached_tools_providers := None |}.

Definition with_connections (c : list (string * nat)) (rt : RuntimeSessionState)
    : RuntimeSessionState :=
  {| connections := c; tool_name_map := tool_name_map rt;
     provider_session_headers := provider_session_headers rt;
     cached_tools := cached_tools rt; cached_tools_ts := cached_tools_ts rt;
     cached_tools_providers := cached_tools_providers rt |}.

Definition with_tool_name_map (m : gmap string ToolMapEntry) (rt : RuntimeSessionState)
    : RuntimeSessionState :=
  {| connections := connections rt; tool_name_map := m;
     provider_session_headers := provider_session_headers rt;
     cached_tools := cached_tools rt; cached_tools_ts := cached_tools_ts rt;
     cached_tools_providers := cached_tools_providers rt |}.

Definition with_provider_session_headers (m : gmap string (gmap string string))
    (rt : RuntimeSessionState) : RuntimeSessionState :=
  {| connections := connections rt; tool_name_map := tool_name_map rt;
     provider_session_headers := m;
     cached_tools := cached_tools rt; cached_tools_ts := cached_tools_ts rt;
     cached_tools_providers := cached_tools_providers rt |}.

Definition with_cache (c : option CachedTools) (ts : option Q) (ps : option (gset string))
    (rt : RuntimeSessionState) : RuntimeSessionState :=
  {| connections := connections rt; tool_name_map := tool_name_map rt;
     provider_session_headers := provider_session_headers rt;
     cached_tools := c; cached_tools_ts := ts; cached_tools_providers := ps |}.

(** An attribute assignment on the runtime object of a session. *)
Definition update_runtime (session_id : UUID)
    (f : RuntimeSessionState -> RuntimeSessionState) : M unit :=
  modify (set_runtime_sessions (fun m =>
    match m !! session_id with
    | Some rt => <[session_id := f rt]> m
    | None => m
    end)).

(** [SessionManager._load_session_model]. *)
Definition _load_session_model (session_id : UUID) : M (option MCPGatewaySession) :=
  fun w => (Ok (sessions_table w !! session_id), w).

(** [SessionManager.ensure_session_exists]. *)
Definition ensure_session_exists (session_id : UUID) : M MCPGatewaySession :=
  let* sess := _load_session_model session_id in
  match sess with
  | None => raise (KeyError ("Session " +:+ IdMapper.uuid_str session_id +:+ " not found"))
  | Some sess => ret sess
  end.

Section WithEnv.
Variable E : Env.

(** The [for s in servers] loop of [_build_runtime_state]. *)
Fixpoint build_connections (db_session : MCPGatewaySession) (servers : list string)
    (runtime : RuntimeSessionState) : M RuntimeSessionState :=
  match servers with
  | [] => ret runtime
  | name :: rest =>
      let* provider_cfg := RegistryLoader.get_provider_config name in
      let creds_for_provider := default ∅ (credentials db_session !! name) in
      let* headers := lift (AuthManager.build_headers E provider_cfg creds_for_provider) in
      let* handle := ConnectionManager.get_or_create_handle
                       (session_id db_session) name (rpc_endpoint provider_cfg) headers None in
      build_connections db_session rest
        (with_connections (assoc_set name handle (connections runtime)) runtime)
  end.

(** [SessionManager._build_runtime_state]. *)
Definition _build_runtime_state (db_session : MCPGatewaySession) : M RuntimeSessionState :=
  let* runtime := build_connections db_session (servers db_session) new_runtime in
  let* _ := modify (set_runtime_sessions
                      (fun m => <[session_id db_session := runtime]> m)) in
  ret runtime.

(** [SessionManager.get_runtime_state]. *)
Definition get_runtime_state (session_id : UUID) : M RuntimeSessionState :=
  let* w := get_world in
  match _runtime_sessions w !! session_id with
  | Some runtime => ret runtime
  | None =>
      let* sess := _load_session_model session_id in
      match sess with
      | None => raise (KeyError ("Session " +:+ IdMapper.uuid_str session_id +:+ " not found"))
      | Some sess => _build_runtime_state sess
      end
  end.

End WithEnv.

(** [SessionManager.update_tool_map]: a write for an unknown runtime is
    dropped. *)
Definition update_tool_map (session_id : UUID) (tool_map : gmap string ToolMapEntry) : M unit :=
  update_runtime session_id (with_tool_name_map tool_map).

(** [SessionManager.get_tool_mapping]. *)
Definition get_tool_mapping (session_id : UUID) (w : World) : gmap string ToolMapEntry :=
  match _runtime_sessions w !! session_id with
  | Some runtime => tool_name_map runtime
  | None => ∅
  end.

(** [SessionManager.get_session_info]. *)
Definition get_session_info (session_id : UUID) : M (option MCPGatewaySession) :=
  _load_session_model session_id.

(** A write to the table of session records. *)
Definition set_sessions_table
    (f : gmap UUID MCPGatewaySession -> gmap UUID MCPGatewaySession) (w : World) : World :=
  {| sessions_table := f (sessions_table w); _providers := _providers w;
     handle_heap := handle_heap w; _handles := _handles w;
     _runtime_sessions := _runtime_sessions w;
     _backend_to_client := _backend_to_client w; http_log := http_log w;
     uuids_drawn := uuids_drawn w; clock_reads := clock_reads w |}.

Definition with_state (state : string) (sess : MCPGatewaySession) : MCPGatewaySession :=
  {| session_id := session_id sess; state := state; servers := servers sess;
     credentials := credentials sess |}.

(** [SessionManager._update_state]: a session that is not in the table is
    left alone. *)
Definition _update_state (session_id : UUID) (state : string) : M unit :=
  modify (set_sessions_table (fun t =>
    match t !! session_id with
    | Some sess => <[session_id := with_state state sess]> t
    | None => t
    end)).

Section Lifecycle.
Variable E : Env.

(** [SessionManager._persist_session]: a new row, whose [id] is the
    column default [uuid4()].  [id] is the primary key of the table: a row
    whose id is taken is refused by the database with an
    [IntegrityError], an exception class that no handler of the services
    names and that is written [RuntimeError] here. *)
Definition _persist_session (servers : list ProviderConfig)
    (credentials : gmap string (gmap string json)) (state : string) : M MCPGatewaySession :=
  fun w =>
    let id := uuid4 E (uuids_drawn w) in
    let w := set_uuids_drawn S w in
    let session_obj :=
      {| session_id := id; state := state; servers := map name servers;
         credentials := credentials |} in
    match sessions_table w !! id with
    | Some _ => (Raise (RuntimeError "IntegrityError: UNIQUE constraint failed: sessions.id"), w)
    | None => (Ok session_obj, set_sessions_table (fun t => <[id := session_obj]> t) w)
    end.

(** The [for name in servers] loop of [create_session]. *)
Fixpoint validate_providers (servers : list string) (provider_cfgs : list ProviderConfig)
    : M (list ProviderConfig) :=
  match servers with
  | [] => ret provider_cfgs
  | name :: rest =>
      let* found := attempt (RegistryLoader.get_provider_config name) in
      match found with
      | Raise e =>
          if is_KeyError e then raise (ValueError ("Unknown provider '" +:+ name +:+ "'"))
          else raise e
      | Ok cfg =>
          if negb (String.eqb (lower (protocol cfg)) "http") then
            raise (ValueError ("Provider '" +:+ name +:+ "' uses unsupported protocol '" +:+
                               protocol cfg +:+ "'. Only 'http' is supported for now."))
          else validate_providers rest (provider_cfgs ++ [cfg])
      end
  end.

(** [SessionManager.create_session]. *)
Definition create_session (servers : list string)
    (credentials : gmap string (gmap string json)) : M MCPGatewaySession :=
  let* provider_cfgs := validate_providers servers [] in
  let* db_session := _persist_session provider_cfgs credentials "ready" in
  let* built := attempt (_build_runtime_state E db_session) in
  match built with
  | Raise e =>
      let* _ := _update_state (session_id db_session) "failed" in
      raise e
  | Ok _ => ret db_session
  end.

(** The [for sess in sessions] loop of [load_persisted_sessions]: every
    exception of [_build_runtime_state] is caught and logged. *)
Fixpoint restore_sessions (sessions : list MCPGatewaySession) : M unit :=
  match sessions with
  | [] => ret tt
  | sess :: rest =>
      let* _ := attempt (_build_runtime_state E sess) in
      restore_sessions rest
  end.

(** [SessionManager.load_persisted_sessions]: the rows whose state is
    [ready], in the order in which the table lists them. *)
Definition load_persisted_sessions : M unit :=
  let* w := get_world in
  let sessions :=
    List.filter (fun sess => String.eqb (state sess) "ready")
                (map snd (map_to_list (sessions_table w))) in
  restore_sessions sessions.

End Lifecycle.

End SessionManager.

(* ===================================================================== *)
(** * app/services/multiplexer.py                                         *)
(* ===================================================================== *)

Module Multiplexer.

(** [Headers.get(key, default)] of httpx: the match on the name ignores
    case, several values are joined by a comma. *)
Definition headers_get (key dflt : string) (hs : list (string * string)) : string :=
  match map snd (List.filter (fun kv => String.eqb (lower (fst kv)) (lower key)) hs) with
  | [] => dflt
  | vs => String.concat ", " vs
  end.

(** [Headers.items()] of httpx: lowercased names, one item per name. *)
Definition headers_items (hs : list (string * string)) : list (string * string) :=
  fold_left
    (fun d kv =>
       let key := lower (fst kv) in
       match assoc_lookup key d with
       | Some old => assoc_set key (old +:+ ", " +:+ snd kv) d
       | None => assoc_set key (snd kv) d
       end)
    hs [].

(** [re.sub(r"[^a-zA-Z0-9_-]", "_", s)]. *)
Definition is_safe_char (c : ascii) : bool :=
  let n := char_code c in
  in_range 97 122 n || in_range 65 90 n || in_range 48 57 n
  || (n =? 95)%N || (n =? 45)%N.

Fixpoint sanitize (s : string) : string :=
  match s with
  | EmptyString => EmptyString
  | String c rest => String (if is_safe_char c then c else "_"%char) (sanitize rest)
  end.

(** [MCPMultiplexer._make_prefixed_tool_name]. *)
Definition _make_prefixed_tool_name (provider name : string) : string :=
  sanitize provider +:+ "__" +:+ sanitize name.

(** The [for line in body.splitlines()] loop of [parse_sse_json_body]. *)
Fixpoint find_data_line (lines : list string) : option string :=
  match lines with
  | [] => None
  | line :: rest =>
      let line := strip line in
      if startswith line "data:" then Some (strip (drop_chars 5 line))
      else find_data_line rest
  end.

Section WithEnv.
Variable E : Env.

(** [parse_sse_json_body]. *)
Definition parse_sse_json_body (body : string) : res json :=
  match find_data_line (splitlines body) with
  | None => Raise (ValueError ("No 'data:' line found in SSE body: " +:+ repr_str E body))
  | Some data_line => loads E data_line
  end.

(** [resp.json()]. *)
Definition resp_json (resp : Response) : res json := loads E (text resp).

(** [resp.raise_for_status()]. *)
Definition raise_for_status (resp : Response) : res unit :=
  if (200 <=? status_code resp) && (status_code resp <? 300) then Ok tt
  else Raise (HTTPStatusError (status_error_message E resp) resp).

(** The body shared by both [call_provider]s: decode by content type. *)
Definition decode_body (resp : Response) : res json :=
  if startswith (headers_get "content-type" "" (resp_headers resp)) "text/event-stream"
  then parse_sse_json_body (text resp)
  else resp_json resp.

Definition caught (e : exn) : bool := is_HTTPError e || is_ValueError e.

(** [call_provider] of [initialize]: the reply is decoded, then its status
    is checked; [(httpx.HTTPError, ValueError)] are caught. *)
Definition initialize_call_provider (connections : list (string * nat))
    (initialize_request : pydict) (provider : string)
    : M (string * json * option exn * option Response) :=
  match assoc_lookup provider connections with
  | None => raise (KeyError provider)
  | Some handle =>
      let* posted := attempt (ConnectionManager.post E handle initialize_request (Some 60%Q)) in
      match posted with
      | Raise e => if caught e then ret (provider, JNull, Some e, None) else raise e
      | Ok resp =>
          match (let! data := decode_body resp in
                 let! _ := raise_for_status resp in
                 Ok data) with
          | Ok data => ret (provider, data, None, Some resp)
          | Raise e =>
              if caught e then ret (provider, JNull, Some e, Some resp) else raise e
          end
      end
  end.

(** [call_provider] of [list_tools]: the reply is decoded; its status is
    not looked at. *)
Definition list_tools_call_provider (connections : list (string * nat))
    (request_body : pydict) (provider : string) : M (string * json * option exn) :=
  match assoc_lookup provider connections with
  | None => raise (KeyError provider)
  | Some handle =>
      let* posted := attempt (ConnectionManager.post E handle request_body (Some 60%Q)) in
      match posted with
      | Raise e => if caught e then ret (provider, JNull, Some e) else raise e
      | Ok resp =>
          match decode_body resp with
          | Ok data => ret (provider, data, None)
          | Raise e => if caught e then ret (provider, JNull, Some e) else raise e
          end
      end
  end.

End WithEnv.

(** The accumulators of a merge loop. *)
Record Merged := {
  combined_tools : list json;
  tool_map : gmap string ToolMapEntry;
  server_info : list json;
}.

Definition no_tools : Merged :=
  {| combined_tools := []; tool_map := ∅; server_info := [] |}.

Definition error_entry (provider : string) (error : option exn) : json :=
  JObj [("provider", JStr provider); ("status", JStr "error");
        ("message", JStr (str_error error))].

Definition ok_entry (provider : string) (tool_count : Z) : json :=
  JObj [("provider", JStr provider); ("status", JStr "ok");
        ("tool_count", JInt tool_count)].


Definition add_server_info (entry : json) (acc : Merged) : Merged :=
  {| combined_tools := combined_tools acc; tool_map := tool_map acc;
     server_info := server_info acc ++ [entry] |}.

(** The [for tool in tools] loop, the same in [initialize] and
    [list_tools]; [re.sub] raises on a name that is not a string. *)
Fixpoint merge_tools (provider : string) (tools : list json) (acc : Merged)
    (tool_count : Z) : res (Merged * Z) :=
  match tools with
  | [] => Ok (acc, tool_count)
  | tool :: rest =>
      let! name := py_get tool "name" in
      if negb (truthy name) then merge_tools provider rest acc tool_count
      else
        match tool, name with
        | JObj fields, JStr name =>
            let prefixed_name := _make_prefixed_tool_name provider name in
            let new_tool := JObj (dict_set "name" (JStr prefixed_name) fields) in
            let acc :=
              {| combined_tools := combined_tools acc ++ [new_tool];
                 tool_map := <[prefixed_name :=
                                 {| provider := provider; backend_tool_name := name |}]>
                               (tool_map acc);
                 server_info := server_info acc |} in
            merge_tools provider rest acc (tool_count + 1)
        | _, _ => Raise (TypeError "expected string or bytes-like object")
        end
  end.

(** [tools = (payload.get("result") or {}).get("tools") or []], as the
    items the [for] loop will visit. *)
Definition tools_of (payload : json) : res (list json) :=
  let! result := py_get payload "result" in
  let! tools := py_get (py_or result (JObj [])) "tools" in
  py_iter (py_or tools (JArr [])).

(** The part of a merge-loop iteration after the error check, common to
    [initialize] and [list_tools]. *)
Definition merge_payload (provider : string) (payload : json) (acc : Merged) : res Merged :=
  let! tools := tools_of payload in
  let! (acc, tool_count) := merge_tools provider tools acc 0 in
  Ok (add_server_info (ok_entry provider tool_count) acc).

(** The merge loop of [list_tools]. *)
Fixpoint list_tools_merge (results : list (string * json * option exn)) (acc : Merged)
    : res Merged :=
  match results with
  | [] => Ok acc
  | (provider, payload, error) :: rest =>
      if is_Some_b error || negb (truthy payload) then
        list_tools_merge rest (add_server_info (error_entry provider error) acc)
      else
        let! acc := merge_payload provider payload acc in
        list_tools_merge rest acc
  end.




(** The [server_info] entry that a result of the fan-out calls for: an
    error entry with the text of its exception when the call failed or the
    payload is falsy, an ok entry with some tool count otherwise. *)
Definition entry_matches (r : string * json * option exn) (entry : json) : Prop :=
  let '(provider, payload, error) := r in
  if is_Some_b error || negb (truthy payload)
  then entry = error_entry provider error
  else exists tool_count : Z, entry = ok_entry provider tool_count.

(** Accumulators that [tools/call] can route by: every merged tool is an
    object whose [name] is a key of the tool map, and every key of the
    tool map is the prefixed name of the provider and the backend tool
    that its entry names. *)
Definition routable (acc : Merged) : Prop :=
  (forall tool : json, In tool (combined_tools acc) ->
     exists (fields : pydict) (prefixed_name : string),
       tool = JObj fields /\ dict_get "name" fields = JStr prefixed_name /\
       is_Some (tool_map acc !! prefixed_name)) /\
  (forall (prefixed_name : string) (entry : ToolMapEntry),
     tool_map acc !! prefixed_name = Some entry ->
     prefixed_name = _make_prefixed_tool_name (provider entry) (backend_tool_name entry)).

(** The [tool_count] of a [server_info] entry; an error entry has none
    and counts for 0. *)
Definition entry_tool_count (entry : json) : Z :=
  match entry with
  | JObj fields => match dict_get "tool_count" fields with
                   | JInt n => n
                   | _ => 0
                   end
  | _ => 0
  end.

(** The tools that the entries of a [server_info] list account for. *)
Definition sum_tool_counts (entries : list json) : Z :=
  fold_right Z.add 0 (map entry_tool_count entries).



(** [time.time()]. *)
Definition now (E : Env) : M Q :=
  fun w => (Ok (time_time E (clock_reads w)), set_clock_reads S w).

Definition CACHE_TTL_SECONDS : Q := 600.

Section Operations.
Variable E : Env.

(** The [persist_response_headers] block of [initialize]. *)
Definition persist_headers (session_id : UUID) (connections : list (string * nat))
    (provider : string) (resp : option Response) : M unit :=
  let* provider_cfg := RegistryLoader.get_provider_config provider in
  let wanted := map lower (persist_response_headers provider_cfg) in
  match resp, wanted with
  | Some resp, _ :: _ =>
      let session_headers : gmap string string :=
        list_to_map
          (List.filter (fun kv => existsb (String.eqb (lower (fst kv))) wanted)
                       (headers_items (resp_headers resp))) in
      if bool_decide (session_headers = ∅) then ret tt
      else
        let* _ := SessionManager.update_runtime session_id (fun rt =>
                    let psh := provider_session_headers rt in
                    SessionManager.with_provider_session_headers
                      (<[provider := session_headers ∪ default ∅ (psh !! provider)]> psh) rt) in
        match assoc_lookup provider connections with
        | None => raise (KeyError provider)
        | Some handle => ConnectionManager.update_headers handle session_headers
        end
  | _, _ => ret tt
  end.

(** [if not base_result and "result" in payload and
    isinstance(payload["result"], dict): base_result = dict(payload["result"])]. *)
Definition pick_base_result (base_result : pydict) (payload : json) : res pydict :=
  match base_result with
  | _ :: _ => Ok base_result
  | [] =>
      let! has_result := py_in "result" payload in
      if has_result then
        let! result := py_getitem payload "result" in
        match result with
        | JObj fields => Ok fields
        | _ => Ok base_result
        end
      else Ok base_result
  end.

(** The merge loop of [initialize]. *)
Fixpoint initialize_merge (session_id : UUID) (connections : list (string * nat))
    (results : list (string * json * option exn * option Response))
    (acc : Merged) (base_result : pydict) : M (Merged * pydict) :=
  match results with
  | [] => ret (acc, base_result)
  | (provider, payload, error, resp) :: rest =>
      if is_Some_b error || negb (truthy payload) then
        initialize_merge session_id connections rest
          (add_server_info (error_entry provider error) acc) base_result
      else
        let* _ := persist_headers session_id connections provider resp in
        let* base_result := lift (pick_base_result base_result payload) in
        let* acc := lift (merge_payload provider payload acc) in
        initialize_merge session_id connections rest acc base_result
  end.

(** [MCPMultiplexer.initialize]. *)
Definition initialize (session_id : UUID) (initialize_request : pydict) : M pydict :=
  let* runtime := SessionManager.get_runtime_state E session_id in
  let connections := connections runtime in
  let tasks := map (initialize_call_provider E connections initialize_request)
                   (assoc_keys connections) in
  let* results := gather tasks in
  let* (acc, base_result) := initialize_merge session_id connections results no_tools [] in
  let base_result := dict_set "tools" (JArr (combined_tools acc)) base_result in
  let base_result := dict_set "server_info" (JArr (server_info acc)) base_result in
  let* _ := SessionManager.update_tool_map session_id (tool_map acc) in
  ret base_result.

(** The test that guards the cache of [list_tools]. *)
Definition cache_is_fresh (runtime : RuntimeSessionState) (current_providers : gset string)
    (now : Q) : option CachedTools :=
  match cached_tools runtime, cached_tools_ts runtime with
  | Some cached, Some ts =>
      if bool_decide (cached_tools_providers runtime = Some current_providers)
         && Qltb (now - ts) CACHE_TTL_SECONDS
      then Some cached else None
  | _, _ => None
  end.

(** [MCPMultiplexer.list_tools]. *)
Definition list_tools (session_id : UUID) (request_body : pydict) : M pydict :=
  let* runtime := SessionManager.get_runtime_state E session_id in
  let connections := connections runtime in
  let current_providers : gset string := list_to_set (assoc_keys connections) in
  let* now := now E in
  match cache_is_fresh runtime current_providers now with
  | Some cached =>
      let result := cached_result cached in
      let tool_map := cached_tool_map cached in
      let* _ := SessionManager.update_tool_map session_id tool_map in
      ret result
  | None =>
      let tasks := map (list_tools_call_provider E connections request_body)
                       (assoc_keys connections) in
      let* results := gather tasks in
      let* acc := lift (list_tools_merge results no_tools) in
      let* _ := SessionManager.update_tool_map session_id (tool_map acc) in
      let result := [("tools", JArr (combined_tools acc));
                     ("server_info", JArr (server_info acc))] in
      let* stamp := Multiplexer.now E in
      let* _ := SessionManager.update_runtime session_id
                  (SessionManager.with_cache
                     (Some {| cached_result := result; cached_tool_map := tool_map acc |})
                     (Some stamp) (Some current_providers)) in
      ret result
  end.

End Operations.

End Multiplexer.

(* ===================================================================== *)
(** * app/services/protocol_handler.py                                    *)
(* ===================================================================== *)

Module ProtocolHandler.

(** [ProtocolHandler._jsonrpc_error]. *)
Definition _jsonrpc_error (request_body : pydict) (code : Z) (message : string)
    (data : option pydict) : pydict :=
  [("jsonrpc", dict_get_default "jsonrpc" (JStr "2.0") request_body);
   ("id", dict_get "id" request_body);
   ("error", JObj ([("code", JInt code); ("message", JStr message)] ++
                   match data with
                   | Some d => [("data", JObj d)]
                   | None => []
                   end))].

(** The [code] of the [error] member of a JSON-RPC response, if any. *)
Definition error_code (response : pydict) : option Z :=
  match dict_get "error" response with
  | JObj e => match dict_get "code" e with
              | JInt c => Some c
              | _ => None
              end
  | _ => None
  end.

(** The [data] of the [error] member of a JSON-RPC response; a missing
    one is Python's [None]. *)
Definition error_data (response : pydict) : json :=
  match dict_get "error" response with
  | JObj e => dict_get "data" e
  | _ => JNull
  end.

(** [v == s] for a string literal [s]. *)
Definition eq_str (v : json) (s : string) : bool :=
  match v with JStr t => String.eqb t s | _ => false end.

Section WithEnv.
Variable E : Env.

(** [ProtocolHandler._handle_initialize]. *)
Definition _handle_initialize (session_id : UUID) (body : pydict) : M pydict :=
  let* combined_result := Multiplexer.initialize E session_id body in
  ret [("jsonrpc", dict_get_default "jsonrpc" (JStr "2.0") body);
       ("id", dict_get "id" body);
       ("result", JObj combined_result)].

(** [ProtocolHandler._handle_tools_list]. *)
Definition _handle_tools_list (session_id : UUID) (body : pydict) : M pydict :=
  let* combined_result := Multiplexer.list_tools E session_id body in
  ret [("jsonrpc", dict_get_default "jsonrpc" (JStr "2.0") body);
       ("id", dict_get "id" body);
       ("result", JObj combined_result)].

(** [tool_map.get(tool_name)]: a list or a dict cannot be hashed, a value
    that is not a string is no key of the map. *)
Definition tool_map_get (tool_map : gmap string ToolMapEntry) (tool_name : json)
    : res (option ToolMapEntry) :=
  match tool_name with
  | JStr s => Ok (tool_map !! s)
  | JArr _ | JObj _ => Raise (TypeError "unhashable type")
  | _ => Ok None
  end.

(** The [try] block of [_handle_tools_call] up to the decoded payload:
    [inl] is the payload, [inr] a JSON-RPC error returned from inside.
    The server-sent-event branch catches every [Exception] of the
    parser, the JSON branch a [ValueError] only. *)
Definition forward (body : pydict) (provider : string) (handle : nat)
    (forward_body : pydict) : M (res (pydict + pydict)) :=
  attempt (
    let* resp := ConnectionManager.post E handle forward_body
                   (Some (backend_timeout (settings E))) in
    let* _ := lift (Multiplexer.raise_for_status E resp) in
    let body_text := text resp in
    let content_type := Multiplexer.headers_get "content-type" "" (resp_headers resp) in
    let decoded : res (json + pydict) :=
      if startswith content_type "text/event-stream" then
        match Multiplexer.parse_sse_json_body E body_text with
        | Ok v => Ok (inl v)
        | Raise _ =>
            Ok (inr (_jsonrpc_error body (-32004)
                       ("Backend '" +:+ provider +:+ "' returned invalid SSE/JSON") None))
        end
      else
        match Multiplexer.resp_json E resp with
        | Ok v => Ok (inl v)
        | Raise e =>
            if is_ValueError e then
              Ok (inr (_jsonrpc_error body (-32004)
                         ("Backend '" +:+ provider +:+ "' returned invalid JSON") None))
            else Raise e
        end in
    match decoded with
    | Raise e => raise e
    | Ok (inr err) => ret (inr err)
    | Ok (inl (JObj backend_payload)) => ret (inl backend_payload)
    | Ok (inl _) =>
        ret (inr (_jsonrpc_error body (-32603)
                    ("Backend '" +:+ provider +:+ "' returned invalid response format") None))
    end).

(** [ProtocolHandler._handle_tools_call]. *)
Definition _handle_tools_call (session_id : UUID) (body : pydict) : M pydict :=
  let params := py_or (dict_get "params" body) (JObj []) in
  let* tool_name := lift (py_get params "name") in
  if negb (truthy tool_name) then
    ret (_jsonrpc_error body (-32602) "Missing tool 'name' in params" None)
  else
  let* w := get_world in
  let tool_map := SessionManager.get_tool_mapping session_id w in
  let* tool_info := lift (tool_map_get tool_map tool_name) in
  match tool_info with
  | None =>
      ret (_jsonrpc_error body (-32602)
             ("Unknown tool: " +:+ py_str E tool_name +:+
              ". Tool may not exist or session may need reinitialization.") None)
  | Some tool_info =>
  let provider := provider tool_info in
  let backend_tool_name := backend_tool_name tool_info in
  let* runtime := SessionManager.get_runtime_state E session_id in
  match assoc_lookup provider (connections runtime) with
  | None =>
      ret (_jsonrpc_error body (-32001)
             ("Provider '" +:+ provider +:+ "' not available in this session") None)
  | Some handle =>
  let forward_body := body in
  let forward_params := match params with JObj p => p | _ => [] end in
  let forward_params := dict_set "name" (JStr backend_tool_name) forward_params in
  let forward_body := dict_set "params" (JObj forward_params) forward_body in
  let client_id := dict_get "id" body in
  let* backend_id := IdMapper.register E session_id provider client_id in
  let forward_body := dict_set "id" (JStr backend_id) forward_body in
  let* outcome := forward body provider handle forward_body in
  match outcome with
  | Raise e =>
      if is_TimeoutException e then
        ret (_jsonrpc_error body (-32002)
               ("Backend '" +:+ provider +:+ "' timeout during tools/call") None)
      else match e with
      | HTTPStatusError _ response =>
          ret (_jsonrpc_error body (-32003)
                 ("Backend '" +:+ provider +:+ "' returned HTTP " +:+
                  pretty (status_code response))
                 (Some [("detail", JStr (take_chars 200 (text response)))]))
      | RequestError msg =>
          ret (_jsonrpc_error body (-32003)
                 ("Backend '" +:+ provider +:+ "' request failed")
                 (Some [("detail", JStr msg)]))
      | ValueError _ =>
          ret (_jsonrpc_error body (-32004)
                 ("Backend '" +:+ provider +:+ "' returned invalid JSON") None)
      | _ => raise e
      end
  | Ok (inr error_response) => ret error_response
  | Ok (inl backend_payload) =>
      let backend_resp_id := dict_get "id" backend_payload in
      let* w := get_world in
      let orig_client_id :=
        py_or (IdMapper.resolve_backend E session_id provider backend_resp_id w) client_id in
      let backend_payload := dict_set "id" orig_client_id backend_payload in
      let backend_payload :=
        if dict_contains "jsonrpc" backend_payload then backend_payload
        else dict_set "jsonrpc" (JStr "2.0") backend_payload in
      ret backend_payload
  end
  end
  end.

(** [ProtocolHandler.handle_request]. *)
Definition handle_request (session_id : UUID) (body : pydict) : M pydict :=
  let* found := attempt (SessionManager.ensure_session_exists session_id) in
  match found with
  | Raise e =>
      if is_KeyError e then
        ret (_jsonrpc_error body (-32000)
               ("Unknown session " +:+ IdMapper.uuid_str session_id) None)
      else raise e
  | Ok _ =>
      let method := dict_get "method" body in
      if negb (truthy method) then
        ret (_jsonrpc_error body (-32600) "Missing 'method' in request" None)
      else if eq_str method "initialize" then _handle_initialize session_id body
      else if eq_str method "tools/list" then _handle_tools_list session_id body
      else if eq_str method "tools/call" then _handle_tools_call session_id body
      else
        ret (_jsonrpc_error body (-32601)
               ("Method '" +:+ py_str E method +:+ "' is not supported by gateway") None)
  end.

End WithEnv.

End ProtocolHandler.

(* ===================================================================== *)
(** * app/controllers/gateway_controller.py                               *)
(* ===================================================================== *)

Module GatewayController.

(** [fastapi.HTTPException(status_code=..., detail=...)]. *)
Record HTTPException := {
  http_status : Z;
  detail : string;
}.

(** [app/schemas/api.py]: [CreateSessionResponse]. *)
Record CreateSessionResponse := {
  created_session_id : UUID;
  mcp_endpoint : string;
  status : string;
}.

Section WithEnv.
Variable E : Env.

(** The route [POST /create-session]: [inl] is the response body sent
    with status 201, [inr] the [HTTPException] raised by the route; any
    other exception leaves the route as it is. *)
Definition create_session (servers : list string)
    (credentials : gmap string (gmap string json))
    : M (CreateSessionResponse + HTTPException) :=
  let* created := attempt (SessionManager.create_session E servers credentials) in
  match created with
  | Raise e =>
      if is_ValueError e then ret (inr {| http_status := 400; detail := exn_message e |})
      else raise e
  | Ok db_session =>
      ret (inl {| created_session_id := session_id db_session;
                  mcp_endpoint := "/session/" +:+ IdMapper.uuid_str (session_id db_session)
                                  +:+ "/mcp";
                  status := "created" |})
  end.

(** The route [POST /session/{session_id}/mcp]. *)
Definition mcp_endpoint_route (session_id : UUID) (body : pydict) : M pydict :=
  ProtocolHandler.handle_request E session_id body.

End WithEnv.

End GatewayController.

(* ===================================================================== *)
(** * Concrete inputs                                                     *)
(* ===================================================================== *)

Module Examples.

(** A concrete operation for the retry helper: the first two invocations
    fail with a connection reset, the third returns 7.  Its world is the
    number of invocations so far. *)
Definition flaky_op (k : nat) : res Z * nat :=
  if (k <? 2)%nat then (Raise (RequestError "connection reset"), S k)
  else (Ok 7, S k).


Definition example_settings : Settings :=
  {| backend_timeout := 10; retry_attempts := 2; retry_backoff_base := 1 # 2 |}.

(** A JSON decoder given by the table of the texts it accepts. *)
Definition decoder (table : list (string * json)) (s : string) : loads_outcome :=
  match assoc_lookup s table with
  | Some v => Decoded v
  | None => DecodeError "Expecting value"
  end.

(** A decoder for which the text [deep] is nested too deeply. *)
Definition shallow_decoder (table : list (string * json)) (deep : string) (s : string)
    : loads_outcome :=
  if String.eqb s deep then TooDeep "maximum recursion depth exceeded"
  else decoder table s.

(** The URL a client posts to: its base URL with a slash at the end of
    the path. *)
Fixpoint ends_with_slash (s : string) : bool :=
  match s with
  | EmptyString => false
  | String c EmptyString => Ascii.eqb c "/"
  | String _ rest => ends_with_slash rest
  end.

Definition with_trailing_slash (base_url : string) : string :=
  if ends_with_slash base_url then base_url else base_url +:+ "/".

(** An environment with the decoder [decode] and the upstreams [net]; the
    [k]-th identifier drawn is [1000 + k], the clock advances by a second
    per reading. *)
Definition env_with (decode : string -> loads_outcome)
    (net : nat -> Request -> res Response) : Env :=
  {| settings := example_settings;
     json_loads := decode;
     request_url := with_trailing_slash;
     str_other := fun _ => "?";
     repr_str := fun s => "'" +:+ s +:+ "'";
     status_error_message := fun r => "HTTP status " +:+ pretty (status_code r);
     upstream := net;
     uuid4 := fun k => (1000 + N.of_nat k)%N;
     time_time := fun k => inject_Z (Z.of_nat k) |}.

Definition env (table : list (string * json)) (net : nat -> Request -> res Response) : Env :=
  env_with (decoder table) net.

Definition no_network : nat -> Request -> res Response :=
  fun _ _ => Raise (RequestError "connection refused").

Definition quiet_env : Env := env [] no_network.

(** A process that has just started: no session, no provider. *)
Definition empty_world : World :=
  {| sessions_table := ∅; _providers := ∅; handle_heap := []; _handles := ∅;
     _runtime_sessions := ∅; _backend_to_client := ∅; http_log := [];
     uuids_drawn := 0; clock_reads := 0 |}.

(** Provider [A]: bearer auth, one static header. *)
Definition provider_A : ProviderConfig :=
  {| name := "A"; protocol := "http"; rpc_endpoint := "http://a.example/mcp";
     auth_type := Some "bearer"; api_key_header_name := None;
     extra_headers := {[ "x-env" := "prod" ]};
     persist_response_headers := ["Mcp-Session-Id"] |}.


(** Provider [B]: API key auth under the default header name. *)
Definition provider_B : ProviderConfig :=
  {| name := "B"; protocol := "http"; rpc_endpoint := "http://b.example/mcp";
     auth_type := Some "api_key"; api_key_header_name := None;
     extra_headers := ∅; persist_response_headers := [] |}.

(** The credential bags of the seed scenario, and the heap in which the
    extra headers of [provider_A] sit at address 0 and its bag at 1. *)
Definition creds_A : gmap string json := {[ "token" := JStr "t1" ]}.
Definition creds_B : gmap string json := {[ "api_key" := JStr "k1" ]}.


(** A runtime that has captured a session header for provider [A]. *)
Definition runtime_with_session_header : RuntimeSessionState :=
  SessionManager.with_provider_session_headers
    {[ "A" := {[ "mcp-session-id" := "s-42" ]} ]} SessionManager.new_runtime.

Definition auth_headers_A : gmap string json :=
  {[ "Authorization" := JStr "Bearer t1" ]}.

(** Session 7 over the providers [A] and [B], with its record, its two
    handles and its runtime state. *)
Definition handle_A : BackendHandle :=
  ConnectionManager.new_handle "http://a.example/mcp"
    (<["Authorization" := JStr "Bearer t1"]> (JStr <$> extra_headers provider_A)).

Definition handle_B : BackendHandle :=
  ConnectionManager.new_handle "http://b.example/mcp" {[ "x-api-key" := JStr "k1" ]}.

Definition session_7 : MCPGatewaySession :=
  {| session_id := 7; state := "ready"; servers := ["A"; "B"];
     credentials := {[ "A" := creds_A; "B" := creds_B ]} |}.

Definition runtime_7 : RuntimeSessionState :=
  SessionManager.with_connections [("A", 0%nat); ("B", 1%nat)] SessionManager.new_runtime.

Definition live_world : World :=
  {| sessions_table := {[ 7%N := session_7 ]};
     _providers := {[ "A" := provider_A; "B" := provider_B ]};
     handle_heap := [handle_A; handle_B];
     _handles := {[ 7%N := {[ "A" := 0%nat; "B" := 1%nat ]} ]};
     _runtime_sessions := {[ 7%N := runtime_7 ]};
     _backend_to_client := ∅; http_log := [];
     uuids_drawn := 0; clock_reads := 0 |}.

(** The process once the application's lifespan has ended
    ([connection_manager.aclose_all()] in [main.py]): every handle is
    closed and forgotten by the connection manager, while the runtime
    state of session 7, kept by the session manager, still refers to
    them. *)
Definition stopped_world : World := snd (ConnectionManager.aclose_all live_world).

(** The same process before any request touched session 7: the record
    is in the table, the runtime state is not built yet. *)
Definition cold_world : World :=
  {| sessions_table := {[ 7%N := session_7 ]};
     _providers := {[ "A" := provider_A; "B" := provider_B ]};
     handle_heap := []; _handles := ∅; _runtime_sessions := ∅;
     _backend_to_client := ∅; http_log := [];
     uuids_drawn := 0; clock_reads := 0 |}.

(** Requests whose [method] is the number 5, and the empty string. *)
Definition body_method_5 : pydict :=
  [("jsonrpc", JStr "2.0"); ("id", JInt 1); ("method", JInt 5)].

Definition body_method_empty : pydict :=
  [("jsonrpc", JStr "2.0"); ("id", JInt 1); ("method", JStr "")].

Definition body_resources_list : pydict :=
  [("jsonrpc", JStr "2.0"); ("id", JStr "r-1"); ("method", JStr "resources/list")].

(** JSON texts are written with an apostrophe where the wire has a double
    quote; [wire] puts the double quotes back. *)
Fixpoint wire (s : string) : string :=
  match s with
  | EmptyString => EmptyString
  | String c rest =>
      String (if Ascii.eqb c "'" then ascii_of_nat 34 else c) (wire rest)
  end.

Definition newline : string := String (ascii_of_nat 10) EmptyString.

(** The replies of the seed scenario: [A] answers in JSON, [B] in a
    single server-sent event. *)
Definition text_A : string :=
  wire "{'jsonrpc':'2.0','id':1,'result':{'protocol':'2024-11','tools':[{'name':'ping'}]}}".

Definition payload_A : json :=
  JObj [("jsonrpc", JStr "2.0"); ("id", JInt 1);
        ("result", JObj [("protocol", JStr "2024-11");
                         ("tools", JArr [JObj [("name", JStr "ping")]])])].

Definition data_B : string :=
  wire "{'jsonrpc':'2.0','id':1,'result':{'tools':[{'name':'echo'}]}}".

Definition sse_B : string := "event: message" +:+ newline +:+ "data: " +:+ data_B.

Definition payload_B : json :=
  JObj [("jsonrpc", JStr "2.0"); ("id", JInt 1);
        ("result", JObj [("tools", JArr [JObj [("name", JStr "echo")]])])].

(** Other bodies a provider may send. *)
Definition text_unavailable : string := wire "{'detail':'Service Unavailable'}".
Definition payload_unavailable : json := JObj [("detail", JStr "Service Unavailable")].

Definition text_array : string := "[1]".
Definition payload_array : json := JArr [JInt 1].

Definition text_empty_object : string := "{}".

Definition table : list (string * json) :=
  [(text_A, payload_A); (data_B, payload_B);
   (text_unavailable, payload_unavailable); (text_array, payload_array);
   (text_empty_object, JObj [])].

Definition json_reply (status : Z) (body : string) : res Response :=
  Ok {| status_code := status;
        resp_headers := [("Content-Type", "application/json")];
        text := body |}.

Definition sse_reply (status : Z) (body : string) : res Response :=
  Ok {| status_code := status;
        resp_headers := [("Content-Type", "text/event-stream")];
        text := body |}.

(** Upstreams that answer by the URL of the request: [reply_A] for
    provider [A], [reply_B] for provider [B]. *)
Definition net (reply_A reply_B : res Response) : nat -> Request -> res Response :=
  fun _ req =>
    if String.eqb (req_url req) "http://a.example/mcp/" then reply_A
    else if String.eqb (req_url req) "http://b.example/mcp/" then reply_B
    else Raise (RequestError "connection refused").

(** The seed scenario: both providers healthy. *)
Definition healthy_env : Env := env table (net (json_reply 200 text_A) (sse_reply 200 sse_B)).

(** [B] answers 503, with a tool list in the body. *)
Definition B_503_with_tools_env : Env :=
  env table (net (json_reply 200 text_A) (sse_reply 503 sse_B)).

(** [B] answers 503 with an error document. *)
Definition B_503_env : Env :=
  env table (net (json_reply 200 text_A) (json_reply 503 text_unavailable)).

(** [B] answers 200 with a JSON array. *)
Definition B_array_env : Env :=
  env table (net (json_reply 200 text_A) (json_reply 200 text_array)).

(** [A] answers 200 with a JSON text that [json.loads] finds nested too
    deeply; the text itself is not looked at. *)
Definition text_deep : string := "[[[[[[[[[[[[[[[[[[[[[[[[[[[[[[[[1]]]]]]]]]]]]]]]]]]]]]]]]]]]]]]]]".

Definition deep_env : Env :=
  env_with (shallow_decoder table text_deep)
           (net (json_reply 200 text_deep) (sse_reply 200 sse_B)).

(** [B] answers 200 with the empty object. *)
Definition B_empty_env : Env :=
  env table (net (json_reply 200 text_A) (json_reply 200 text_empty_object)).

Definition initialize_body : pydict :=
  [("jsonrpc", JStr "2.0"); ("id", JInt 1); ("method", JStr "initialize")].

Definition tools_list_body : pydict :=
  [("jsonrpc", JStr "2.0"); ("id", JInt 2); ("method", JStr "tools/list")].

(** Entries of a merged result. *)
Definition tool (name : string) : json := JObj [("name", JStr name)].

Definition ok_info (provider : string) (tool_count : Z) : json :=
  JObj [("provider", JStr provider); ("status", JStr "ok"); ("tool_count", JInt tool_count)].

Definition error_info (provider message : string) : json :=
  JObj [("provider", JStr provider); ("status", JStr "error"); ("message", JStr message)].


Definition merged_tool_map : gmap string ToolMapEntry :=
  {[ "A__ping" := {| provider := "A"; backend_tool_name := "ping" |};
     "B__echo" := {| provider := "B"; backend_tool_name := "echo" |} ]}.

(** Session 7 after [tools/list]: the tool map is installed. *)
Definition ready_world : World :=
  set_runtime_sessions
    (fun m => <[7%N := SessionManager.with_tool_name_map merged_tool_map runtime_7]> m)
    live_world.

(** Two [tools/call] requests for [A__ping], with the client ids 1 and 2. *)
Definition call_body (client_id : json) : pydict :=
  [("jsonrpc", JStr "2.0"); ("id", client_id); ("method", JStr "tools/call");
   ("params", JObj [("name", JStr "A__ping"); ("arguments", JObj [])])].

(** A backend that answers every call with the id of the first request
    it ever received from the gateway. *)
Definition first_backend_id : string := "00000000-0000-0000-0000-0000000003e8".

Definition text_stale_reply : string :=
  wire "{'jsonrpc':'2.0','id':'00000000-0000-0000-0000-0000000003e8','result':{'ok':true}}".

Definition payload_stale_reply : pydict :=
  [("jsonrpc", JStr "2.0"); ("id", JStr first_backend_id);
   ("result", JObj [("ok", JBool true)])].

Definition stale_env : Env :=
  env [(text_stale_reply, JObj payload_stale_reply)]
      (net (json_reply 200 text_stale_reply) (json_reply 200 text_stale_reply)).

Definition entry_A_ping : ToolMapEntry :=
  {| provider := "A"; backend_tool_name := "ping" |}.

(** What [A] receives for a call with the client id [client_id] when the
    gateway draws its first backend id, and the reply to it. *)
Definition forwarded_call (client_id : json) : pydict :=
  [("jsonrpc", JStr "2.0"); ("id", JStr first_backend_id); ("method", JStr "tools/call");
   ("params", JObj [("name", JStr "ping"); ("arguments", JObj [])])].

Definition stale_response : Response :=
  {| status_code := 200;
     resp_headers := [("Content-Type", "application/json")];
     text := text_stale_reply |}.

(** Two requests in flight: session 7 and then session 8 have each
    registered a client id for provider [A]. *)
Definition two_sessions_world : World :=
  snd (IdMapper.register quiet_env 8 "A" (JInt 1)
         (snd (IdMapper.register quiet_env 7 "A" (JInt 42) empty_world))).

Definition second_backend_id : string := "00000000-0000-0000-0000-0000000003e9".



(** A reply of provider [A] that opens an upstream session. *)
Definition response_with_session_id : Response :=
  {| status_code := 200;
     resp_headers := [("Content-Type", "application/json"); ("MCP-Session-Id", "s-42")];
     text := text_A |}.

(** [A] answers 503 with an error document. *)
Definition A_503_env : Env :=
  env table (net (json_reply 503 text_unavailable) (sse_reply 200 sse_B)).

(** A process that has loaded its registry and holds no session. *)
Definition registry_world : World :=
  {| sessions_table := ∅;
     _providers := {[ "A" := provider_A; "B" := provider_B ]};
     handle_heap := []; _handles := ∅; _runtime_sessions := ∅;
     _backend_to_client := ∅; http_log := [];
     uuids_drawn := 0; clock_reads := 0 |}.
End Examples.

(* ===================================================================== *)
(** * Theorems                                                            *)
(* ===================================================================== *)

(** ** Python dicts *)

Lemma assoc_lookup_set_eq {A : Type} (k : string) (v : A) (d : list (string * A)) :
  assoc_lookup k (assoc_set k v d) = Some v.
Proof.
  induction d as [|[k' v'] d IH]; simpl.
  - rewrite String.eqb_refl. reflexivity.
  - destruct (String.eqb k k') eqn:Hk; simpl.
    + rewrite String.eqb_refl. reflexivity.
    + rewrite Hk. exact IH.
Qed.

Lemma assoc_lookup_set_ne {A : Type} (k k' : string) (v : A) (d : list (string * A)) :
  k <> k' -> assoc_lookup k (assoc_set k' v d) = assoc_lookup k d.
Proof.
  intros Hne. apply String.eqb_neq in Hne.
  induction d as [|[k0 v0] d IH]; simpl.
  - rewrite Hne. reflexivity.
  - destruct (String.eqb k' k0) eqn:Hk; simpl.
    + apply String.eqb_eq in Hk. subst k0. rewrite Hne. reflexivity.
    + destruct (String.eqb k k0); [reflexivity | exact IH].
Qed.

Lemma assoc_lookup_keys {A : Type} (d : list (string * A)) (k : string) :
  In k (assoc_keys d) -> exists v, assoc_lookup k d = Some v.
Proof.
  induction d as [|[k' v'] d IH]; simpl; [tauto|].
  intros Hin. destruct (String.eqb k k') eqn:Hk; [eauto|].
  destruct Hin as [->|Hin]; [rewrite String.eqb_refl in Hk; discriminate | auto].
Qed.

Lemma dict_get_set_eq (k : string) (v : json) (d : pydict) :
  dict_get k (dict_set k v d) = v.
Proof. unfold dict_get, dict_set. rewrite assoc_lookup_set_eq. reflexivity. Qed.



(** ** The retry helper *)

Section DoublingFacts.

Import Retries.

Lemma Qpower_2_ge_1 (k : nat) : (1 <= 2 ^ Z.of_nat k)%Q.
Proof.
  induction k as [|k IH]; [discriminate|].
  rewrite Nat2Z.inj_succ. unfold Z.succ.
  rewrite Qpower_plus by discriminate. simpl (2 ^ 1)%Q.
  apply Qle_trans with (1 * 1)%Q; [discriminate|].
  apply Qmult_le_compat_nonneg; split; try discriminate; auto.
Qed.

Lemma Qpower_2_pos (k : nat) : (0 < 2 ^ Z.of_nat k)%Q.
Proof. apply Qlt_le_trans with 1%Q; [reflexivity | apply Qpower_2_ge_1]. Qed.

Lemma Qpower_2_mono (a b : nat) :
  (a <= b)%nat -> (2 ^ Z.of_nat a <= 2 ^ Z.of_nat b)%Q.
Proof.
  intros Hab.
  replace (Z.of_nat b) with (Z.of_nat a + Z.of_nat (b - a)) by lia.
  rewrite Qpower_plus by discriminate.
  rewrite <- (Qmult_1_r (2 ^ Z.of_nat a)) at 1.
  apply Qmult_le_l; [apply Qpower_2_pos | apply Qpower_2_ge_1].
Qed.

Lemma Qpower_2_succ (k : nat) : (2 ^ Z.of_nat (S k) == 2 ^ Z.of_nat k * 2)%Q.
Proof.
  rewrite Nat2Z.inj_succ. unfold Z.succ.
  rewrite Qpower_plus by discriminate. reflexivity.
Qed.





End DoublingFacts.

Section RetryFacts.
Context {W T : Type}.
Variable func : W -> res T * W.
Variable exc_types : exn -> bool.
Variable retries : Z.

Import Retries.

Lemma calls_app (l1 l2 : list event) : calls (l1 ++ l2) = (calls l1 + calls l2)%nat.
Proof.
  induction l1 as [|[|d] l1 IH]; simpl; auto.
Qed.

Lemma calls_backoff_log (j : nat) (d : pyfloat) : calls (backoff_log j d) = S j.
Proof.
  revert d. induction j as [|j IH]; intros d; simpl; auto.
Qed.

Lemma sleeps_backoff_log_length (j : nat) (d : pyfloat) :
  length (sleeps (backoff_log j d)) = j.
Proof.
  revert d. induction j as [|j IH]; intros d; simpl; auto.
Qed.



(** The loop, characterised: it stops at the first attempt [j] that
    succeeds, fails with a kind that is not transient, or uses up the
    retries. *)
Lemma async_retry_loop_run (fuel : nat) (attempt : Z) (delay : pyfloat) (w : W)
    (log : list event) :
  attempt <= retries ->
  (Z.to_nat (retries - attempt) < fuel)%nat ->
  exists j : nat,
    (j <= Z.to_nat (retries - attempt))%nat /\
    async_retry_loop func exc_types retries fuel attempt delay w log =
      Some (outcome_at func w j, state_before func w (S j), log ++ backoff_log j delay) /\
    transient_up_to func exc_types w j /\
    match outcome_at func w j with
    | Ok _ => True
    | Raise e => exc_types e = false \/ j = Z.to_nat (retries - attempt)
    end.
Proof.
  revert attempt delay w log.
  induction fuel as [|fuel IH]; intros attempt delay w log Hle Hfuel; [lia|].
  simpl. unfold outcome_at.
  destruct (func w) as [r w1] eqn:Hf.
  destruct r as [v|e].
  - exists O. simpl. rewrite Hf. simpl.
    split; [lia|]. split; [reflexivity|]. split; [intros i Hi; lia | exact I].
  - destruct (exc_types e) eqn:He.
    + destruct (attempt >=? retries) eqn:Hge.
      * exists O. simpl. rewrite Hf. simpl.
        split; [lia|]. split; [reflexivity|]. split; [intros i Hi; lia |].
        right. lia.
      * assert (Hlt : attempt < retries) by lia.
        destruct (IH (attempt + 1) (double delay) w1 ((log ++ [Called]) ++ [Slept delay]))
          as (j & Hj & Hrun & Htr & Hdec); [lia | lia |].
        exists (S j).
        assert (Hn : Z.to_nat (retries - attempt) = S (Z.to_nat (retries - (attempt + 1)))) by lia.
        split; [lia|]. split.
        { rewrite Hrun. simpl. rewrite Hf. simpl.
          rewrite <- !app_assoc. reflexivity. }
        split.
        { intros i Hi. destruct i as [|i].
          - exists e. unfold outcome_at. simpl. rewrite Hf. auto.
          - destruct (Htr i) as (e' & He' & Ht'); [lia|].
            exists e'. unfold outcome_at in *. simpl. rewrite Hf. auto. }
        { unfold outcome_at in *. simpl. rewrite Hf. simpl.
          destruct (fst (func (state_before func w1 j))); auto.
          destruct Hdec as [Hdec|Hdec]; [left; auto | right; lia]. }
    + exists O. simpl. rewrite Hf. simpl.
      split; [lia|]. split; [reflexivity|]. split; [intros i Hi; lia |].
      left. exact He.
Qed.

(** [async_retry] never hits the iteration bound. *)
Lemma async_retry_run (base_delay : pyfloat) (w : W) :
  0 <= retries ->
  exists j : nat,
    (j <= Z.to_nat retries)%nat /\
    async_retry func exc_types retries base_delay w =
      (outcome_at func w j, state_before func w (S j), backoff_log j base_delay) /\
    transient_up_to func exc_types w j /\
    match outcome_at func w j with
    | Ok _ => True
    | Raise e => exc_types e = false \/ j = Z.to_nat retries
    end.
Proof.
  intros Hn. unfold async_retry.
  destruct (async_retry_loop_run (enough_fuel retries) 0 base_delay w [])
    as (j & Hj & Hrun & Htr & Hdec).
  - lia.
  - unfold enough_fuel. rewrite Z.sub_0_r. lia.
  - rewrite Z.sub_0_r in *. exists j. rewrite Hrun. simpl. auto.
Qed.

(** What holds of the outcome of every invocation holds of the outcome of
    the helper, which always has one. *)
Lemma async_retry_loop_result (P : res T -> Prop) (I : W -> Prop) :
  (forall w, I w -> P (fst (func w)) /\ I (snd (func w))) ->
  forall (fuel : nat) (attempt : Z) (delay : pyfloat) (w : W) (log : list event),
    I w -> (Z.to_nat (retries - attempt) < fuel)%nat ->
    exists out : res T * W * list event,
      async_retry_loop func exc_types retries fuel attempt delay w log = Some out /\
      P (fst (fst out)) /\ I (snd (fst out)).
Proof.
  intros Hfunc. induction fuel as [|fuel IH]; intros attempt delay w log Hw Hfuel; [lia|].
  simpl. destruct (Hfunc w Hw) as [HP HI].
  destruct (func w) as [r w1]. simpl in HP, HI.
  destruct r as [v|e]; [eauto|].
  destruct (exc_types e); [|eauto].
  destruct (attempt >=? retries) eqn:Hge; [eauto|].
  apply IH; [exact HI | lia].
Qed.


(** The iteration bound of [async_retry] is never hit, whatever the
    number of retries. *)
Lemma async_retry_total (base_delay : pyfloat) (w : W) :
  async_retry_loop func exc_types retries (enough_fuel retries) 0 base_delay w [] <> None.
Proof.
  destruct (async_retry_loop_result (fun _ => True) (fun _ => True)
              (fun _ _ => conj I I) (enough_fuel retries) 0 base_delay w [] I)
    as (out & Hrun & _); [unfold enough_fuel; lia | congruence].
Qed.

(** What every invocation preserves, the helper preserves. *)
Lemma async_retry_loop_preserves {X : Type} (proj : W -> X) :
  (forall w, proj (snd (func w)) = proj w) ->
  forall (fuel : nat) (attempt : Z) (delay : pyfloat) (w : W) (log : list event)
         (out : res T * W * list event),
    async_retry_loop func exc_types retries fuel attempt delay w log = Some out ->
    proj (snd (fst out)) = proj w.
Proof.
  intros Hfunc. induction fuel as [|fuel IH]; intros attempt delay w log out Hrun.
  - discriminate.
  - simpl in Hrun. specialize (Hfunc w).
    destruct (func w) as [r w1]. simpl in Hfunc.
    destruct r as [v|e].
    + injection Hrun as <-. exact Hfunc.
    + destruct (exc_types e).
      * destruct (attempt >=? retries).
        -- injection Hrun as <-. exact Hfunc.
        -- apply IH in Hrun. congruence.
      * injection Hrun as <-. exact Hfunc.
Qed.

Lemma async_retry_preserves {X : Type} (proj : W -> X) (base_delay : pyfloat) (w : W) :
  (forall w, proj (snd (func w)) = proj w) ->
  proj (snd (fst (async_retry func exc_types retries base_delay w))) = proj w.
Proof.
  intros Hfunc. unfold async_retry.
  destruct (async_retry_loop func exc_types retries (enough_fuel retries) 0 base_delay w [])
    as [out|] eqn:Hrun; [|reflexivity].
  eapply async_retry_loop_preserves; eauto.
Qed.

End RetryFacts.




(** ** The ID mapper *)

Section IdMapperFacts.

Import IdMapper.

Lemma hex_val_char (d : N) : (d < 16)%N -> hex_val (hex_char d) = d.
Proof.
  intros Hd.
  destruct d as [|p]; [reflexivity|].
  do 5 (try destruct p as [p|p|]); try reflexivity; lia.
Qed.

Lemma hex_char_is_hex (d : N) : (d < 16)%N -> is_hex_digit (hex_char d) = true.
Proof.
  intros Hd.
  destruct d as [|p]; [reflexivity|].
  do 5 (try destruct p as [p|p|]); try reflexivity; lia.
Qed.

Lemma hex_digits_length (width : nat) (n : N) : length (hex_digits width n) = width.
Proof.
  revert n. induction width as [|width IH]; intros n; simpl; [reflexivity|].
  rewrite length_app, IH. simpl. lia.
Qed.

Lemma hex_digits_all_hex (width : nat) (n : N) :
  Forall (fun c => is_hex_digit c = true) (hex_digits width n).
Proof.
  revert n. induction width as [|width IH]; intros n; simpl; [constructor|].
  apply Forall_app. split; [apply IH|].
  constructor; [|constructor].
  apply hex_char_is_hex. apply N.mod_lt. discriminate.
Qed.

Lemma of_hex_digits_app (h : list ascii) (c : ascii) :
  of_hex_digits (h ++ [c]) = (16 * of_hex_digits h + hex_val c)%N.
Proof.
  unfold of_hex_digits. rewrite fold_left_app. reflexivity.
Qed.

(** Reading [width] digits back gives the number modulo [16^width]. *)
Lemma of_hex_digits_hex_digits (width : nat) (n : N) :
  of_hex_digits (hex_digits width n) = (n mod 16 ^ N.of_nat width)%N.
Proof.
  revert n. induction width as [|width IH]; intros n.
  - simpl. rewrite N.mod_1_r. reflexivity.
  - simpl hex_digits. rewrite of_hex_digits_app, IH.
    rewrite hex_val_char by (apply N.mod_lt; discriminate).
    rewrite Nat2N.inj_succ, N.pow_succ_r'.
    rewrite N.Div0.mod_mul_r. lia.
Qed.

Lemma unhyphenate_hyphenate (h : list ascii) :
  length h = 32%nat -> unhyphenate (hyphenate h) = h.
Proof.
  intros Hlen.
  do 32 (destruct h as [|? h]; [discriminate Hlen|]).
  destruct h; [reflexivity | discriminate Hlen].
Qed.

Lemma canonical_hyphenate (h : list ascii) :
  length h = 32%nat -> Forall (fun c => is_hex_digit c = true) h ->
  canonical_from 0 (hyphenate h) = true.
Proof.
  intros Hlen Hall.
  do 32 (destruct h as [|? h]; [discriminate Hlen|]).
  destruct h; [|discriminate Hlen].
  repeat match goal with
         | H : Forall _ (_ :: _) |- _ => apply Forall_cons_iff in H; destruct H as [? H]
         end.
  cbn -[is_hex_digit].
  repeat match goal with
         | H : is_hex_digit _ = true |- _ => rewrite H; clear H
         end.
  reflexivity.
Qed.

(** [str(uuid)] has the canonical form. *)
Lemma uuid_str_canonical (u : UUID) : is_canonical_uuid (uuid_str u) = true.
Proof.
  unfold is_canonical_uuid, uuid_str.
  rewrite list_ascii_of_string_of_list_ascii.
  apply canonical_hyphenate; [apply hex_digits_length | apply hex_digits_all_hex].
Qed.

(** [str(uuid)] can be read back: it loses nothing of a 128-bit value. *)
Lemma parse_uuid_str (u : UUID) : parse_uuid (uuid_str u) = (u mod 2 ^ 128)%N.
Proof.
  unfold parse_uuid, uuid_str.
  rewrite list_ascii_of_string_of_list_ascii.
  rewrite unhyphenate_hyphenate by apply hex_digits_length.
  rewrite of_hex_digits_hex_digits.
  change (16 ^ N.of_nat 32)%N with (2 ^ 128)%N. reflexivity.
Qed.

Lemma uuid_str_inj (u1 u2 : UUID) :
  (u1 < 2 ^ 128)%N -> (u2 < 2 ^ 128)%N -> uuid_str u1 = uuid_str u2 -> u1 = u2.
Proof.
  intros H1 H2 Heq.
  apply (f_equal parse_uuid) in Heq.
  rewrite !parse_uuid_str in Heq.
  rewrite !N.mod_small in Heq by assumption. exact Heq.
Qed.

Lemma register_runs (E : Env) (session_id : UUID) (provider : string) (v : json)
    (w : World) :
  register E session_id provider v w =
    (Ok (uuid_str (uuid4 E (uuids_drawn w))),
     set_backend_to_client
       (fun m => <[_key session_id provider :=
                     <[uuid_str (uuid4 E (uuids_drawn w)) := v]>
                       (default ∅ (_backend_to_client w !! _key session_id provider))]> m)
       (set_uuids_drawn S w)).
Proof. reflexivity. Qed.

End IdMapperFacts.

(** C9 (ID mapper round trip).  For every session id, provider name and
    client id [v] of any JSON type, [register] returns a backend id and
    [resolve_backend] of that id, looked up by its stringified form,
    returns exactly [v], with its type.  The backend id is the canonical
    text of the identifier drawn from [uuid4]; each call consumes one draw,
    and two calls whose draws are different 128-bit values return
    different ids. *)
Theorem id_mapper_round_trip (E : Env) (session_id : UUID) (provider : string)
    (v : json) (w : World) :
  exists (backend_id : string) (w' : World),
    IdMapper.register E session_id provider v w = (Ok backend_id, w') /\
    IdMapper.resolve_backend E session_id provider (JStr backend_id) w' = v /\
    (forall b : json, py_str E b = backend_id ->
       IdMapper.resolve_backend E session_id provider b w' = v) /\
    backend_id = IdMapper.uuid_str (uuid4 E (uuids_drawn w)) /\
    IdMapper.is_canonical_uuid backend_id = true /\
    uuids_drawn w' = S (uuids_drawn w) /\
    (forall (session_id2 : UUID) (provider2 : string) (v2 : json) (w2 : World),
       (uuid4 E (uuids_drawn w) < 2 ^ 128)%N ->
       (uuid4 E (uuids_drawn w2) < 2 ^ 128)%N ->
       uuid4 E (uuids_drawn w2) <> uuid4 E (uuids_drawn w) ->
       fst (IdMapper.register E session_id2 provider2 v2 w2) <> Ok backend_id).
Proof.
  eexists. eexists. split; [apply register_runs|].
  assert (Hres : forall b : json,
            py_str E b = IdMapper.uuid_str (uuid4 E (uuids_drawn w)) ->
            IdMapper.resolve_backend E session_id provider b
              (set_backend_to_client
                 (fun m => <[IdMapper._key session_id provider :=
                     <[IdMapper.uuid_str (uuid4 E (uuids_drawn w)) := v]>
                       (default ∅ (_backend_to_client w !! IdMapper._key session_id provider))]> m)
                 (set_uuids_drawn S w)) = v).
  { intros b Hb. unfold IdMapper.resolve_backend. simpl.
    rewrite lookup_insert_eq. simpl. rewrite Hb, lookup_insert_eq. reflexivity. }
  split; [apply Hres; reflexivity|].
  split; [exact Hres|].
  split; [reflexivity|].
  split; [apply uuid_str_canonical|].
  split; [reflexivity|].
  intros session_id2 provider2 v2 w2 H1 H2 Hne Heq.
  rewrite register_runs in Heq. cbn [fst] in Heq.
  assert (Hs : IdMapper.uuid_str (uuid4 E (uuids_drawn w2)) =
               IdMapper.uuid_str (uuid4 E (uuids_drawn w))) by congruence.
  apply uuid_str_inj in Hs; auto.
Qed.

(** The round trip for the client id 42 in a process that has just started. *)
Lemma id_mapper_round_trip_witness :
  exists (backend_id : string) (w' : World),
    IdMapper.register Examples.quiet_env 7 "A" (JInt 42) Examples.empty_world
      = (Ok backend_id, w') /\
    IdMapper.resolve_backend Examples.quiet_env 7 "A" (JStr backend_id) w' = JInt 42 /\
    backend_id = "00000000-0000-0000-0000-0000000003e8".
Proof.
  destruct (id_mapper_round_trip Examples.quiet_env 7 "A" (JInt 42) Examples.empty_world)
    as (backend_id & w' & Hreg & Hres & _ & Hid & _).
  exists backend_id, w'. repeat split; assumption.
Defined.

(** ** The auth header builder *)

Section AuthManagerFacts.

Import AuthManager.

Variable E : Env.







End AuthManagerFacts.




(** ** The connection manager *)

Section ConnectionManagerFacts.

Import ConnectionManager.

(** A handle that exists is returned as it is: no handle is created or
    changed. *)
Lemma get_or_create_handle_existing (session_id : UUID) (provider_name rpc_endpoint : string)
    (headers : gmap string json) (runtime : option RuntimeSessionState)
    (w : World) (per_session : gmap string nat) (handle : nat) :
  _handles w !! session_id = Some per_session ->
  per_session !! provider_name = Some handle ->
  get_or_create_handle session_id provider_name rpc_endpoint headers runtime w =
    (Ok handle, w).
Proof.
  intros Hs Hp. unfold get_or_create_handle. rewrite Hs. simpl. rewrite Hp.
  f_equal. destruct w. unfold set_handles. simpl in *. f_equal.
  apply insert_id. exact Hs.
Qed.

(** A new handle is built from [headers] alone, whatever [runtime] holds. *)
Lemma get_or_create_handle_new (session_id : UUID) (provider_name rpc_endpoint : string)
    (headers : gmap string json) (runtime : option RuntimeSessionState) (w : World) :
  default ∅ (_handles w !! session_id) !! provider_name = None ->
  exists w' : World,
    get_or_create_handle session_id provider_name rpc_endpoint headers runtime w =
      (Ok (length (handle_heap w)), w') /\
    handle_heap w' = handle_heap w ++ [new_handle rpc_endpoint headers] /\
    get_handle session_id provider_name w' = Some (length (handle_heap w)).
Proof.
  intros Hnone. unfold get_or_create_handle. rewrite Hnone.
  eexists. split; [reflexivity|]. split; [reflexivity|].
  unfold get_handle. simpl. rewrite lookup_insert_eq. simpl.
  apply lookup_insert_eq.
Qed.

End ConnectionManagerFacts.

(** C1 (get_or_create_handle), evaluated where the code departs from the
    claim: no handle exists for session 7 and provider [A], the runtime
    holds the session header [mcp-session-id: s-42] for [A], and
    [headers] carries the bearer token.  The new handle has [headers]
    as its default headers; the merge with the runtime's headers, which
    would also carry [mcp-session-id], is computed and dropped. *)
Theorem get_or_create_handle_drops_session_headers :
  let merged : gmap string json :=
    (JStr <$> {[ "mcp-session-id" := "s-42" ]}) ∪ Examples.auth_headers_A in
  exists w' : World,
    ConnectionManager.get_or_create_handle 7 "A" "http://a.example/mcp"
      Examples.auth_headers_A (Some Examples.runtime_with_session_header)
      Examples.empty_world = (Ok 0%nat, w') /\
    client_headers <$> handle_heap w' !! 0%nat = Some Examples.auth_headers_A /\
    client_headers <$> handle_heap w' !! 0%nat <> Some merged /\
    merged !! "mcp-session-id" = Some (JStr "s-42") /\
    Examples.auth_headers_A !! "mcp-session-id" = None.
Proof.
  intros merged. eexists. split; [reflexivity|].
  split; [reflexivity|]. split; [|split; reflexivity].
  intros H. change (Some Examples.auth_headers_A = Some merged) in H.
  assert (H' : Examples.auth_headers_A !! "mcp-session-id" = merged !! "mcp-session-id")
    by congruence.
  vm_compute in H'. discriminate H'.
Qed.

(** ** The protocol handler: dispatch *)

Example cold_start_builds_runtime :
  exists w' : World,
    SessionManager.get_runtime_state Examples.quiet_env 7 Examples.cold_world =
      (Ok Examples.runtime_7, w') /\
    handle_heap w' = handle_heap Examples.live_world /\
    _runtime_sessions w' = _runtime_sessions Examples.live_world.
Proof.
  eexists. split; [vm_compute; reflexivity|]. split; vm_compute; reflexivity.
Qed.

Lemma eq_str_false (v : json) (s : string) :
  v <> JStr s -> ProtocolHandler.eq_str v s = false.
Proof.
  intros Hne. destruct v; try reflexivity. simpl.
  destruct (String.eqb s0 s) eqn:Heq; [|reflexivity].
  apply String.eqb_eq in Heq. congruence.
Qed.

Lemma jsonrpc_error_echo (body : pydict) (code : Z) (message : string)
    (data : option pydict) :
  let response := ProtocolHandler._jsonrpc_error body code message data in
  ProtocolHandler.error_code response = Some code /\
  dict_get "jsonrpc" response = dict_get_default "jsonrpc" (JStr "2.0") body /\
  dict_get "id" response = dict_get "id" body.
Proof. repeat split. Qed.

(** C6, as amended.  For every request body handled by [handle_request]:
    if the session id is not in the persistent store the response is a
    JSON-RPC error with code -32000; otherwise if [method] is missing or
    falsy (null, false, 0, the empty string, an empty list or object)
    the code is -32600; otherwise if [method] is any value other than
    the strings [initialize], [tools/list], [tools/call], a string or
    not, the code is -32601; every such response echoes the request's
    [jsonrpc] (default ["2.0"]) and [id], and leaves the process as it
    was. *)
Theorem handle_request_error_codes (E : Env) (session_id : UUID) (body : pydict)
    (w : World) :
  let method := dict_get "method" body in
  let answers (code : Z) :=
    exists response : pydict,
      ProtocolHandler.handle_request E session_id body w = (Ok response, w) /\
      ProtocolHandler.error_code response = Some code /\
      dict_get "jsonrpc" response = dict_get_default "jsonrpc" (JStr "2.0") body /\
      dict_get "id" response = dict_get "id" body in
  (sessions_table w !! session_id = None -> answers (-32000)) /\
  (sessions_table w !! session_id <> None -> truthy method = false -> answers (-32600)) /\
  (sessions_table w !! session_id <> None -> truthy method = true ->
   method <> JStr "initialize" -> method <> JStr "tools/list" ->
   method <> JStr "tools/call" -> answers (-32601)).
Proof.
  intros method answers.
  unfold answers, ProtocolHandler.handle_request, bind, attempt,
    SessionManager.ensure_session_exists, SessionManager._load_session_model, bind.
  fold method.
  repeat split.
  - intros Hnone. rewrite Hnone. simpl.
    eexists. split; [reflexivity|]. apply jsonrpc_error_echo.
  - intros Hsome Hfalsy.
    destruct (sessions_table w !! session_id) as [sess|]; [|congruence]. simpl.
    rewrite Hfalsy. simpl.
    eexists. split; [reflexivity|]. apply jsonrpc_error_echo.
  - intros Hsome Htruthy H1 H2 H3.
    destruct (sessions_table w !! session_id) as [sess|]; [|congruence]. simpl.
    rewrite Htruthy. simpl.
    rewrite !eq_str_false by assumption.
    eexists. split; [reflexivity|]. apply jsonrpc_error_echo.
Qed.

(** The amended claim at a request for [resources/list] on session 7. *)
Lemma handle_request_error_codes_witness :
  sessions_table Examples.live_world !! 7%N <> None /\
  truthy (dict_get "method" Examples.body_resources_list) = true /\
  exists response : pydict,
    ProtocolHandler.handle_request Examples.quiet_env 7 Examples.body_resources_list
      Examples.live_world = (Ok response, Examples.live_world) /\
    ProtocolHandler.error_code response = Some (-32601) /\
    dict_get "jsonrpc" response = JStr "2.0" /\
    dict_get "id" response = JStr "r-1".
Proof.
  split; [discriminate|]. split; [reflexivity|].
  apply (handle_request_error_codes Examples.quiet_env 7 Examples.body_resources_list
           Examples.live_world); try discriminate; reflexivity.
Defined.

(** C6 as stated does not hold: a [method] that is not a string need not
    be answered with -32600 (the number 5 is answered with -32601), and
    a [method] that is a string other than the three supported ones need
    not be answered with -32601 (the empty string is answered with
    -32600). *)
Lemma handle_request_method_type_counterexample :
  ~ (forall (E : Env) (session_id : UUID) (body : pydict) (w : World),
       sessions_table w !! session_id <> None ->
       (forall s : string, dict_get "method" body <> JStr s) ->
       exists (response : pydict) (w' : World),
         ProtocolHandler.handle_request E session_id body w = (Ok response, w') /\
         ProtocolHandler.error_code response = Some (-32600)) /\
  ~ (forall (E : Env) (session_id : UUID) (body : pydict) (w : World) (s : string),
       sessions_table w !! session_id <> None ->
       dict_get "method" body = JStr s ->
       s <> "initialize" -> s <> "tools/list" -> s <> "tools/call" ->
       exists (response : pydict) (w' : World),
         ProtocolHandler.handle_request E session_id body w = (Ok response, w') /\
         ProtocolHandler.error_code response = Some (-32601)).
Proof.
  split.
  - intros Hclaim.
    destruct (Hclaim Examples.quiet_env 7%N Examples.body_method_5 Examples.live_world)
      as (response & w' & Hrun & Hcode).
    + discriminate.
    + intros s. discriminate.
    + vm_compute in Hrun. injection Hrun as <- _.
      vm_compute in Hcode. discriminate Hcode.
  - intros Hclaim.
    destruct (Hclaim Examples.quiet_env 7%N Examples.body_method_empty Examples.live_world "")
      as (response & w' & Hrun & Hcode); try discriminate.
    + reflexivity.
    + vm_compute in Hrun. injection Hrun as <- _.
      vm_compute in Hcode. discriminate Hcode.
Qed.

(** ** Running the monad *)

Lemma bind_ok {A B : Type} (m : M A) (k : A -> M B) (w w' : World) (a : A) :
  m w = (Ok a, w') -> bind m k w = k a w'.
Proof. intros H. unfold bind. rewrite H. reflexivity. Qed.

Lemma bind_raise {A B : Type} (m : M A) (k : A -> M B) (w w' : World) (e : exn) :
  m w = (Raise e, w') -> bind m k w = (Raise e, w').
Proof. intros H. unfold bind. rewrite H. reflexivity. Qed.

(** ** The multiplexer: merge loops *)

Section MultiplexerFacts.

Import Multiplexer.

Variable E : Env.

Lemma get_runtime_state_live (session_id : UUID) (w : World)
    (runtime : RuntimeSessionState) :
  _runtime_sessions w !! session_id = Some runtime ->
  SessionManager.get_runtime_state E session_id w = (Ok runtime, w).
Proof.
  intros Hrt. unfold SessionManager.get_runtime_state, bind, get_world.
  rewrite Hrt. reflexivity.
Qed.

(** A [post] changes nothing but the HTTP log. *)
Lemma do_request_frame (handle : nat) (body : pydict) (timeout : option Q) (w : World) :
  frame (snd (ConnectionManager.do_request E handle body timeout w)) = frame w.
Proof.
  unfold ConnectionManager.do_request.
  destruct (handle_heap w !! handle); reflexivity.
Qed.

Lemma post_frame (handle : nat) (body : pydict) (timeout : option Q) (w : World) :
  frame (snd (ConnectionManager.post E handle body timeout w)) = frame w.
Proof.
  unfold ConnectionManager.post.
  destruct (handle_heap w !! handle) as [hd|]; [|reflexivity].
  destruct (closed hd); [reflexivity|].
  pose proof (async_retry_preserves
                (ConnectionManager.do_request E handle body timeout) is_RequestError
                (retry_attempts (settings E)) frame (Retries.Finite (retry_backoff_base (settings E))) w
                (do_request_frame handle body timeout)) as Hp.
  destruct (Retries.async_retry _ _ _ _ _) as [[r w'] log]. exact Hp.
Qed.


Lemma initialize_call_provider_frame (connections : list (string * nat))
    (request_body : pydict) (provider : string) (w : World) :
  frame (snd (initialize_call_provider E connections request_body provider w)) = frame w.
Proof.
  unfold initialize_call_provider.
  destruct (assoc_lookup provider connections) as [handle|]; [|reflexivity].
  unfold bind, attempt.
  pose proof (post_frame handle request_body (Some 60%Q) w) as Hp.
  destruct (ConnectionManager.post E handle request_body (Some 60%Q) w) as [r w'].
  simpl in Hp. destruct r as [resp|e].
  - destruct (let! data := decode_body E resp in
              let! _ := raise_for_status E resp in Ok data) as [data|e]; [exact Hp|].
    destruct (caught e); exact Hp.
  - destruct (caught e); exact Hp.
Qed.

(** A fan-out returns one result per task, and keeps what each task keeps. *)
Lemma gather_frame {A : Type} (tasks : list (M A)) (w : World) :
  Forall (fun t : M A => forall w, frame (snd (t w)) = frame w) tasks ->
  frame (snd (gather tasks w)) = frame w.
Proof.
  intros Hall. revert w. induction Hall as [|t tasks Ht _ IH]; intros w; [reflexivity|].
  simpl. unfold bind. specialize (Ht w).
  destruct (t w) as [[x|e] w1]; simpl in Ht; [|exact Ht].
  specialize (IH w1). destruct (gather tasks w1) as [[xs|e] w2]; simpl in *; congruence.
Qed.


(** Every result of the fan-out gets one [server_info] entry, in order. *)
Lemma merge_tools_server_info (provider : string) (tools : list json) (acc acc' : Merged)
    (n n' : Z) :
  merge_tools provider tools acc n = Ok (acc', n') -> server_info acc' = server_info acc.
Proof.
  revert acc n. induction tools as [|tool tools IH]; intros acc n Hrun; simpl in Hrun.
  - injection Hrun as <- _. reflexivity.
  - destruct (py_get tool "name") as [nm|e]; [|discriminate]. simpl in Hrun.
    destruct (negb (truthy nm)); [eapply IH; eauto|].
    destruct tool; try discriminate. destruct nm; try discriminate.
    apply IH in Hrun. exact Hrun.
Qed.


(** What [call_provider] of [list_tools] returns once the reply is in. *)
Lemma list_tools_call_provider_decoded (connections : list (string * nat))
    (request_body : pydict) (provider : string) (handle : nat) (w w' : World)
    (resp : Response) (payload : json) :
  assoc_lookup provider connections = Some handle ->
  ConnectionManager.post E handle request_body (Some 60%Q) w = (Ok resp, w') ->
  decode_body E resp = Ok payload ->
  list_tools_call_provider E connections request_body provider w =
    (Ok (provider, payload, None), w').
Proof.
  intros Hh Hpost Hdec. unfold list_tools_call_provider. rewrite Hh.
  unfold bind, attempt. rewrite Hpost, Hdec. reflexivity.
Qed.

(** What [call_provider] of [initialize] returns for a reply with a 2xx
    status. *)
Lemma initialize_call_provider_decoded (connections : list (string * nat))
    (request_body : pydict) (provider : string) (handle : nat) (w w' : World)
    (resp : Response) (payload : json) :
  assoc_lookup provider connections = Some handle ->
  ConnectionManager.post E handle request_body (Some 60%Q) w = (Ok resp, w') ->
  decode_body E resp = Ok payload ->
  raise_for_status E resp = Ok tt ->
  initialize_call_provider E connections request_body provider w =
    (Ok (provider, payload, None, Some resp), w').
Proof.
  intros Hh Hpost Hdec Hst. unfold initialize_call_provider. rewrite Hh.
  unfold bind, attempt. rewrite Hpost, Hdec. simpl. rewrite Hst. reflexivity.
Qed.


(** A body that does not decode fails with a [ValueError], or with the
    [RecursionError] of [json.loads]. *)
Lemma decode_body_failure (resp : Response) (e : exn) :
  decode_body E resp = Raise e -> is_ValueError e = true \/ is_RecursionError e = true.
Proof.
  unfold decode_body, parse_sse_json_body, resp_json, loads.
  destruct (startswith _ _).
  - destruct (find_data_line _); [|intros [= <-]; left; reflexivity].
    destruct (json_loads E _); [discriminate | intros [= <-]; left; reflexivity
                               | intros [= <-]; right; reflexivity].
  - destruct (json_loads E _); [discriminate | intros [= <-]; left; reflexivity
                               | intros [= <-]; right; reflexivity].
Qed.













(** Every result of the fan-out gets the entry it calls for, in order. *)
Lemma merge_payload_entry (provider : string) (payload : json) (acc acc' : Merged) :
  merge_payload provider payload acc = Ok acc' ->
  exists n : Z, server_info acc' = server_info acc ++ [ok_entry provider n].
Proof.
  unfold merge_payload. intros Hrun.
  destruct (tools_of payload) as [tools|e]; [|discriminate]. simpl in Hrun.
  destruct (merge_tools provider tools acc 0) as [[acc1 n]|e] eqn:Hm; [|discriminate].
  simpl in Hrun. injection Hrun as <-. exists n. simpl.
  rewrite (merge_tools_server_info _ _ _ _ _ _ Hm). reflexivity.
Qed.

Lemma list_tools_merge_entries (results : list (string * json * option exn))
    (acc acc' : Merged) :
  list_tools_merge results acc = Ok acc' ->
  exists entries : list json,
    server_info acc' = server_info acc ++ entries /\
    Forall2 entry_matches results entries.
Proof.
  revert acc. induction results as [|[[p payload] error] results IH]; intros acc Hrun.
  - simpl in Hrun. injection Hrun as <-. exists []. rewrite app_nil_r.
    split; [reflexivity | constructor].
  - simpl in Hrun.
    destruct (is_Some_b error || negb (truthy payload)) eqn:Hfail.
    + destruct (IH _ Hrun) as (entries & Hinfo & Hall).
      exists (error_entry p error :: entries). split.
      * rewrite Hinfo. simpl. rewrite <- app_assoc. reflexivity.
      * constructor; [|exact Hall]. simpl. rewrite Hfail. reflexivity.
    + destruct (merge_payload p payload acc) as [acc1|e] eqn:Hm; [|discriminate].
      simpl in Hrun. destruct (merge_payload_entry _ _ _ _ Hm) as (n & Hn).
      destruct (IH _ Hrun) as (entries & Hinfo & Hall).
      exists (ok_entry p n :: entries). split.
      * rewrite Hinfo, Hn, <- app_assoc. reflexivity.
      * constructor; [|exact Hall]. simpl. rewrite Hfail. eauto.
Qed.

Lemma initialize_merge_entries (session_id : UUID) (connections : list (string * nat))
    (results : list (string * json * option exn * option Response))
    (acc acc' : Merged) (base_result base_result' : pydict) (w w' : World) :
  initialize_merge session_id connections results acc base_result w =
    (Ok (acc', base_result'), w') ->
  exists entries : list json,
    server_info acc' = server_info acc ++ entries /\
    Forall2 entry_matches (map fst results) entries.
Proof.
  revert acc base_result w.
  induction results as [|[[[p payload] error] resp] results IH];
    intros acc base_result w Hrun.
  - simpl in Hrun. injection Hrun as <- _ _. exists []. rewrite app_nil_r.
    split; [reflexivity | constructor].
  - simpl in Hrun.
    destruct (is_Some_b error || negb (truthy payload)) eqn:Hfail.
    + destruct (IH _ _ _ Hrun) as (entries & Hinfo & Hall).
      exists (error_entry p error :: entries). split.
      * rewrite Hinfo. simpl. rewrite <- app_assoc. reflexivity.
      * constructor; [|exact Hall]. simpl. rewrite Hfail. reflexivity.
    + unfold bind at 1 in Hrun.
      destruct (persist_headers session_id connections p resp w) as [[[]|e] w1];
        [|discriminate].
      unfold bind at 1, lift in Hrun.
      destruct (pick_base_result base_result payload) as [b|e]; [|discriminate].
      unfold bind at 1 in Hrun.
      destruct (merge_payload p payload acc) as [acc1|e] eqn:Hm; [|discriminate].
      destruct (merge_payload_entry _ _ _ _ Hm) as (n & Hn).
      destruct (IH _ _ _ Hrun) as (entries & Hinfo & Hall).
      exists (ok_entry p n :: entries). split.
      * rewrite Hinfo, Hn, <- app_assoc. reflexivity.
      * constructor; [|exact Hall]. simpl. rewrite Hfail. eauto.
Qed.





(** A result without error comes from a reply that decoded, and in
    [initialize] from one with a 2xx status. *)
Lemma initialize_call_provider_no_error (connections : list (string * nat))
    (request_body : pydict) (provider p : string) (payload : json)
    (resp : option Response) (w w' : World) :
  initialize_call_provider E connections request_body provider w =
    (Ok (p, payload, None, resp), w') ->
  exists r : Response,
    resp = Some r /\ decode_body E r = Ok payload /\ raise_for_status E r = Ok tt.
Proof.
  unfold initialize_call_provider.
  destruct (assoc_lookup provider connections) as [handle|]; [|discriminate].
  unfold bind, attempt.
  destruct (ConnectionManager.post E handle request_body (Some 60%Q) w) as [[r|e] w1].
  - destruct (decode_body E r) as [data|e] eqn:Hdec; simpl.
    + destruct (raise_for_status E r) as [[]|e] eqn:Hst; simpl.
      * intros [= _ <- <- _]. eauto.
      * destruct (caught e); discriminate.
    + destruct (caught e); discriminate.
  - destruct (caught e); discriminate.
Qed.

Lemma list_tools_call_provider_no_error (connections : list (string * nat))
    (request_body : pydict) (provider p : string) (payload : json) (w w' : World) :
  list_tools_call_provider E connections request_body provider w =
    (Ok (p, payload, None), w') ->
  exists r : Response, decode_body E r = Ok payload.
Proof.
  unfold list_tools_call_provider.
  destruct (assoc_lookup provider connections) as [handle|]; [|discriminate].
  unfold bind, attempt.
  destruct (ConnectionManager.post E handle request_body (Some 60%Q) w) as [[r|e] w1].
  - destruct (decode_body E r) as [data|e] eqn:Hdec; simpl.
    + intros [= _ <- _]. eauto.
    + destruct (caught e); discriminate.
  - destruct (caught e); discriminate.
Qed.




End MultiplexerFacts.

(** ** The multiplexer: a result that the merge loops skip *)

Section SkippedResults.

Import Multiplexer.

(** The accumulators with another [server_info]. *)
Let with_server_info (s : list json) (acc : Merged) : Merged :=
  {| combined_tools := combined_tools acc; tool_map := tool_map acc; server_info := s |}.

(** The loop over the tools of a payload does not look at [server_info]. *)
Lemma merge_tools_with_server_info (p : string) (tools : list json) (acc : Merged) (n : Z)
    (s : list json) :
  merge_tools p tools (with_server_info s acc) n =
  match merge_tools p tools acc n with
  | Ok (acc', n') => Ok (with_server_info s acc', n')
  | Raise e => Raise e
  end.
Proof.
  revert acc n. induction tools as [|tool tools IH]; intros acc n; [reflexivity|].
  cbn [merge_tools]. destruct (py_get tool "name") as [name|e]; [|reflexivity].
  cbn [res_bind]. destruct (negb (truthy name)); [apply IH|].
  destruct tool; try reflexivity. destruct name; try reflexivity.
  match goal with
  | |- _ = match merge_tools _ _ ?acc1 _ with _ => _ end => exact (IH acc1 (n + 1))
  end.
Qed.

Lemma merge_payload_with_server_info (p : string) (payload : json) (acc : Merged)
    (s : list json) :
  merge_payload p payload (with_server_info s acc) =
  match merge_payload p payload (with_server_info [] acc) with
  | Ok r => Ok (with_server_info (s ++ server_info r) r)
  | Raise e => Raise e
  end.
Proof.
  unfold merge_payload. destruct (tools_of payload) as [tools|e]; [|reflexivity].
  cbn [res_bind]. rewrite !merge_tools_with_server_info.
  destruct (merge_tools p tools acc 0) as [[acc1 n1]|e]; reflexivity.
Qed.

(** The entries that a merge loop adds to [server_info] come after those
    that were there, and nothing else of the outcome depends on them. *)
Lemma list_tools_merge_with_server_info (results : list (string * json * option exn))
    (acc : Merged) (s : list json) :
  list_tools_merge results (with_server_info s acc) =
  match list_tools_merge results (with_server_info [] acc) with
  | Ok r => Ok (with_server_info (s ++ server_info r) r)
  | Raise e => Raise e
  end.
Proof.
  revert acc s. induction results as [|[[p payload] error] results IH]; intros acc s.
  - cbn. rewrite app_nil_r. reflexivity.
  - cbn [list_tools_merge]. destruct (is_Some_b error || negb (truthy payload)).
    + change (list_tools_merge results
                (add_server_info (error_entry p error) (with_server_info s acc)))
        with (list_tools_merge results (with_server_info (s ++ [error_entry p error]) acc)).
      change (list_tools_merge results
                (add_server_info (error_entry p error) (with_server_info [] acc)))
        with (list_tools_merge results (with_server_info [error_entry p error] acc)).
      rewrite (IH acc (s ++ [error_entry p error])), (IH acc [error_entry p error]).
      destruct (list_tools_merge results (with_server_info [] acc)) as [r|e]; [|reflexivity].
      cbn. rewrite <- app_assoc. reflexivity.
    + rewrite (merge_payload_with_server_info p payload acc s).
      destruct (merge_payload p payload (with_server_info [] acc)) as [[t m si]|e];
        [|reflexivity].
      cbn [res_bind].
      change (with_server_info (s ++ server_info {| combined_tools := t; tool_map := m;
                                                     server_info := si |})
                {| combined_tools := t; tool_map := m; server_info := si |})
        with (with_server_info (s ++ si)
                {| combined_tools := t; tool_map := m; server_info := [] |}).
      change {| combined_tools := t; tool_map := m; server_info := si |}
        with (with_server_info si {| combined_tools := t; tool_map := m; server_info := [] |}).
      rewrite (IH _ (s ++ si)), (IH _ si).
      destruct (list_tools_merge results _) as [r|e]; [|reflexivity].
      cbn. rewrite <- app_assoc. reflexivity.
Qed.

Lemma list_tools_merge_app (l1 l2 : list (string * json * option exn)) (acc : Merged) :
  list_tools_merge (l1 ++ l2) acc =
  let! acc1 := list_tools_merge l1 acc in list_tools_merge l2 acc1.
Proof.
  revert acc. induction l1 as [|[[p payload] error] l1 IH]; intros acc; [reflexivity|].
  cbn [app list_tools_merge]. destruct (is_Some_b error || negb (truthy payload)).
  - apply IH.
  - destruct (merge_payload p payload acc) as [acc1|e]; [apply IH | reflexivity].
Qed.

(** A result without error whose payload is falsy, in the loop of
    [list_tools]. *)
Lemma list_tools_merge_skips (p : string) (payload : json)
    (before after : list (string * json * option exn)) (acc : Merged) :
  truthy payload = false ->
  list_tools_merge (before ++ (p, payload, None) :: after) no_tools = Ok acc ->
  server_info acc !! length before = Some (error_entry p None) /\
  exists acc' : Merged,
    list_tools_merge (before ++ after) no_tools = Ok acc' /\
    combined_tools acc = combined_tools acc' /\
    tool_map acc = tool_map acc' /\
    server_info acc =
      take (length before) (server_info acc') ++
      error_entry p None :: drop (length before) (server_info acc').
Proof.
  intros Hfalsy Hrun. rewrite list_tools_merge_app in Hrun.
  rewrite list_tools_merge_app.
  destruct (list_tools_merge before no_tools) as [[t m si]|e] eqn:Hbefore;
    [|discriminate Hrun].
  assert (Hlen : length si = length before).
  { destruct (list_tools_merge_entries before no_tools _ Hbefore) as (entries & Hsi & Hall).
    cbn in Hsi. subst si. symmetry. exact (Forall2_length _ _ _ Hall). }
  cbn [res_bind list_tools_merge] in Hrun. rewrite Hfalsy in Hrun.
  cbn [is_Some_b orb negb] in Hrun. cbn [res_bind].
  change (list_tools_merge after
            (add_server_info (error_entry p None)
               {| combined_tools := t; tool_map := m; server_info := si |}))
    with (list_tools_merge after
            (with_server_info (si ++ [error_entry p None])
               {| combined_tools := t; tool_map := m; server_info := [] |})) in Hrun.
  change {| combined_tools := t; tool_map := m; server_info := si |}
    with (with_server_info si {| combined_tools := t; tool_map := m; server_info := [] |}).
  rewrite list_tools_merge_with_server_info in Hrun.
  rewrite list_tools_merge_with_server_info.
  destruct (list_tools_merge after _) as [r|e]; [|discriminate Hrun].
  injection Hrun as <-. cbn [server_info with_server_info combined_tools tool_map].
  rewrite <- Hlen, <- app_assoc. split.
  - apply list_lookup_middle. reflexivity.
  - eexists. split; [reflexivity|].
    cbn [server_info with_server_info combined_tools tool_map].
    rewrite take_app_length, drop_app_length. repeat split.
Qed.

Section Initialize.

Variable session_id : UUID.
Variable connections : list (string * nat).

Lemma initialize_merge_with_server_info
    (results : list (string * json * option exn * option Response))
    (acc : Merged) (s : list json) (base : pydict) (w : World) :
  initialize_merge session_id connections results (with_server_info s acc) base w =
  match initialize_merge session_id connections results (with_server_info [] acc) base w with
  | (Ok (r, b), w') => (Ok (with_server_info (s ++ server_info r) r, b), w')
  | (Raise e, w') => (Raise e, w')
  end.
Proof.
  revert acc s base w.
  induction results as [|[[[p payload] error] resp] results IH]; intros acc s base w.
  - cbn. rewrite app_nil_r. reflexivity.
  - cbn [initialize_merge]. destruct (is_Some_b error || negb (truthy payload)).
    + change (initialize_merge session_id connections results
                (add_server_info (error_entry p error) (with_server_info s acc)))
        with (initialize_merge session_id connections results
                (with_server_info (s ++ [error_entry p error]) acc)).
      change (initialize_merge session_id connections results
                (add_server_info (error_entry p error) (with_server_info [] acc)))
        with (initialize_merge session_id connections results
                (with_server_info [error_entry p error] acc)).
      rewrite (IH acc (s ++ [error_entry p error])), (IH acc [error_entry p error]).
      destruct (initialize_merge session_id connections results (with_server_info [] acc)
                  base w) as [[[r b]|e] w']; [|reflexivity].
      cbn. rewrite <- app_assoc. reflexivity.
    + unfold bind, lift. cbv beta.
      destruct (persist_headers session_id connections p resp w) as [[[]|e] w1];
        [|reflexivity].
      destruct (pick_base_result base payload) as [base1|e]; [|reflexivity].
      rewrite (merge_payload_with_server_info p payload acc s).
      destruct (merge_payload p payload (with_server_info [] acc)) as [[t m si]|e];
        [|reflexivity].
      change (with_server_info (s ++ server_info {| combined_tools := t; tool_map := m;
                                                     server_info := si |})
                {| combined_tools := t; tool_map := m; server_info := si |})
        with (with_server_info (s ++ si)
                {| combined_tools := t; tool_map := m; server_info := [] |}).
      change {| combined_tools := t; tool_map := m; server_info := si |}
        with (with_server_info si {| combined_tools := t; tool_map := m; server_info := [] |}).
      rewrite (IH _ (s ++ si)), (IH _ si).
      destruct (initialize_merge session_id connections results _ base1 w1)
        as [[[r b]|e] w']; [|reflexivity].
      cbn. rewrite <- app_assoc. reflexivity.
Qed.

Lemma initialize_merge_app
    (l1 l2 : list (string * json * option exn * option Response))
    (acc : Merged) (base : pydict) (w : World) :
  initialize_merge session_id connections (l1 ++ l2) acc base w =
  match initialize_merge session_id connections l1 acc base w with
  | (Ok (acc1, base1), w1) => initialize_merge session_id connections l2 acc1 base1 w1
  | (Raise e, w1) => (Raise e, w1)
  end.
Proof.
  revert acc base w.
  induction l1 as [|[[[p payload] error] resp] l1 IH]; intros acc base w; [reflexivity|].
  cbn [app initialize_merge]. destruct (is_Some_b error || negb (truthy payload)).
  - apply IH.
  - unfold bind, lift. cbv beta.
    destruct (persist_headers session_id connections p resp w) as [[[]|e] w1];
      [|reflexivity].
    destruct (pick_base_result base payload) as [base1|e]; [|reflexivity].
    destruct (merge_payload p payload acc) as [acc1|e]; [apply IH | reflexivity].
Qed.

(** A result without error whose payload is falsy, in the loop of
    [initialize]. *)
Lemma initialize_merge_skips (p : string) (payload : json) (resp : option Response)
    (before after : list (string * json * option exn * option Response))
    (acc : Merged) (base : pydict) (w w' : World) :
  truthy payload = false ->
  initialize_merge session_id connections (before ++ (p, payload, None, resp) :: after)
    no_tools [] w = (Ok (acc, base), w') ->
  server_info acc !! length before = Some (error_entry p None) /\
  exists acc' : Merged,
    initialize_merge session_id connections (before ++ after) no_tools [] w =
      (Ok (acc', base), w') /\
    combined_tools acc = combined_tools acc' /\
    tool_map acc = tool_map acc' /\
    server_info acc =
      take (length before) (server_info acc') ++
      error_entry p None :: drop (length before) (server_info acc').
Proof.
  intros Hfalsy Hrun. rewrite initialize_merge_app in Hrun.
  rewrite initialize_merge_app.
  destruct (initialize_merge session_id connections before no_tools [] w)
    as [[[[t m si] base1]|e] w1] eqn:Hbefore; [|discriminate Hrun].
  assert (Hlen : length si = length before).
  { destruct (initialize_merge_entries session_id connections before no_tools _ [] base1
                w w1 Hbefore) as (entries & Hsi & Hall).
    cbn in Hsi. subst si. apply Forall2_length in Hall.
    rewrite length_map in Hall. symmetry. exact Hall. }
  cbn [initialize_merge] in Hrun. rewrite Hfalsy in Hrun.
  cbn [is_Some_b orb negb] in Hrun.
  change (initialize_merge session_id connections after
            (add_server_info (error_entry p None)
               {| combined_tools := t; tool_map := m; server_info := si |}))
    with (initialize_merge session_id connections after
            (with_server_info (si ++ [error_entry p None])
               {| combined_tools := t; tool_map := m; server_info := [] |})) in Hrun.
  change {| combined_tools := t; tool_map := m; server_info := si |}
    with (with_server_info si {| combined_tools := t; tool_map := m; server_info := [] |}).
  rewrite initialize_merge_with_server_info in Hrun.
  rewrite initialize_merge_with_server_info.
  destruct (initialize_merge session_id connections after _ base1 w1)
    as [[[r b]|e] w2]; [|discriminate Hrun].
  injection Hrun as <- <- <-. cbn [server_info with_server_info combined_tools tool_map].
  rewrite <- Hlen, <- app_assoc. split.
  - apply list_lookup_middle. reflexivity.
  - eexists. split; [reflexivity|].
    cbn [server_info with_server_info combined_tools tool_map].
    rewrite take_app_length, drop_app_length. repeat split.
Qed.

End Initialize.

End SkippedResults.

(** [list_tools] once the runtime of the session is at hand: the cache
    test, then either the cached result or the fan-out, the merge and the
    write. *)
Lemma list_tools_run (E : Env) (session_id : UUID) (request_body : pydict) (w w0 : World)
    (runtime : RuntimeSessionState) :
  SessionManager.get_runtime_state E session_id w = (Ok runtime, w0) ->
  let keys := assoc_keys (connections runtime) in
  let current_providers : gset string := list_to_set keys in
  Multiplexer.list_tools E session_id request_body w =
    match Multiplexer.cache_is_fresh runtime current_providers
            (time_time E (clock_reads w0)) with
    | Some cached =>
        (let* _ := SessionManager.update_tool_map session_id (cached_tool_map cached) in
         ret (cached_result cached)) (set_clock_reads S w0)
    | None =>
        (let* results :=
           gather (map (Multiplexer.list_tools_call_provider E (connections runtime)
                          request_body) keys) in
         let* acc := lift (Multiplexer.list_tools_merge results Multiplexer.no_tools) in
         let* _ := SessionManager.update_tool_map session_id (Multiplexer.tool_map acc) in
         let result := [("tools", JArr (Multiplexer.combined_tools acc));
                        ("server_info", JArr (Multiplexer.server_info acc))] in
         let* stamp := Multiplexer.now E in
         let* _ := SessionManager.update_runtime session_id
                     (SessionManager.with_cache
                        (Some {| cached_result := result;
                                 cached_tool_map := Multiplexer.tool_map acc |})
                        (Some stamp) (Some current_providers)) in
         ret result) (set_clock_reads S w0)
    end.
Proof.
  intros Hget keys current_providers.
  unfold Multiplexer.list_tools. rewrite (bind_ok _ _ _ _ _ Hget).
  fold keys. fold current_providers.
  rewrite (bind_ok (Multiplexer.now E) _ w0 (set_clock_reads S w0)
             (time_time E (clock_reads w0))) by reflexivity.
  destruct (Multiplexer.cache_is_fresh runtime current_providers
              (time_time E (clock_reads w0))); reflexivity.
Qed.

(** C10 (falsy payload).  In both merge loops, a provider whose HTTP call
    raised nothing but whose body decoded to a falsy JSON value ([{}],
    [null], [0], [""], ...) is reported in the [server_info] that the
    loop returns, at the place of the provider, with status ["error"] and
    message ["None"], not with status ["ok"]; it adds no tool and no
    tool-map entry, and in [initialize] no header is persisted for it:
    tools, tool map, template and the state of the process are what the
    loop makes of the other results alone.  The [server_info] of the
    result that [initialize] and [tools/list] return has that entry. *)
Theorem falsy_payload_reported_as_error (E : Env) (provider : string) (payload : json) :
  truthy payload = false ->
  let entry := JObj [("provider", JStr provider); ("status", JStr "error");
                     ("message", JStr "None")] in
  let others {A : Type} (i : nat) (results : list A) : list A :=
    take i results ++ drop (S i) results in
  (* the reply reaches the merge loop as a result without error *)
  (forall connections request_body handle w w' resp,
     assoc_lookup provider connections = Some handle ->
     ConnectionManager.post E handle request_body (Some 60%Q) w = (Ok resp, w') ->
     Multiplexer.decode_body E resp = Ok payload ->
     Multiplexer.list_tools_call_provider E connections request_body provider w =
       (Ok (provider, payload, None), w') /\
     (Multiplexer.raise_for_status E resp = Ok tt ->
      Multiplexer.initialize_call_provider E connections request_body provider w =
        (Ok (provider, payload, None, Some resp), w'))) /\
  (* the merge loop of tools/list *)
  (forall (results : list (string * json * option exn)) (i : nat) (acc : Multiplexer.Merged),
     results !! i = Some (provider, payload, None) ->
     Multiplexer.list_tools_merge results Multiplexer.no_tools = Ok acc ->
     Multiplexer.server_info acc !! i = Some entry /\
     exists acc' : Multiplexer.Merged,
       Multiplexer.list_tools_merge (others i results) Multiplexer.no_tools = Ok acc' /\
       Multiplexer.combined_tools acc = Multiplexer.combined_tools acc' /\
       Multiplexer.tool_map acc = Multiplexer.tool_map acc' /\
       others i (Multiplexer.server_info acc) = Multiplexer.server_info acc') /\
  (* the merge loop of initialize *)
  (forall (session_id : UUID) (connections : list (string * nat))
          (results : list (string * json * option exn * option Response)) (i : nat)
          (resp : option Response) (acc : Multiplexer.Merged) (base : pydict)
          (w w' : World),
     results !! i = Some (provider, payload, None, resp) ->
     Multiplexer.initialize_merge session_id connections results Multiplexer.no_tools [] w =
       (Ok (acc, base), w') ->
     Multiplexer.server_info acc !! i = Some entry /\
     exists acc' : Multiplexer.Merged,
       Multiplexer.initialize_merge session_id connections (others i results)
         Multiplexer.no_tools [] w = (Ok (acc', base), w') /\
       Multiplexer.combined_tools acc = Multiplexer.combined_tools acc' /\
       Multiplexer.tool_map acc = Multiplexer.tool_map acc' /\
       others i (Multiplexer.server_info acc) = Multiplexer.server_info acc') /\
  (* the result of initialize *)
  (forall (session_id : UUID) (body result : pydict) (w w0 w1 w' : World)
          (runtime : RuntimeSessionState)
          (results : list (string * json * option exn * option Response)) (i : nat)
          (resp : option Response),
     SessionManager.get_runtime_state E session_id w = (Ok runtime, w0) ->
     gather (map (Multiplexer.initialize_call_provider E (connections runtime) body)
                 (assoc_keys (connections runtime))) w0 = (Ok results, w1) ->
     results !! i = Some (provider, payload, None, resp) ->
     Multiplexer.initialize E session_id body w = (Ok result, w') ->
     exists entries : list json,
       dict_get "server_info" result = JArr entries /\ entries !! i = Some entry) /\
  (* the result of tools/list, when the cache does not serve it *)
  (forall (session_id : UUID) (body result : pydict) (w w0 w1 w' : World)
          (runtime : RuntimeSessionState)
          (results : list (string * json * option exn)) (i : nat),
     SessionManager.get_runtime_state E session_id w = (Ok runtime, w0) ->
     Multiplexer.cache_is_fresh runtime (list_to_set (assoc_keys (connections runtime)))
       (time_time E (clock_reads w0)) = None ->
     gather (map (Multiplexer.list_tools_call_provider E (connections runtime) body)
                 (assoc_keys (connections runtime))) (set_clock_reads S w0) =
       (Ok results, w1) ->
     results !! i = Some (provider, payload, None) ->
     Multiplexer.list_tools E session_id body w = (Ok result, w') ->
     exists entries : list json,
       dict_get "server_info" result = JArr entries /\ entries !! i = Some entry) /\
  entry <> Multiplexer.ok_entry provider 0.
Proof.
  intros Hfalsy entry others.
  assert (Hlist : forall (results : list (string * json * option exn)) (i : nat)
                         (acc : Multiplexer.Merged),
            results !! i = Some (provider, payload, None) ->
            Multiplexer.list_tools_merge results Multiplexer.no_tools = Ok acc ->
            Multiplexer.server_info acc !! i = Some entry /\
            exists acc' : Multiplexer.Merged,
              Multiplexer.list_tools_merge (others _ i results) Multiplexer.no_tools =
                Ok acc' /\
              Multiplexer.combined_tools acc = Multiplexer.combined_tools acc' /\
              Multiplexer.tool_map acc = Multiplexer.tool_map acc' /\
              others _ i (Multiplexer.server_info acc) = Multiplexer.server_info acc').
  { intros results i acc Hi Hrun.
    assert (Hlen : length (take i results) = i).
    { apply lookup_lt_Some in Hi. rewrite length_take. lia. }
    rewrite <- (take_drop_middle results i _ Hi) in Hrun.
    destruct (list_tools_merge_skips provider payload _ _ acc Hfalsy Hrun)
      as (Hentry & acc' & Hrest & Htools & Hmap & Hinfo).
    rewrite Hlen in Hentry, Hinfo. split; [exact Hentry|].
    exists acc'. split; [exact Hrest|]. split; [exact Htools|]. split; [exact Hmap|].
    unfold others. rewrite Hinfo.
    assert (Hi' : length (take i (Multiplexer.server_info acc')) = i).
    { apply (f_equal length) in Hinfo. apply lookup_lt_Some in Hentry.
      rewrite length_app, length_take in Hinfo. cbn [length] in Hinfo.
      rewrite length_take. rewrite length_drop in Hinfo. lia. }
    rewrite <- Hi' at 1. rewrite take_app_length.
    rewrite <- Hi' at 2.
    change (take i (Multiplexer.server_info acc') ++
            Multiplexer.error_entry provider None :: drop i (Multiplexer.server_info acc'))
      with (take i (Multiplexer.server_info acc') ++
            [Multiplexer.error_entry provider None] ++ drop i (Multiplexer.server_info acc')).
    rewrite app_assoc.
    replace (S (length (take i (Multiplexer.server_info acc'))))
      with (length (take i (Multiplexer.server_info acc') ++
                    [Multiplexer.error_entry provider None]))
      by (rewrite length_app; cbn [length]; lia).
    rewrite drop_app_length. apply take_drop. }
  assert (Hinit : forall (session_id : UUID) (connections : list (string * nat))
                         (results : list (string * json * option exn * option Response))
                         (i : nat) (resp : option Response) (acc : Multiplexer.Merged)
                         (base : pydict) (w w' : World),
            results !! i = Some (provider, payload, None, resp) ->
            Multiplexer.initialize_merge session_id connections results
              Multiplexer.no_tools [] w = (Ok (acc, base), w') ->
            Multiplexer.server_info acc !! i = Some entry /\
            exists acc' : Multiplexer.Merged,
              Multiplexer.initialize_merge session_id connections (others _ i results)
                Multiplexer.no_tools [] w = (Ok (acc', base), w') /\
              Multiplexer.combined_tools acc = Multiplexer.combined_tools acc' /\
              Multiplexer.tool_map acc = Multiplexer.tool_map acc' /\
              others _ i (Multiplexer.server_info acc) = Multiplexer.server_info acc').
  { intros session_id connections results i resp acc base w w' Hi Hrun.
    assert (Hlen : length (take i results) = i).
    { apply lookup_lt_Some in Hi. rewrite length_take. lia. }
    rewrite <- (take_drop_middle results i _ Hi) in Hrun.
    destruct (initialize_merge_skips session_id connections provider payload resp _ _
                acc base w w' Hfalsy Hrun)
      as (Hentry & acc' & Hrest & Htools & Hmap & Hinfo).
    rewrite Hlen in Hentry, Hinfo. split; [exact Hentry|].
    exists acc'. split; [exact Hrest|]. split; [exact Htools|]. split; [exact Hmap|].
    unfold others. rewrite Hinfo.
    assert (Hi' : length (take i (Multiplexer.server_info acc')) = i).
    { apply (f_equal length) in Hinfo. apply lookup_lt_Some in Hentry.
      rewrite length_app, length_take in Hinfo. cbn [length] in Hinfo.
      rewrite length_take. rewrite length_drop in Hinfo. lia. }
    rewrite <- Hi' at 1. rewrite take_app_length.
    rewrite <- Hi' at 2.
    change (take i (Multiplexer.server_info acc') ++
            Multiplexer.error_entry provider None :: drop i (Multiplexer.server_info acc'))
      with (take i (Multiplexer.server_info acc') ++
            [Multiplexer.error_entry provider None] ++ drop i (Multiplexer.server_info acc')).
    rewrite app_assoc.
    replace (S (length (take i (Multiplexer.server_info acc'))))
      with (length (take i (Multiplexer.server_info acc') ++
                    [Multiplexer.error_entry provider None]))
      by (rewrite length_app; cbn [length]; lia).
    rewrite drop_app_length. apply take_drop. }
  split; [|split; [exact Hlist|split; [exact Hinit|split; [|split]]]].
  - intros connections request_body handle w w' resp Hh Hpost Hdec. split.
    + eapply list_tools_call_provider_decoded; eauto.
    + intros Hst. eapply initialize_call_provider_decoded; eauto.
  - intros session_id body result w w0 w1 w' runtime results i resp Hget Hg Hi Hrun.
    unfold Multiplexer.initialize in Hrun.
    rewrite (bind_ok _ _ _ _ _ Hget) in Hrun. cbv zeta in Hrun.
    rewrite (bind_ok _ _ _ _ _ Hg) in Hrun.
    destruct (Multiplexer.initialize_merge session_id (connections runtime) results
                Multiplexer.no_tools [] w1) as [[[acc base]|e] w2] eqn:Hm;
      [rewrite (bind_ok _ _ _ _ _ Hm) in Hrun
      | rewrite (bind_raise _ _ _ _ _ Hm) in Hrun; discriminate Hrun].
    destruct (Hinit _ _ _ _ _ _ _ _ _ Hi Hm) as (Hentry & _).
    unfold bind, SessionManager.update_tool_map, SessionManager.update_runtime, modify, ret
      in Hrun.
    injection Hrun as <- _.
    exists (Multiplexer.server_info acc). split; [apply dict_get_set_eq | exact Hentry].
  - intros session_id body result w w0 w1 w' runtime results i Hget Hstale Hg Hi Hrun.
    rewrite (list_tools_run E session_id body w w0 runtime Hget) in Hrun.
    cbv zeta in Hrun. rewrite Hstale in Hrun.
    rewrite (bind_ok _ _ _ _ _ Hg) in Hrun.
    destruct (Multiplexer.list_tools_merge results Multiplexer.no_tools) as [acc|e] eqn:Hm.
    + rewrite (bind_ok _ _ w1 w1 acc) in Hrun by reflexivity.
      destruct (Hlist _ _ _ Hi Hm) as (Hentry & _).
      unfold bind, SessionManager.update_tool_map, SessionManager.update_runtime, modify,
        ret, Multiplexer.now in Hrun.
      injection Hrun as <- _.
      exists (Multiplexer.server_info acc). split; [reflexivity | exact Hentry].
    + rewrite (bind_raise _ _ w1 w1 e) in Hrun by reflexivity. discriminate Hrun.
  - discriminate.
Qed.

(** The claim at provider [B] replying with the empty object to the
    session of the seed scenario: in the loop of [tools/list], in the
    loop of [initialize], and in the results that [initialize] and
    [tools/list] return. *)
Lemma falsy_payload_reported_as_error_witness :
  truthy (JObj []) = false /\
  (exists acc : Multiplexer.Merged,
     Multiplexer.list_tools_merge
       [("A", Examples.payload_A, None); ("B", JObj [], None)] Multiplexer.no_tools = Ok acc /\
     Multiplexer.server_info acc !! 1%nat = Some (Examples.error_info "B" "None")) /\
  (exists (acc : Multiplexer.Merged) (base : pydict) (w' : World),
     Multiplexer.initialize_merge 7 (connections Examples.runtime_7)
       [("A", Examples.payload_A, None, None); ("B", JObj [], None, None)]
       Multiplexer.no_tools [] Examples.live_world = (Ok (acc, base), w') /\
     Multiplexer.server_info acc !! 1%nat = Some (Examples.error_info "B" "None")) /\
  (exists (result : pydict) (entries : list json),
     fst (Multiplexer.initialize Examples.B_empty_env 7 Examples.initialize_body
            Examples.live_world) = Ok result /\
     dict_get "server_info" result = JArr entries /\
     entries !! 1%nat = Some (Examples.error_info "B" "None")) /\
  (exists (result : pydict) (entries : list json),
     fst (Multiplexer.list_tools Examples.B_empty_env 7 Examples.tools_list_body
            Examples.live_world) = Ok result /\
     dict_get "server_info" result = JArr entries /\
     entries !! 1%nat = Some (Examples.error_info "B" "None")).
Proof.
  split; [reflexivity|].
  destruct (falsy_payload_reported_as_error Examples.B_empty_env "B" (JObj []) eq_refl)
    as (_ & Hlist & Hinit & Hinitialize & Htools_list & _).
  split; [|split; [|split]].
  - destruct (Multiplexer.list_tools_merge
                [("A", Examples.payload_A, None); ("B", JObj [], None)] Multiplexer.no_tools)
      as [acc|e] eqn:Hrun; [|vm_compute in Hrun; discriminate Hrun].
    exists acc. split; [reflexivity|].
    destruct (Hlist [("A", Examples.payload_A, None); ("B", JObj [], None)] 1%nat acc
                eq_refl Hrun) as (Hentry & _).
    exact Hentry.
  - destruct (Multiplexer.initialize_merge 7 (connections Examples.runtime_7)
                [("A", Examples.payload_A, None, None); ("B", JObj [], None, None)]
                Multiplexer.no_tools [] Examples.live_world)
      as [[[acc base]|e] w'] eqn:Hrun; [|vm_compute in Hrun; discriminate Hrun].
    exists acc, base, w'. split; [reflexivity|].
    destruct (Hinit 7%N (connections Examples.runtime_7)
                [("A", Examples.payload_A, None, None); ("B", JObj [], None, None)]
                1%nat None acc base Examples.live_world w' eq_refl Hrun) as (Hentry & _).
    exact Hentry.
  - destruct (Multiplexer.initialize Examples.B_empty_env 7 Examples.initialize_body
                Examples.live_world) as [[result|e] w'] eqn:Hrun;
      [|vm_compute in Hrun; discriminate Hrun].
    destruct (gather (map (Multiplexer.initialize_call_provider Examples.B_empty_env
                             (connections Examples.runtime_7) Examples.initialize_body)
                          (assoc_keys (connections Examples.runtime_7))) Examples.live_world)
      as [[results|e] w1] eqn:Hg; [|vm_compute in Hg; discriminate Hg].
    destruct (Hinitialize 7%N Examples.initialize_body result Examples.live_world
                Examples.live_world w1 w' Examples.runtime_7 results 1%nat
                (Some {| status_code := 200;
                         resp_headers := [("Content-Type", "application/json")];
                         text := Examples.text_empty_object |})
                eq_refl Hg) as (entries & Hinfo & Hentry).
    + vm_compute in Hg. injection Hg as <- _. reflexivity.
    + exact Hrun.
    + exists result, entries. split; [reflexivity|]. split; [exact Hinfo | exact Hentry].
  - destruct (Multiplexer.list_tools Examples.B_empty_env 7 Examples.tools_list_body
                Examples.live_world) as [[result|e] w'] eqn:Hrun;
      [|vm_compute in Hrun; discriminate Hrun].
    destruct (gather (map (Multiplexer.list_tools_call_provider Examples.B_empty_env
                             (connections Examples.runtime_7) Examples.tools_list_body)
                          (assoc_keys (connections Examples.runtime_7)))
                     (set_clock_reads S Examples.live_world))
      as [[results|e] w1] eqn:Hg; [|vm_compute in Hg; discriminate Hg].
    destruct (Htools_list 7%N Examples.tools_list_body result Examples.live_world
                Examples.live_world w1 w' Examples.runtime_7 results 1%nat
                eq_refl eq_refl Hg) as (entries & Hinfo & Hentry).
    + vm_compute in Hg. injection Hg as <- _. reflexivity.
    + exact Hrun.
    + exists result, entries. split; [reflexivity|]. split; [exact Hinfo | exact Hentry].
Defined.

(** ** The multiplexer: whole operations on session 7 *)

(** The seed scenario: [initialize] with both providers healthy. *)
Example initialize_two_providers :
  fst (Multiplexer.initialize Examples.healthy_env 7 Examples.initialize_body
         Examples.live_world) =
  Ok [("protocol", JStr "2024-11");
      ("tools", JArr [Examples.tool "A__ping"; Examples.tool "B__echo"]);
      ("server_info", JArr [Examples.ok_info "A" 1; Examples.ok_info "B" 1])].
Proof. vm_compute. reflexivity. Qed.

(** C2 (non-2xx in the tools/list fan-out), evaluated where the code
    departs from the claim: provider [B] answers HTTP 503 with a body that
    decodes.  [tools/list] takes [B] for a success: its tool is merged and
    its [server_info] entry has status ["ok"].  [initialize], given the
    same replies, treats [B] as failed. *)
Theorem list_tools_accepts_non_2xx :
  fst (Multiplexer.list_tools Examples.B_503_with_tools_env 7 Examples.tools_list_body
         Examples.live_world) =
    Ok [("tools", JArr [Examples.tool "A__ping"; Examples.tool "B__echo"]);
        ("server_info", JArr [Examples.ok_info "A" 1; Examples.ok_info "B" 1])] /\
  fst (Multiplexer.initialize Examples.B_503_with_tools_env 7 Examples.initialize_body
         Examples.live_world) =
    Ok [("protocol", JStr "2024-11");
        ("tools", JArr [Examples.tool "A__ping"]);
        ("server_info", JArr [Examples.ok_info "A" 1;
                              Examples.error_info "B" "HTTP status 503"])].
Proof. split; vm_compute; reflexivity. Qed.

(** C3 (a failing provider never fails the fan-out and is recorded as an
    error), evaluated where the code departs from the claim.  In
    [tools/list], provider [B] answering HTTP 503 with an error document
    is recorded with status ["ok"] and no tools, not with status
    ["error"].  In [initialize], provider [B] answering with a JSON array
    makes the whole operation raise, although provider [A] is healthy. *)
Theorem fan_out_failure_not_captured :
  fst (Multiplexer.list_tools Examples.B_503_env 7 Examples.tools_list_body
         Examples.live_world) =
    Ok [("tools", JArr [Examples.tool "A__ping"]);
        ("server_info", JArr [Examples.ok_info "A" 1; Examples.ok_info "B" 0])] /\
  fst (Multiplexer.initialize Examples.B_array_env 7 Examples.initialize_body
         Examples.live_world) =
    Raise (AttributeError "object has no attribute 'get'") /\
  fst (Multiplexer.list_tools Examples.B_array_env 7 Examples.tools_list_body
         Examples.live_world) =
    Raise (AttributeError "object has no attribute 'get'").
Proof. repeat split; vm_compute; reflexivity. Qed.

(** A reply that decodes to the empty object, end to end. *)
Example list_tools_empty_object :
  fst (Multiplexer.list_tools Examples.B_empty_env 7 Examples.tools_list_body
         Examples.live_world) =
    Ok [("tools", JArr [Examples.tool "A__ping"]);
        ("server_info", JArr [Examples.ok_info "A" 1; Examples.error_info "B" "None"])].
Proof. vm_compute. reflexivity. Qed.

(** Two [tools/list] calls in a row: the second returns the same result
    and sends nothing upstream. *)
Example list_tools_twice :
  let first := Multiplexer.list_tools Examples.healthy_env 7 Examples.tools_list_body
                 Examples.live_world in
  let second := Multiplexer.list_tools Examples.healthy_env 7 Examples.tools_list_body
                  (snd first) in
  fst second = fst first /\
  http_log (snd second) = http_log (snd first) /\
  length (http_log (snd first)) = 2%nat.
Proof. vm_compute. repeat split. Qed.

(** ** The protocol handler: tools/call *)

Section ToolsCallFacts.

Import ProtocolHandler.

Variable E : Env.

(** The [id] of the payload once [_handle_tools_call] has rewritten it. *)
Lemma rewritten_id (v : json) (payload : pydict) :
  dict_get "id"
    (if dict_contains "jsonrpc" (dict_set "id" v payload)
     then dict_set "id" v payload
     else dict_set "jsonrpc" (JStr "2.0") (dict_set "id" v payload)) = v.
Proof.
  unfold dict_get, dict_set.
  destruct (dict_contains "jsonrpc" (assoc_set "id" v payload)).
  - rewrite assoc_lookup_set_eq. reflexivity.
  - rewrite assoc_lookup_set_ne by discriminate.
    rewrite assoc_lookup_set_eq. reflexivity.
Qed.

(** The [try] block for a 2xx reply whose body decodes to an object. *)
Lemma forward_decoded (body : pydict) (provider : string) (handle : nat)
    (forward_body : pydict) (w w' : World) (resp : Response) (payload : pydict) :
  ConnectionManager.post E handle forward_body (Some (backend_timeout (settings E))) w =
    (Ok resp, w') ->
  Multiplexer.raise_for_status E resp = Ok tt ->
  Multiplexer.decode_body E resp = Ok (JObj payload) ->
  forward E body provider handle forward_body w = (Ok (Ok (inl payload)), w').
Proof.
  intros Hpost Hst Hdec. unfold forward, attempt.
  rewrite (bind_ok _ _ _ _ _ Hpost).
  unfold bind, lift. rewrite Hst.
  unfold Multiplexer.decode_body in Hdec.
  destruct (startswith _ "text/event-stream"); rewrite Hdec; reflexivity.
Qed.

(** A routed [tools/call] whose backend answers 2xx with an object: the
    response is the payload with its [id] resolved through the mapper,
    the client id standing in when the mapper has nothing to say. *)
Lemma tools_call_response_id (session_id : UUID) (body : pydict) (w w2 : World)
    (tool_name : string) (info : ToolMapEntry) (runtime : RuntimeSessionState)
    (handle : nat) (resp : Response) (backend_payload : pydict) :
  let params := py_or (dict_get "params" body) (JObj []) in
  let client_id := dict_get "id" body in
  let backend_id := IdMapper.uuid_str (uuid4 E (uuids_drawn w)) in
  let forward_params :=
    dict_set "name" (JStr (backend_tool_name info))
      (match params with JObj p => p | _ => [] end) in
  let forward_body :=
    dict_set "id" (JStr backend_id) (dict_set "params" (JObj forward_params) body) in
  let w1 := snd (IdMapper.register E session_id (provider info) client_id w) in
  py_get params "name" = Ok (JStr tool_name) -> tool_name <> "" ->
  _runtime_sessions w !! session_id = Some runtime ->
  tool_name_map runtime !! tool_name = Some info ->
  assoc_lookup (provider info) (connections runtime) = Some handle ->
  ConnectionManager.post E handle forward_body (Some (backend_timeout (settings E))) w1 =
    (Ok resp, w2) ->
  Multiplexer.raise_for_status E resp = Ok tt ->
  Multiplexer.decode_body E resp = Ok (JObj backend_payload) ->
  exists response : pydict,
    _handle_tools_call E session_id body w = (Ok response, w2) /\
    dict_get "id" response =
      py_or (IdMapper.resolve_backend E session_id (provider info)
               (dict_get "id" backend_payload) w1) client_id.
Proof.
  intros params client_id backend_id forward_params forward_body w1
    Hname Hnonempty Hrt Hinfo Hhandle Hpost Hstatus Hdecode.
  assert (Htruthy : truthy (JStr tool_name) = true).
  { simpl. apply String.eqb_neq in Hnonempty. rewrite Hnonempty. reflexivity. }
  assert (Hreg : IdMapper.register E session_id (provider info) client_id w =
                 (Ok backend_id, w1)).
  { unfold w1. rewrite register_runs. reflexivity. }
  assert (Hmap : _backend_to_client w2 = _backend_to_client w1).
  { pose proof (post_frame E handle forward_body (Some (backend_timeout (settings E))) w1) as Hf.
    rewrite Hpost in Hf. apply (f_equal _backend_to_client) in Hf. exact Hf. }
  unfold _handle_tools_call. fold params.
  rewrite (bind_ok _ _ w w (JStr tool_name)) by (unfold lift; rewrite Hname; reflexivity).
  rewrite Htruthy. cbn [negb].
  rewrite (bind_ok get_world _ w w w) by reflexivity.
  rewrite (bind_ok _ _ w w (Some info)).
  2: { unfold lift, tool_map_get, SessionManager.get_tool_mapping.
       rewrite Hrt, Hinfo. reflexivity. }
  rewrite (bind_ok _ _ w w runtime) by (apply (get_runtime_state_live E); exact Hrt).
  rewrite Hhandle. fold client_id.
  rewrite (bind_ok _ _ w w1 backend_id) by exact Hreg.
  fold forward_params. fold forward_body.
  rewrite (bind_ok _ _ w1 w2 (Ok (inl backend_payload)))
    by (eapply forward_decoded; eauto).
  rewrite (bind_ok get_world _ w2 w2 w2) by reflexivity.
  eexists. split; [reflexivity|].
  rewrite rewritten_id.
  unfold IdMapper.resolve_backend. rewrite Hmap. reflexivity.
Qed.

End ToolsCallFacts.

(** C4, as amended.  For every [tools/call] request with client id [C],
    of any JSON type, that is routed to a backend and receives a 2xx
    reply whose body decodes to an object: the handler registers [C]
    under a fresh backend id and forwards that backend id; the response
    carries the [id] that the ID mapper resolves the backend-reported id
    to, with [C] standing in when the mapper has none or an empty one;
    so the response carries [id] equal to [C], with its JSON type,
    whenever the backend echoes the id it was sent or reports an id the
    mapper does not hold for this session and provider. *)
Theorem tools_call_preserves_client_id (E : Env) (session_id : UUID) (body : pydict)
    (w w2 : World) (tool_name : string) (info : ToolMapEntry)
    (runtime : RuntimeSessionState) (handle : nat) (resp : Response)
    (backend_payload : pydict) :
  let params := py_or (dict_get "params" body) (JObj []) in
  let client_id := dict_get "id" body in
  let backend_id := IdMapper.uuid_str (uuid4 E (uuids_drawn w)) in
  let forward_params :=
    dict_set "name" (JStr (backend_tool_name info))
      (match params with JObj p => p | _ => [] end) in
  let forward_body :=
    dict_set "id" (JStr backend_id) (dict_set "params" (JObj forward_params) body) in
  let w1 := snd (IdMapper.register E session_id (provider info) client_id w) in
  let reported := py_str E (dict_get "id" backend_payload) in
  let known : gmap string json :=
    default ∅ (_backend_to_client w1 !! IdMapper._key session_id (provider info)) in
  py_get params "name" = Ok (JStr tool_name) -> tool_name <> "" ->
  _runtime_sessions w !! session_id = Some runtime ->
  tool_name_map runtime !! tool_name = Some info ->
  assoc_lookup (provider info) (connections runtime) = Some handle ->
  ConnectionManager.post E handle forward_body (Some (backend_timeout (settings E))) w1 =
    (Ok resp, w2) ->
  Multiplexer.raise_for_status E resp = Ok tt ->
  Multiplexer.decode_body E resp = Ok (JObj backend_payload) ->
  known !! backend_id = Some client_id /\
  dict_get "id" forward_body = JStr backend_id /\
  exists response : pydict,
    ProtocolHandler._handle_tools_call E session_id body w = (Ok response, w2) /\
    dict_get "id" response = py_or (default JNull (known !! reported)) client_id /\
    (reported = backend_id \/ known !! reported = None -> dict_get "id" response = client_id).
Proof.
  intros params client_id backend_id forward_params forward_body w1 reported known
    Hname Hnonempty Hrt Hinfo Hhandle Hpost Hstatus Hdecode.
  assert (Hknown : known !! backend_id = Some client_id).
  { unfold known, w1. rewrite register_runs. simpl.
    rewrite lookup_insert_eq. simpl. apply lookup_insert_eq. }
  split; [exact Hknown|]. split.
  { unfold forward_body, dict_get, dict_set. rewrite assoc_lookup_set_eq. reflexivity. }
  destruct (tools_call_response_id E session_id body w w2 tool_name info runtime handle
              resp backend_payload Hname Hnonempty Hrt Hinfo Hhandle Hpost Hstatus Hdecode)
    as (response & Hrun & Hid).
  exists response. split; [exact Hrun|].
  change (dict_get "id" response = py_or (default JNull (known !! reported)) client_id)
    in Hid.
  split; [exact Hid|].
  intros [Hecho|Hmiss].
  - rewrite Hecho, Hknown in Hid. rewrite Hid. simpl. unfold py_or.
    destruct (truthy client_id); reflexivity.
  - rewrite Hmiss in Hid. exact Hid.
Qed.

(** The amended claim at a first call for [A__ping] with the string id
    ["abc"]: the backend id is the first one drawn, the backend echoes
    it, and the response carries ["abc"]. *)
Lemma tools_call_preserves_client_id_witness :
  let body := Examples.call_body (JStr "abc") in
  let w1 := snd (IdMapper.register Examples.stale_env 7 "A" (JStr "abc") Examples.ready_world) in
  let posted := ConnectionManager.post Examples.stale_env 0
                  (Examples.forwarded_call (JStr "abc"))
                  (Some (backend_timeout (settings Examples.stale_env))) w1 in
  posted = (Ok Examples.stale_response, snd posted) /\
  exists response : pydict,
    ProtocolHandler._handle_tools_call Examples.stale_env 7 body Examples.ready_world =
      (Ok response, snd posted) /\
    dict_get "id" response = JStr "abc".
Proof.
  intros body w1 posted.
  assert (Hpost : posted = (Ok Examples.stale_response, snd posted))
    by (vm_compute; reflexivity).
  split; [exact Hpost|].
  destruct (tools_call_preserves_client_id Examples.stale_env 7 body Examples.ready_world
              (snd posted) "A__ping" Examples.entry_A_ping
              (SessionManager.with_tool_name_map Examples.merged_tool_map Examples.runtime_7)
              0%nat Examples.stale_response Examples.payload_stale_reply)
    as (_ & _ & response & Hrun & _ & Hid);
    try (vm_compute; reflexivity); try discriminate.
  exists response. split; [exact Hrun|]. apply Hid. left. vm_compute. reflexivity.
Defined.

(** C4 as stated does not hold: a call that is routed to a backend and
    receives a 2xx reply decoding to an object need not come back with
    the client's id.  After a first call with the id 1, a second call
    with the id 2 whose backend reports the id of the first call comes
    back with the id 1. *)
Lemma tools_call_stale_id_counterexample :
  ~ (forall (E : Env) (session_id : UUID) (body : pydict) (w w2 : World)
            (tool_name : string) (info : ToolMapEntry) (runtime : RuntimeSessionState)
            (handle : nat) (resp : Response) (backend_payload : pydict),
       let params := py_or (dict_get "params" body) (JObj []) in
       let client_id := dict_get "id" body in
       let backend_id := IdMapper.uuid_str (uuid4 E (uuids_drawn w)) in
       let forward_params :=
         dict_set "name" (JStr (backend_tool_name info))
           (match params with JObj p => p | _ => [] end) in
       let forward_body :=
         dict_set "id" (JStr backend_id) (dict_set "params" (JObj forward_params) body) in
       let w1 := snd (IdMapper.register E session_id (provider info) client_id w) in
       py_get params "name" = Ok (JStr tool_name) -> tool_name <> "" ->
       _runtime_sessions w !! session_id = Some runtime ->
       tool_name_map runtime !! tool_name = Some info ->
       assoc_lookup (provider info) (connections runtime) = Some handle ->
       ConnectionManager.post E handle forward_body (Some (backend_timeout (settings E))) w1 =
         (Ok resp, w2) ->
       Multiplexer.raise_for_status E resp = Ok tt ->
       Multiplexer.decode_body E resp = Ok (JObj backend_payload) ->
       exists response : pydict,
         ProtocolHandler._handle_tools_call E session_id body w = (Ok response, w2) /\
         dict_get "id" response = client_id).
Proof.
  intros Hclaim.
  pose (after_first :=
          snd (ProtocolHandler._handle_tools_call Examples.stale_env 7
                 (Examples.call_body (JInt 1)) Examples.ready_world)).
  pose (body := Examples.call_body (JInt 2)).
  pose (w1 := snd (IdMapper.register Examples.stale_env 7 "A" (JInt 2) after_first)).
  pose (posted := ConnectionManager.post Examples.stale_env 0
                    (dict_set "id" (JStr "00000000-0000-0000-0000-0000000003e9")
                       (Examples.forwarded_call (JInt 2)))
                    (Some (backend_timeout (settings Examples.stale_env))) w1).
  destruct (Hclaim Examples.stale_env 7%N body after_first (snd posted) "A__ping"
              Examples.entry_A_ping
              (SessionManager.with_tool_name_map Examples.merged_tool_map Examples.runtime_7)
              0%nat Examples.stale_response Examples.payload_stale_reply)
    as (response & Hrun & Hid);
    try (vm_compute; reflexivity); try discriminate.
  vm_compute in Hrun. injection Hrun as <-.
  vm_compute in Hid. discriminate Hid.
Qed.

(* ===================================================================== *)
(** * Further properties of the services                                  *)
(* ===================================================================== *)

(** ** The retry helper: time slept and the retries bound *)

(** The delays of [j] retries add up as a geometric sum, as long as each
    of them fits in a float. *)
Lemma total_sleep_backoff_log (j : nat) (d : Q) :
  (0 <= d)%Q ->
  (forall i : nat, (i < j)%nat -> (d * 2 ^ Z.of_nat i <= Retries.float_max)%Q) ->
  exists t : Q,
    Retries.total_sleep (Retries.backoff_log j (Retries.Finite d)) = Retries.Finite t /\
    (t == d * (2 ^ Z.of_nat j - 1))%Q.
Proof.
  revert d. induction j as [|j IH]; intros d Hd Hfit.
  - exists 0%Q. split; [reflexivity|]. simpl. ring.
  - destruct j as [|j].
    + exists (d + 0)%Q. split; [reflexivity|]. simpl. ring.
    + assert (Hdouble : Retries.double (Retries.Finite d) = Retries.Finite (d * 2)).
      { unfold Retries.double.
        assert (Hle : Qle_bool (Qabs (d * 2)) Retries.float_max = true).
        { apply Qle_bool_iff. rewrite Qabs_pos.
          - specialize (Hfit 1%nat ltac:(lia)). simpl in Hfit. exact Hfit.
          - apply Qmult_le_0_compat; [exact Hd | discriminate]. }
        rewrite Hle. reflexivity. }
      destruct (IH (d * 2)%Q) as (t & Ht & Hval).
      { apply Qmult_le_0_compat; [exact Hd | discriminate]. }
      { intros i Hi. specialize (Hfit (S i) ltac:(lia)).
        rewrite Qpower_2_succ in Hfit.
        assert (Heq : (d * 2 * 2 ^ Z.of_nat i == d * (2 ^ Z.of_nat i * 2))%Q) by ring.
        rewrite Heq. exact Hfit. }
      exists (d + t)%Q. split.
      * unfold Retries.total_sleep in *.
        change (Retries.sleeps (Retries.backoff_log (S (S j)) (Retries.Finite d)))
          with (Retries.Finite d ::
                Retries.sleeps (Retries.backoff_log (S j)
                                  (Retries.double (Retries.Finite d)))).
        rewrite Hdouble. cbn [fold_right]. rewrite Ht. reflexivity.
      * rewrite Hval, (Qpower_2_succ (S j)). ring.
Qed.

(** X1 (async_retry, time slept).  With [n >= 0] retries and a base
    delay [d >= 0] such that every delay the retries can call for,
    [d * 2^i] with [i < n], fits in a float, [async_retry] sleeps once
    per retry, the delays add up to [d * (2^r - 1)] where [r] is the
    number of retries it made, and the time slept never exceeds
    [d * (2^n - 1)]. *)
Theorem async_retry_time_slept {W T : Type} (func : W -> res T * W)
    (exc_types : exn -> bool) (n : Z) (d : Q) (w : W) :
  0 <= n -> (0 <= d)%Q ->
  (forall i : nat, Z.of_nat i < n -> (d * 2 ^ Z.of_nat i <= Retries.float_max)%Q) ->
  let log := snd (Retries.async_retry func exc_types n (Retries.Finite d) w) in
  let retried := pred (Retries.calls log) in
  length (Retries.sleeps log) = retried /\
  exists t : Q,
    Retries.total_sleep log = Retries.Finite t /\
    (t == d * (2 ^ Z.of_nat retried - 1))%Q /\
    (t <= d * (2 ^ n - 1))%Q.
Proof.
  intros Hn Hd Hfit log retried.
  destruct (async_retry_run func exc_types n (Retries.Finite d) w Hn) as (j & Hj & Hrun & _).
  assert (Hlog : log = Retries.backoff_log j (Retries.Finite d))
    by (unfold log; rewrite Hrun; reflexivity).
  assert (Hretried : retried = j).
  { unfold retried. rewrite Hlog, calls_backoff_log. reflexivity. }
  rewrite Hretried, Hlog.
  split; [apply sleeps_backoff_log_length|].
  destruct (total_sleep_backoff_log j d Hd) as (t & Ht & Hval).
  { intros i Hi. apply Hfit. lia. }
  exists t. split; [exact Ht|]. split; [exact Hval|].
  rewrite Hval, !(Qmult_comm d).
  apply Qmult_le_compat_r; [|exact Hd].
  unfold Qminus. apply Qplus_le_l.
  replace n with (Z.of_nat (Z.to_nat n)) by lia.
  apply Qpower_2_mono. exact Hj.
Qed.

(** The retries of [Examples.flaky_op] under two retries and a base delay
    of half a second take a second and a half. *)
Lemma async_retry_time_slept_witness :
  0 <= 2 /\ (0 <= 1 # 2)%Q /\
  length (Retries.sleeps
            (snd (Retries.async_retry Examples.flaky_op is_RequestError 2
                    (Retries.Finite (1 # 2)) 0%nat)))
    = 2%nat /\
  exists t : Q,
    Retries.total_sleep
      (snd (Retries.async_retry Examples.flaky_op is_RequestError 2
              (Retries.Finite (1 # 2)) 0%nat)) = Retries.Finite t /\
    (t == 3 # 2)%Q.
Proof.
  split; [lia|]. split; [discriminate|].
  destruct (async_retry_time_slept Examples.flaky_op is_RequestError 2 (1 # 2) 0%nat)
    as (Hlen & t & Ht & Hsum & _); [lia | discriminate | |].
  - intros i Hi. apply Qle_bool_iff.
    destruct i as [|[|i]]; [vm_compute; reflexivity | vm_compute; reflexivity | lia].
  - split; [exact Hlen|]. exists t. split; [exact Ht|].
    rewrite Hsum. reflexivity.
Defined.

(** X2 (async_retry, no retries left).  With [retries <= 0], a negative
    count included, the operation is invoked exactly once, nothing is
    slept, and its outcome, a failure of a transient kind included, is the
    outcome of [async_retry], whatever the base delay. *)
Theorem async_retry_without_retries {W T : Type} (func : W -> res T * W)
    (exc_types : exn -> bool) (n : Z) (d : Retries.pyfloat) (w : W) :
  n <= 0 ->
  Retries.async_retry func exc_types n d w = (fst (func w), snd (func w), [Retries.Called]).
Proof.
  intros Hn. unfold Retries.async_retry.
  replace (Retries.enough_fuel n) with 1%nat by (unfold Retries.enough_fuel; lia).
  simpl. destruct (func w) as [[v|e] w1]; simpl; [reflexivity|].
  destruct (exc_types e); [|reflexivity].
  destruct (0 >=? n) eqn:Hge; [reflexivity | lia].
Qed.

(** With [retries = -1], the first connection reset of
    [Examples.flaky_op] is final. *)
Lemma async_retry_without_retries_witness :
  -1 <= 0 /\
  Retries.async_retry Examples.flaky_op is_RequestError (-1) (Retries.Finite (1 # 2)) 0%nat =
    (Raise (RequestError "connection reset"), 1%nat, [Retries.Called]).
Proof.
  split; [lia|].
  apply (async_retry_without_retries Examples.flaky_op is_RequestError (-1)
           (Retries.Finite (1 # 2)) 0%nat).
  lia.
Defined.

(** ** The ID mapper: keys and clearing *)

Lemma string_of_list_ascii_length (l : list ascii) :
  String.length (string_of_list_ascii l) = length l.
Proof. induction l as [|c l IH]; simpl; congruence. Qed.

Lemma uuid_str_length (u : UUID) : String.length (IdMapper.uuid_str u) = 36%nat.
Proof.
  unfold IdMapper.uuid_str. rewrite string_of_list_ascii_length.
  pose proof (hex_digits_length 32 u) as Hlen.
  destruct (IdMapper.hex_digits 32 u) as [|? h]; [discriminate Hlen|].
  do 31 (destruct h as [|? h]; [discriminate Hlen|]).
  destruct h; [reflexivity | discriminate Hlen].
Qed.

(** Two concatenations whose first parts have the same length. *)
Lemma append_inj_length (a b x y : string) :
  String.length a = String.length b -> a +:+ x = b +:+ y -> a = b /\ x = y.
Proof.
  revert b. induction a as [|c a IH]; intros [|c' b] Hlen Heq; try discriminate.
  - auto.
  - simpl in Heq. injection Heq as -> Heq.
    destruct (IH b) as [-> ->]; auto.
Qed.

Lemma prefix_append_length (a b x y : string) :
  String.length a = String.length b ->
  String.prefix (a +:+ x) (b +:+ y) = true -> a = b.
Proof.
  revert b. induction a as [|c a IH]; intros [|c' b] Hlen Hp; try discriminate.
  - reflexivity.
  - simpl in Hp. destruct (ascii_dec c c') as [->|]; [|discriminate].
    f_equal. apply IH; auto.
Qed.

Lemma prefix_append (a x : string) : String.prefix a (a +:+ x) = true.
Proof.
  induction a as [|c a IH]; simpl.
  - destruct x; reflexivity.
  - destruct (ascii_dec c c); [exact IH | congruence].
Qed.

(** The key of a (session, provider) pair determines the pair. *)
Lemma key_inj (s1 s2 : UUID) (p1 p2 : string) :
  (s1 < 2 ^ 128)%N -> (s2 < 2 ^ 128)%N ->
  IdMapper._key s1 p1 = IdMapper._key s2 p2 -> s1 = s2 /\ p1 = p2.
Proof.
  intros H1 H2 Heq. unfold IdMapper._key in Heq.
  apply append_inj_length in Heq; [|rewrite !uuid_str_length; reflexivity].
  destruct Heq as [Hs Hp]. split; [apply uuid_str_inj; auto|].
  change (String ":" p1 = String ":" p2) in Hp. congruence.
Qed.

(** X3 (ID mapper, isolation).  Registering a request under one
    (session, provider) pair leaves every other mapping as it was: what
    [resolve_backend] returns for a backend id under another pair, or for
    another backend id under the same pair, is not changed.  Session ids
    are 128-bit values. *)
Theorem register_keeps_other_ids (E : Env) (s1 s2 : UUID) (p1 p2 : string)
    (v b : json) (w : World) :
  (s1 < 2 ^ 128)%N -> (s2 < 2 ^ 128)%N ->
  (s1, p1) <> (s2, p2) \/ py_str E b <> IdMapper.uuid_str (uuid4 E (uuids_drawn w)) ->
  IdMapper.resolve_backend E s2 p2 b (snd (IdMapper.register E s1 p1 v w)) =
  IdMapper.resolve_backend E s2 p2 b w.
Proof.
  intros H1 H2 Hother. rewrite register_runs.
  unfold IdMapper.resolve_backend, set_backend_to_client, set_uuids_drawn.
  cbn [snd _backend_to_client].
  destruct (decide (IdMapper._key s1 p1 = IdMapper._key s2 p2)) as [Hkey|Hkey].
  - rewrite Hkey, lookup_insert_eq. cbn [default from_option id].
    destruct Hother as [Hpair|Hid].
    + exfalso. apply Hpair. apply key_inj in Hkey as [-> ->]; auto.
    + rewrite lookup_insert_ne by congruence. reflexivity.
  - rewrite lookup_insert_ne by exact Hkey. reflexivity.
Qed.

(** Session 7 registers the client id 42 for provider [A]; a second
    request, of session 8, does not disturb it. *)
Lemma register_keeps_other_ids_witness :
  IdMapper.resolve_backend Examples.quiet_env 7 "A"
    (JStr "00000000-0000-0000-0000-0000000003e8")
    (snd (IdMapper.register Examples.quiet_env 8 "A" (JInt 1)
            (snd (IdMapper.register Examples.quiet_env 7 "A" (JInt 42)
                    Examples.empty_world)))) = JInt 42.
Proof.
  rewrite (register_keeps_other_ids Examples.quiet_env 8 7 "A" "A" (JInt 1)).
  - vm_compute. reflexivity.
  - reflexivity.
  - reflexivity.
  - left. intros Heq. discriminate Heq.
Defined.

(** X4 (ID mapper, clear_session).  [clear_session] forgets every
    mapping of the session, whatever the provider, and no mapping of
    another session; nothing else in the process changes. *)
Theorem clear_session_forgets_the_session (E : Env) (s : UUID) (w : World) :
  let w' := snd (IdMapper.clear_session s w) in
  fst (IdMapper.clear_session s w) = Ok tt /\
  (forall (p : string) (b : json), IdMapper.resolve_backend E s p b w' = JNull) /\
  (forall (s' : UUID) (p : string) (b : json),
     (s < 2 ^ 128)%N -> (s' < 2 ^ 128)%N -> s' <> s ->
     IdMapper.resolve_backend E s' p b w' = IdMapper.resolve_backend E s' p b w) /\
  w' = set_backend_to_client (fun _ => _backend_to_client w') w.
Proof.
  intros w'. split; [reflexivity|].
  assert (Hmap : _backend_to_client w' =
                 filter (fun kv : string * gmap string json =>
                           startswith kv.1 (IdMapper.uuid_str s +:+ ":") = false)
                        (_backend_to_client w)) by reflexivity.
  split; [|split].
  - intros p b. unfold IdMapper.resolve_backend. rewrite Hmap.
    assert (Hgone : filter (fun kv : string * gmap string json =>
                              startswith kv.1 (IdMapper.uuid_str s +:+ ":") = false)
                           (_backend_to_client w) !! IdMapper._key s p = None).
    { apply map_lookup_filter_None. right. intros x _ Hkeep.
      cbn [fst] in Hkeep. unfold startswith, IdMapper._key in Hkeep.
      change (IdMapper.uuid_str s +:+ ":" +:+ p)
        with (IdMapper.uuid_str s +:+ (":" +:+ p)) in Hkeep.
      assert (Hp : String.prefix (IdMapper.uuid_str s +:+ ":")
                     (IdMapper.uuid_str s +:+ ":" +:+ p) = true).
      { clear. induction (IdMapper.uuid_str s) as [|c a IH].
        - change (String.prefix ":" (String ":" p) = true). simpl.
          destruct (ascii_dec ":" ":"); [|congruence]. destruct p; reflexivity.
        - change (String.prefix (String c (a +:+ ":")) (String c (a +:+ ":" +:+ p)) = true).
          simpl. destruct (ascii_dec c c); [exact IH | congruence]. }
      congruence. }
    rewrite Hgone. reflexivity.
  - intros s' p b Hs Hs' Hne. unfold IdMapper.resolve_backend. rewrite Hmap.
    destruct (_backend_to_client w !! IdMapper._key s' p) as [per_key|] eqn:Hk.
    + assert (Hkept : filter (fun kv : string * gmap string json =>
                                startswith kv.1 (IdMapper.uuid_str s +:+ ":") = false)
                             (_backend_to_client w) !! IdMapper._key s' p = Some per_key).
      { apply map_lookup_filter_Some. split; [exact Hk|].
        cbn [fst]. unfold startswith.
        destruct (String.prefix (IdMapper.uuid_str s +:+ ":") (IdMapper._key s' p)) eqn:Hp;
          [|reflexivity].
        exfalso. apply Hne. unfold IdMapper._key in Hp.
        apply prefix_append_length in Hp; [|rewrite !uuid_str_length; reflexivity].
        symmetry. apply uuid_str_inj; auto. }
      rewrite Hkept. reflexivity.
    + assert (Hnone : filter (fun kv : string * gmap string json =>
                                startswith kv.1 (IdMapper.uuid_str s +:+ ":") = false)
                             (_backend_to_client w) !! IdMapper._key s' p = None).
      { apply map_lookup_filter_None. left. exact Hk. }
      rewrite Hnone. reflexivity.
  - reflexivity.
Qed.

(** Clearing session 7 while session 8 has a request in flight. *)
Lemma clear_session_forgets_the_session_witness :
  IdMapper.resolve_backend Examples.quiet_env 7 "A" (JStr Examples.first_backend_id)
    Examples.two_sessions_world = JInt 42 /\
  IdMapper.resolve_backend Examples.quiet_env 7 "A" (JStr Examples.first_backend_id)
    (snd (IdMapper.clear_session 7 Examples.two_sessions_world)) = JNull /\
  IdMapper.resolve_backend Examples.quiet_env 8 "A" (JStr Examples.second_backend_id)
    (snd (IdMapper.clear_session 7 Examples.two_sessions_world)) = JInt 1.
Proof.
  destruct (clear_session_forgets_the_session Examples.quiet_env 7 Examples.two_sessions_world)
    as (_ & Hgone & Hkept & _).
  split; [vm_compute; reflexivity|]. split; [apply Hgone|].
  rewrite Hkept; [vm_compute; reflexivity | reflexivity | reflexivity | discriminate].
Defined.

(** ** The connection manager: handles and requests *)

Section HandleFacts.

Variable E : Env.

(** The states that the retries of one [post] go through: each attempt
    appends the same request to the HTTP log. *)
Lemma state_before_do_request (handle : nat) (body : pydict) (timeout : option Q)
    (hd : BackendHandle) (k : nat) (w : World) :
  handle_heap w !! handle = Some hd ->
  let req := {| req_url := request_url E (base_url hd);
                req_headers := client_headers hd;
                req_json := body;
                req_timeout :=
                  match timeout with
                  | Some t => if Qeq_bool t 0 then backend_timeout (settings E) else t
                  | None => backend_timeout (settings E)
                  end |} in
  Retries.state_before (ConnectionManager.do_request E handle body timeout) w k =
    set_http_log (fun l => l ++ repeat req k) w /\
  Retries.outcome_at (ConnectionManager.do_request E handle body timeout) w k =
    upstream E (length (http_log w) + k) req.
Proof.
  intros Hh req. unfold Retries.outcome_at.
  revert w Hh. induction k as [|k IH]; intros w Hh.
  - cbn [Retries.state_before repeat]. split.
    + destruct w. unfold set_http_log. cbn. rewrite app_nil_r. reflexivity.
    + unfold ConnectionManager.do_request. rewrite Hh. cbn [fst].
      rewrite Nat.add_0_r. reflexivity.
  - cbn [Retries.state_before].
    assert (Hstep : snd (ConnectionManager.do_request E handle body timeout w) =
                    set_http_log (fun l => l ++ [req]) w).
    { unfold ConnectionManager.do_request. rewrite Hh. reflexivity. }
    rewrite Hstep.
    destruct (IH (set_http_log (fun l => l ++ [req]) w) Hh) as [Hstate Hout].
    rewrite Hout, Hstate. split.
    + destruct w. unfold set_http_log. cbn. rewrite <- app_assoc. reflexivity.
    + f_equal. cbn [http_log set_http_log]. rewrite length_app. cbn [length]. lia.
Qed.

(** What one [post] on an open handle does. *)
Lemma post_run (handle : nat) (body : pydict)
    (timeout : option Q) (w : World) (hd : BackendHandle) :
  handle_heap w !! handle = Some hd -> closed hd = false ->
  0 <= retry_attempts (settings E) ->
  let req := {| req_url := request_url E (base_url hd);
                req_headers := client_headers hd;
                req_json := body;
                req_timeout :=
                  match timeout with
                  | Some t => if Qeq_bool t 0 then backend_timeout (settings E) else t
                  | None => backend_timeout (settings E)
                  end |} in
  let first := length (http_log w) in
  exists j : nat,
    Z.of_nat j <= retry_attempts (settings E) /\
    ConnectionManager.post E handle body timeout w =
      (upstream E (first + j) req, set_http_log (fun l => l ++ repeat req (S j)) w) /\
    (forall i : nat, (i < j)%nat ->
       exists e : exn, upstream E (first + i) req = Raise e /\ is_RequestError e = true) /\
    match upstream E (first + j) req with
    | Ok _ => True
    | Raise e => is_RequestError e = false \/ Z.of_nat j = retry_attempts (settings E)
    end.
Proof.
  intros Hh Hopen Hn req first.
  destruct (async_retry_run (ConnectionManager.do_request E handle body timeout)
              is_RequestError (retry_attempts (settings E))
              (Retries.Finite (retry_backoff_base (settings E))) w Hn) as (j & Hj & Hrun & Htr & Hdec).
  exists j. split; [lia|].
  destruct (state_before_do_request handle body timeout hd (S j) w Hh) as [Hstate _].
  destruct (state_before_do_request handle body timeout hd j w Hh) as [_ Hout].
  fold req in Hstate, Hout. fold first in Hout.
  split; [|split].
  - unfold ConnectionManager.post. rewrite Hh, Hopen, Hrun, Hstate, Hout. reflexivity.
  - intros i Hi. destruct (Htr i Hi) as (e & He & Ht).
    destruct (state_before_do_request handle body timeout hd i w Hh) as [_ Hi'].
    fold req in Hi'. fold first in Hi'. exists e. split; congruence.
  - rewrite Hout in Hdec. destruct (upstream E (first + j) req); [exact I|].
    destruct Hdec as [Hdec|Hdec]; [left; exact Hdec | right; lia].
Qed.


End HandleFacts.



(** X6 (BackendHandle.aclose).  Once a handle is closed, every [post] on
    it raises [RuntimeError] without sending a request; closing it again
    changes nothing; no other handle is touched. *)
Theorem closed_handle_refuses_requests (E : Env) (handle : nat) (w : World)
    (hd : BackendHandle) :
  handle_heap w !! handle = Some hd ->
  let w1 := snd (ConnectionManager.aclose handle w) in
  (forall (body : pydict) (timeout : option Q),
     ConnectionManager.post E handle body timeout w1 =
       (Raise (RuntimeError "BackendHandle is closed"), w1)) /\
  snd (ConnectionManager.aclose handle w1) = w1 /\
  (forall other : nat, other <> handle -> handle_heap w1 !! other = handle_heap w !! other) /\
  w1 = set_handle_heap (fun _ => handle_heap w1) w.
Proof.
  intros Hh w1.
  assert (Hlt : (handle < length (handle_heap w))%nat) by (eapply lookup_lt_Some; eauto).
  assert (Hclosed : exists hd1, handle_heap w1 !! handle = Some hd1 /\ closed hd1 = true).
  { unfold w1, ConnectionManager.aclose, modify, set_handle_heap. cbn [snd handle_heap].
    rewrite Hh. destruct (closed hd) eqn:Hc.
    - exists hd. auto.
    - eexists. split; [apply list_lookup_insert_eq; exact Hlt | reflexivity]. }
  destruct Hclosed as (hd1 & Hh1 & Hc1).
  split; [|split; [|split]].
  - intros body timeout. unfold ConnectionManager.post. rewrite Hh1, Hc1. reflexivity.
  - unfold ConnectionManager.aclose at 1, modify, set_handle_heap. cbn [snd].
    rewrite Hh1, Hc1. destruct w1. reflexivity.
  - intros other Hne. unfold w1, ConnectionManager.aclose, modify, set_handle_heap.
    cbn [snd handle_heap]. rewrite Hh. destruct (closed hd); [reflexivity|].
    apply list_lookup_insert_ne. congruence.
  - reflexivity.
Qed.

(** The handle of provider [A] once it is closed. *)
Lemma closed_handle_refuses_requests_witness :
  handle_heap Examples.live_world !! 0%nat = Some Examples.handle_A /\
  fst (ConnectionManager.post Examples.healthy_env 0 Examples.tools_list_body None
         (snd (ConnectionManager.aclose 0 Examples.live_world))) =
    Raise (RuntimeError "BackendHandle is closed").
Proof.
  split; [reflexivity|].
  destruct (closed_handle_refuses_requests Examples.healthy_env 0 Examples.live_world
              Examples.handle_A eq_refl) as (Hpost & _).
  rewrite Hpost. reflexivity.
Defined.

(** Closing a list of handles: the closed ones are those of the list and
    those closed before; the heap keeps its size, a handle its URL and
    headers, and the rest of the process is not touched. *)
Lemma gather_aclose (handles : list nat) (w : World) :
  exists w' : World,
    gather (map ConnectionManager.aclose handles) w = (Ok (map (fun _ => tt) handles), w') /\
    w' = set_handle_heap (fun _ => handle_heap w') w /\
    forall (h : nat) (hd : BackendHandle), handle_heap w !! h = Some hd ->
      exists hd' : BackendHandle,
        handle_heap w' !! h = Some hd' /\
        base_url hd' = base_url hd /\ client_headers hd' = client_headers hd /\
        (closed hd = true -> closed hd' = true) /\
        (In h handles -> closed hd' = true).
Proof.
  revert w. induction handles as [|a handles IH]; intros w.
  - exists w. split; [reflexivity|]. split; [destruct w; reflexivity|].
    intros h hd Hh. exists hd. repeat split; auto.
  - cbn [map gather]. unfold bind at 1.
    set (w1 := snd (ConnectionManager.aclose a w)).
    assert (Hrun : ConnectionManager.aclose a w = (Ok tt, w1)) by reflexivity.
    rewrite Hrun.
    assert (Hw1 : w1 = set_handle_heap (fun _ => handle_heap w1) w) by reflexivity.
    assert (Hstep : forall (h : nat) (hd : BackendHandle), handle_heap w !! h = Some hd ->
              exists hd1 : BackendHandle,
                handle_heap w1 !! h = Some hd1 /\
                base_url hd1 = base_url hd /\ client_headers hd1 = client_headers hd /\
                (closed hd = true -> closed hd1 = true) /\
                (h = a -> closed hd1 = true)).
    { intros h hd Hh.
      unfold w1, ConnectionManager.aclose, modify, set_handle_heap. cbn [snd handle_heap].
      destruct (handle_heap w !! a) as [hda|] eqn:Ha.
      - destruct (closed hda) eqn:Hc.
        + exists hd. repeat split; auto; try (intros ->; congruence).
        + destruct (decide (h = a)) as [->|Hne].
          * eexists. split.
            { apply list_lookup_insert_eq. eapply lookup_lt_Some; eauto. }
            assert (hda = hd) by congruence. subst hda. repeat split; auto.
          * exists hd. split; [rewrite list_lookup_insert_ne by congruence; exact Hh|].
            repeat split; auto; try (intros ->; congruence).
      - exists hd. repeat split; auto; try (intros ->; congruence). }
    destruct (IH w1) as (w' & Hg & Hw' & Hall).
    exists w'. unfold bind. rewrite Hg. split; [reflexivity|]. split.
    + rewrite Hw' at 1. rewrite Hw1. reflexivity.
    + intros h hd Hh. destruct (Hstep h hd Hh) as (hd1 & Hh1 & Hu1 & Hc1 & Hk1 & Ha1).
      destruct (Hall h hd1 Hh1) as (hd' & Hh' & Hu' & Hc' & Hk' & Hin').
      exists hd'. split; [exact Hh'|]. split; [congruence|]. split; [congruence|].
      split; [auto|]. intros [Heq|Hin]; [apply Hk'; apply Ha1; auto | auto].
Qed.

(** X7 (ConnectionManager.aclose_all).  [aclose_all] closes every handle
    the manager holds and then forgets them all: afterwards [get_handle]
    finds nothing, and a [post] on any of the former handles, to which the
    runtime state of a session still refers, raises [RuntimeError] without
    sending a request.  The runtime sessions themselves are left as they
    were. *)
Theorem aclose_all_closes_every_handle (E : Env) (w : World) :
  let w' := snd (ConnectionManager.aclose_all w) in
  fst (ConnectionManager.aclose_all w) = Ok tt /\
  (forall (session_id : UUID) (provider_name : string),
     ConnectionManager.get_handle session_id provider_name w' = None) /\
  (forall (session_id : UUID) (provider_name : string) (handle : nat)
          (body : pydict) (timeout : option Q),
     ConnectionManager.get_handle session_id provider_name w = Some handle ->
     (handle < length (handle_heap w))%nat ->
     ConnectionManager.post E handle body timeout w' =
       (Raise (RuntimeError "BackendHandle is closed"), w')) /\
  _runtime_sessions w' = _runtime_sessions w /\
  http_log w' = http_log w.
Proof.
  intros w'.
  set (all := concat (map (fun per_session : gmap string nat => map snd (map_to_list per_session))
                          (map snd (map_to_list (_handles w))))).
  destruct (gather_aclose all w) as (w1 & Hg & Hw1 & Hall).
  assert (Hrun : ConnectionManager.aclose_all w = (Ok tt, set_handles (fun _ => ∅) w1)).
  { unfold ConnectionManager.aclose_all. fold all. rewrite Hg. reflexivity. }
  unfold w'. rewrite Hrun. cbn [fst snd].
  split; [reflexivity|]. split; [|split; [|split]].
  - intros session_id provider_name. unfold ConnectionManager.get_handle.
    cbn [_handles set_handles]. rewrite lookup_empty. reflexivity.
  - intros session_id provider_name handle body timeout Hget Hlt.
    unfold ConnectionManager.get_handle in Hget.
    destruct (_handles w !! session_id) as [per_session|] eqn:Hs;
      [|cbn in Hget; rewrite lookup_empty in Hget; discriminate].
    cbn [default from_option id] in Hget.
    assert (Hin : In handle all).
    { unfold all. apply in_concat.
      exists (map snd (map_to_list per_session)). split.
      - apply in_map_iff. exists per_session. split; [reflexivity|].
        apply in_map_iff. exists (session_id, per_session). split; [reflexivity|].
        apply list_elem_of_In. apply elem_of_map_to_list. exact Hs.
      - apply in_map_iff. exists (provider_name, handle). split; [reflexivity|].
        apply list_elem_of_In. apply elem_of_map_to_list. exact Hget. }
    destruct (lookup_lt_is_Some_2 (handle_heap w) handle Hlt) as (hd & Hh).
    destruct (Hall handle hd Hh) as (hd' & Hh' & _ & _ & _ & Hclosed).
    unfold ConnectionManager.post. cbn [handle_heap set_handles].
    rewrite Hh', (Hclosed Hin). reflexivity.
  - rewrite Hw1. reflexivity.
  - rewrite Hw1. reflexivity.
Qed.

(** After the lifespan of the application has ended, the handle of
    provider [A] in session 7 refuses requests. *)
Lemma aclose_all_closes_every_handle_witness :
  ConnectionManager.get_handle 7 "A" Examples.live_world = Some 0%nat /\
  ConnectionManager.post Examples.healthy_env 0 Examples.tools_list_body None
    Examples.stopped_world =
    (Raise (RuntimeError "BackendHandle is closed"), Examples.stopped_world).
Proof.
  split; [reflexivity|].
  destruct (aclose_all_closes_every_handle Examples.healthy_env Examples.live_world)
    as (_ & _ & Hpost & _).
  apply (Hpost 7%N "A" 0%nat); [reflexivity | cbn; lia].
Defined.

(** What [get_or_create_handle] does, with or without a handle in place. *)
Lemma get_or_create_handle_run (session_id : UUID)
    (provider_name rpc_endpoint rpc_endpoint' : string) (headers headers' : gmap string json)
    (runtime runtime' : option RuntimeSessionState) (w : World) :
  let first :=
    ConnectionManager.get_or_create_handle session_id provider_name rpc_endpoint headers
      runtime w in
  exists handle : nat,
    fst first = Ok handle /\
    ConnectionManager.get_handle session_id provider_name (snd first) = Some handle /\
    ConnectionManager.get_or_create_handle session_id provider_name rpc_endpoint' headers'
      runtime' (snd first) = (Ok handle, snd first) /\
    (forall (s : UUID) (p : string), (s, p) <> (session_id, provider_name) ->
       ConnectionManager.get_handle s p (snd first) = ConnectionManager.get_handle s p w) /\
    (forall (a : nat) (hd : BackendHandle),
       handle_heap w !! a = Some hd -> handle_heap (snd first) !! a = Some hd) /\
    (ConnectionManager.get_handle session_id provider_name w = None ->
     handle_heap (snd first) !! handle =
       Some (ConnectionManager.new_handle rpc_endpoint headers)).
Proof.
  intros first.
  assert (Hsecond : forall (handle : nat) (w1 : World) (per_session : gmap string nat),
            _handles w1 !! session_id = Some per_session ->
            per_session !! provider_name = Some handle ->
            ConnectionManager.get_handle session_id provider_name w1 = Some handle /\
            ConnectionManager.get_or_create_handle session_id provider_name rpc_endpoint'
              headers' runtime' w1 = (Ok handle, w1)).
  { intros handle w1 per_session Hs Hp. split.
    - unfold ConnectionManager.get_handle. rewrite Hs. exact Hp.
    - eapply get_or_create_handle_existing; eauto. }
  assert (Hother : forall (m : gmap UUID (gmap string nat)) (per : gmap string nat)
                          (s : UUID) (p : string),
            (s, p) <> (session_id, provider_name) ->
            (forall p', p' <> provider_name -> per !! p' = default ∅ (m !! session_id) !! p') ->
            default ∅ (<[session_id := per]> m !! s) !! p = default ∅ (m !! s) !! p).
  { intros m per s p Hne Hper.
    destruct (decide (s = session_id)) as [->|Hs].
    - rewrite lookup_insert_eq. cbn [default from_option id].
      apply Hper. congruence.
    - rewrite lookup_insert_ne by congruence. reflexivity. }
  unfold first, ConnectionManager.get_or_create_handle.
  destruct (default ∅ (_handles w !! session_id) !! provider_name) as [handle|] eqn:Hp.
  - exists handle. cbn [fst snd]. split; [reflexivity|].
    destruct (Hsecond handle
                (set_handles (fun m => <[session_id := default ∅ (_handles w !! session_id)]> m) w)
                (default ∅ (_handles w !! session_id))) as [Hget Hagain];
      [apply lookup_insert_eq | exact Hp |].
    split; [exact Hget|]. split; [exact Hagain|]. split; [|split].
    + intros s p Hne. unfold ConnectionManager.get_handle. cbn [_handles set_handles].
      apply Hother; auto.
    + intros a hd Ha. exact Ha.
    + intros Hnone. unfold ConnectionManager.get_handle in Hnone. congruence.
  - exists (length (handle_heap w)). cbn [fst snd]. split; [reflexivity|].
    match goal with
    | |- ConnectionManager.get_handle _ _ ?w1 = _ /\ _ =>
        destruct (Hsecond (length (handle_heap w)) w1
                    (<[provider_name := length (handle_heap w)]>
                       (default ∅ (_handles w !! session_id)))) as [Hget Hagain]
    end.
    + cbn [_handles set_handles set_handle_heap]. apply lookup_insert_eq.
    + apply lookup_insert_eq.
    + split; [exact Hget|]. split; [exact Hagain|]. split; [|split].
      * intros s p Hne. unfold ConnectionManager.get_handle.
        cbn [_handles set_handles set_handle_heap].
        rewrite insert_insert_eq. apply Hother; auto.
        intros p' Hp'. rewrite lookup_insert_ne by congruence. reflexivity.
      * intros a hd Ha. cbn [handle_heap set_handles set_handle_heap].
        rewrite lookup_app_l by (eapply lookup_lt_Some; eauto). exact Ha.
      * intros _. cbn [handle_heap set_handles set_handle_heap].
        apply list_lookup_middle. reflexivity.
Qed.

(** X8 (ConnectionManager.get_or_create_handle, get_handle).  The handle
    that [get_or_create_handle] returns is the one [get_handle] finds
    afterwards; asking again for the same session and provider returns
    the same handle and changes nothing, whatever endpoint, headers and
    runtime the second call is given; the handles of other sessions and
    providers, and the handle objects that existed, are not touched. *)
Theorem get_or_create_handle_idempotent (session_id : UUID)
    (provider_name rpc_endpoint rpc_endpoint' : string) (headers headers' : gmap string json)
    (runtime runtime' : option RuntimeSessionState) (w : World) :
  let first :=
    ConnectionManager.get_or_create_handle session_id provider_name rpc_endpoint headers
      runtime w in
  exists handle : nat,
    fst first = Ok handle /\
    ConnectionManager.get_handle session_id provider_name (snd first) = Some handle /\
    ConnectionManager.get_or_create_handle session_id provider_name rpc_endpoint' headers'
      runtime' (snd first) = (Ok handle, snd first) /\
    (forall (s : UUID) (p : string), (s, p) <> (session_id, provider_name) ->
       ConnectionManager.get_handle s p (snd first) = ConnectionManager.get_handle s p w) /\
    (forall (a : nat) (hd : BackendHandle),
       handle_heap w !! a = Some hd -> handle_heap (snd first) !! a = Some hd).
Proof.
  intros first.
  destruct (get_or_create_handle_run session_id provider_name rpc_endpoint rpc_endpoint'
              headers headers' runtime runtime' w)
    as (handle & Hfst & Hget & Hagain & Hother & Hheap & _).
  exists handle. repeat split; assumption.
Qed.

(** A second request for the handle of session 7 and provider [A], with
    another endpoint, returns the handle of the first. *)
Lemma get_or_create_handle_idempotent_witness :
  exists handle : nat,
    ConnectionManager.get_or_create_handle 7 "A" "http://elsewhere/mcp" ∅ None
      (snd (ConnectionManager.get_or_create_handle 7 "A" "http://a/mcp" ∅ None
              Examples.cold_world)) =
    (Ok handle,
     snd (ConnectionManager.get_or_create_handle 7 "A" "http://a/mcp" ∅ None
            Examples.cold_world)).
Proof.
  destruct (get_or_create_handle_idempotent 7 "A" "http://a/mcp" "http://elsewhere/mcp"
              ∅ ∅ None None Examples.cold_world) as (handle & _ & _ & Hagain & _).
  exists handle. exact Hagain.
Defined.

(** ** The multiplexer: prefixed tool names *)

Lemma list_ascii_of_string_append (a b : string) :
  list_ascii_of_string (a +:+ b) = list_ascii_of_string a ++ list_ascii_of_string b.
Proof.
  induction a as [|c a IH]; [reflexivity|].
  change (String c a +:+ b) with (String c (a +:+ b)). simpl. rewrite IH. reflexivity.
Qed.

Lemma length_append (a b : string) :
  String.length (a +:+ b) = (String.length a + String.length b)%nat.
Proof.
  induction a as [|c a IH]; [reflexivity|].
  change (String c a +:+ b) with (String c (a +:+ b)). simpl. rewrite IH. reflexivity.
Qed.

Lemma sanitize_safe (s : string) :
  Forall (fun c => Multiplexer.is_safe_char c = true)
         (list_ascii_of_string (Multiplexer.sanitize s)).
Proof.
  induction s as [|c s IH]; simpl; constructor; [|exact IH].
  destruct (Multiplexer.is_safe_char c) eqn:Hc; [exact Hc | reflexivity].
Qed.

Lemma sanitize_length (s : string) :
  String.length (Multiplexer.sanitize s) = String.length s.
Proof. induction s as [|c s IH]; simpl; congruence. Qed.

Lemma sanitize_id (s : string) :
  Forall (fun c => Multiplexer.is_safe_char c = true) (list_ascii_of_string s) ->
  Multiplexer.sanitize s = s.
Proof.
  induction s as [|c s IH]; intros Hall; [reflexivity|].
  simpl in Hall. apply Forall_cons_iff in Hall as [Hc Hall].
  simpl. rewrite Hc, IH by exact Hall. reflexivity.
Qed.

(** X9 (_make_prefixed_tool_name).  The prefixed name of a tool consists
    of characters of [[a-zA-Z0-9_-]] only, is as long as the provider
    name, two underscores and the tool name together, is
    [provider__name] itself when both names are made of such characters
    already, and is what prefixing the cleaned names gives again. *)
Theorem prefixed_tool_name_is_safe (provider name : string) :
  let prefixed := Multiplexer._make_prefixed_tool_name provider name in
  let safe (s : string) :=
    Forall (fun c => Multiplexer.is_safe_char c = true) (list_ascii_of_string s) in
  safe prefixed /\
  String.length prefixed = (String.length provider + 2 + String.length name)%nat /\
  (safe provider -> safe name -> prefixed = provider +:+ "__" +:+ name) /\
  Multiplexer._make_prefixed_tool_name (Multiplexer.sanitize provider)
    (Multiplexer.sanitize name) = prefixed.
Proof.
  intros prefixed safe. unfold prefixed, safe, Multiplexer._make_prefixed_tool_name.
  split; [|split; [|split]].
  - rewrite !list_ascii_of_string_append.
    apply Forall_app. split; [apply sanitize_safe|].
    apply Forall_app. split; [|apply sanitize_safe].
    repeat constructor.
  - rewrite !length_append, !sanitize_length. simpl. lia.
  - intros Hp Hn. rewrite !sanitize_id by assumption. reflexivity.
  - rewrite !(sanitize_id (Multiplexer.sanitize _)) by apply sanitize_safe. reflexivity.
Qed.

(** The tool [search.v2] of the provider [hugging face]. *)
Lemma prefixed_tool_name_is_safe_witness :
  Multiplexer._make_prefixed_tool_name "hugging face" "search.v2" = "hugging_face__search_v2" /\
  Multiplexer._make_prefixed_tool_name "A" "ping" = "A" +:+ "__" +:+ "ping".
Proof.
  split; [reflexivity|].
  apply (prefixed_tool_name_is_safe "A" "ping"); repeat constructor.
Defined.

(** ** The multiplexer: server-sent events *)

Lemma rstrip_cons (c : ascii) (s : string) :
  is_space c = false -> rstrip (String c s) = String c (rstrip s).
Proof.
  intros Hc. simpl. rewrite Hc, andb_false_r. reflexivity.
Qed.

Lemma rstrip_idem (s : string) : rstrip (rstrip s) = rstrip s.
Proof.
  induction s as [|c s IH]; [reflexivity|].
  simpl. destruct (String.eqb (rstrip s) "") eqn:He; simpl.
  - destruct (is_space c) eqn:Hc; [reflexivity|].
    simpl. rewrite IH, He, Hc. reflexivity.
  - rewrite IH, He. reflexivity.
Qed.

Lemma lstrip_rstrip (s : string) : lstrip (rstrip s) = rstrip (lstrip s).
Proof.
  induction s as [|c s IH]; [reflexivity|].
  simpl. destruct (is_space c) eqn:Hc.
  - destruct (String.eqb (rstrip s) "") eqn:He; simpl.
    + rewrite <- IH. apply String.eqb_eq in He. rewrite He. reflexivity.
    + rewrite Hc. exact IH.
  - rewrite andb_false_r. simpl. rewrite Hc, andb_false_r. reflexivity.
Qed.

Lemma strip_rstrip (s : string) : strip (rstrip s) = strip s.
Proof.
  unfold strip. rewrite lstrip_rstrip, rstrip_idem. reflexivity.
Qed.

(** A text without line boundaries is one line, or none when empty. *)
Lemma splitlines_from_one_line (cur s : string) :
  Forall (fun c => is_line_boundary c = false) (list_ascii_of_string s) ->
  splitlines_from false cur s =
    if String.eqb (cur +:+ s) "" then [] else [cur +:+ s].
Proof.
  revert cur. induction s as [|c s IH]; intros cur Hall.
  - simpl. replace (cur +:+ "") with cur; [reflexivity|].
    clear. induction cur as [|c cur IH]; [reflexivity|].
    change (String c cur +:+ "") with (String c (cur +:+ "")). congruence.
  - simpl in Hall. apply Forall_cons_iff in Hall as [Hc Hall].
    simpl. rewrite Hc. rewrite IH by exact Hall.
    replace ((cur +:+ String c "") +:+ s) with (cur +:+ String c s); [reflexivity|].
    clear. induction cur as [|c' cur IH]; [reflexivity|].
    change (String c' cur +:+ String c s) with (String c' (cur +:+ String c s)).
    change ((String c' cur +:+ String c "") +:+ s)
      with (String c' ((cur +:+ String c "") +:+ s)).
    congruence.
Qed.

Lemma splitlines_from_line (cur line rest : string) :
  Forall (fun c => is_line_boundary c = false) (list_ascii_of_string line) ->
  splitlines_from false cur (line +:+ String "010" rest) =
    (cur +:+ line) :: splitlines_from false "" rest.
Proof.
  revert cur. induction line as [|c line IH]; intros cur Hall.
  - change ("" +:+ String "010" rest) with (String "010" rest).
    replace (cur +:+ "") with cur; [reflexivity|].
    clear. induction cur as [|c cur IH]; [reflexivity|].
    change (String c cur +:+ "") with (String c (cur +:+ "")). congruence.
  - simpl in Hall. apply Forall_cons_iff in Hall as [Hc Hall].
    change (String c line +:+ String "010" rest) with (String c (line +:+ String "010" rest)).
    simpl. rewrite Hc. rewrite IH by exact Hall.
    replace ((cur +:+ String c "") +:+ line) with (cur +:+ String c line); [reflexivity|].
    clear. induction cur as [|c' cur IH]; [reflexivity|].
    change (String c' cur +:+ String c line) with (String c' (cur +:+ String c line)).
    change ((String c' cur +:+ String c "") +:+ line)
      with (String c' ((cur +:+ String c "") +:+ line)).
    congruence.
Qed.

(** The line [data: d], stripped, and what is read after its [data:]. *)
Lemma strip_data_line (d : string) :
  startswith (strip ("data: " +:+ d)) "data:" = true /\
  strip (drop_chars 5 (strip ("data: " +:+ d))) = strip d.
Proof.
  change ("data: " +:+ d)
    with (String "d" (String "a" (String "t" (String "a" (String ":" (String " " d)))))).
  unfold strip.
  change (lstrip (String "d" (String "a" (String "t" (String "a" (String ":" (String " " d)))))))
    with (String "d" (String "a" (String "t" (String "a" (String ":" (String " " d)))))).
  rewrite !rstrip_cons by reflexivity.
  remember (rstrip (String " " d)) as tail eqn:Htail.
  split; [unfold startswith; simpl; destruct tail; reflexivity|].
  change (drop_chars 5 (String "d" (String "a" (String "t" (String "a" (String ":" tail))))))
    with tail.
  fold (strip tail). fold (strip d). rewrite Htail, strip_rstrip.
  unfold strip. reflexivity.
Qed.

Lemma no_boundary_data_line (d : string) :
  Forall (fun c => is_line_boundary c = false) (list_ascii_of_string d) ->
  Forall (fun c => is_line_boundary c = false) (list_ascii_of_string ("data: " +:+ d)).
Proof.
  intros Hd. rewrite list_ascii_of_string_append. apply Forall_app. split; [|exact Hd].
  repeat constructor.
Qed.

(** X10 (parse_sse_json_body).  For a body of the documented form, a
    first line that is no [data:] line followed by the line [data: d],
    and for the line [data: d] alone, [parse_sse_json_body] returns what
    [json.loads] makes of [d] without its surrounding white space; for a
    body of one line that is no [data:] line it raises [ValueError];
    and what it raises is a [ValueError], which the callers catch, or
    else the [RecursionError] that [json.loads] raises for a data line
    nested too deeply, which the fan-outs of the multiplexer do not
    catch. *)
Theorem parse_sse_single_event (E : Env) (first d : string) :
  Forall (fun c => is_line_boundary c = false) (list_ascii_of_string first) ->
  Forall (fun c => is_line_boundary c = false) (list_ascii_of_string d) ->
  startswith (strip first) "data:" = false ->
  Multiplexer.parse_sse_json_body E (first +:+ String "010" ("data: " +:+ d)) =
    loads E (strip d) /\
  Multiplexer.parse_sse_json_body E ("data: " +:+ d) = loads E (strip d) /\
  Multiplexer.parse_sse_json_body E first =
    Raise (ValueError ("No 'data:' line found in SSE body: " +:+ repr_str E first)) /\
  (forall (body : string) (e : exn),
     Multiplexer.parse_sse_json_body E body = Raise e ->
     is_ValueError e = true \/
     exists data_line msg : string,
       json_loads E data_line = TooDeep msg /\ e = RecursionError msg).
Proof.
  intros Hfirst Hd Hnot.
  destruct (strip_data_line d) as [Hstarts Hdata].
  assert (Hone : splitlines ("data: " +:+ d) = ["data: " +:+ d]).
  { unfold splitlines. rewrite splitlines_from_one_line by (apply no_boundary_data_line; auto).
    reflexivity. }
  split; [|split; [|split]].
  - unfold Multiplexer.parse_sse_json_body, splitlines.
    rewrite splitlines_from_line by exact Hfirst.
    fold (splitlines ("data: " +:+ d)). rewrite Hone.
    change ("" +:+ first) with first.
    cbn [Multiplexer.find_data_line]. rewrite Hnot, Hstarts, Hdata. reflexivity.
  - unfold Multiplexer.parse_sse_json_body. rewrite Hone.
    cbn [Multiplexer.find_data_line]. rewrite Hstarts, Hdata. reflexivity.
  - unfold Multiplexer.parse_sse_json_body, splitlines.
    rewrite splitlines_from_one_line by exact Hfirst.
    change ("" +:+ first) with first.
    destruct (String.eqb first ""); [reflexivity|].
    cbn [Multiplexer.find_data_line]. rewrite Hnot. reflexivity.
  - intros body e. unfold Multiplexer.parse_sse_json_body, loads.
    destruct (Multiplexer.find_data_line (splitlines body)) as [data_line|].
    + destruct (json_loads E data_line) as [v|msg|msg] eqn:Hloads; intros Heq;
        [discriminate Heq | injection Heq as <-; left; reflexivity |].
      injection Heq as <-. right. exists data_line, msg. split; [exact Hloads | reflexivity].
    + intros Heq. injection Heq as <-. left. reflexivity.
Qed.

(** The event that provider [B] sends in the seed scenario. *)
Lemma parse_sse_single_event_witness :
  Multiplexer.parse_sse_json_body Examples.healthy_env
    ("event: message" +:+ String "010" ("data: " +:+ Examples.data_B)) = Ok Examples.payload_B.
Proof.
  destruct (parse_sse_single_event Examples.healthy_env "event: message" Examples.data_B)
    as (Hparse & _).
  - repeat constructor.
  - vm_compute. repeat constructor.
  - reflexivity.
  - rewrite Hparse. vm_compute. reflexivity.
Defined.

(** ** The multiplexer: what the merge loops keep *)

Section MergeFacts.

Import Multiplexer.

(** The providers that the entries of the tool map may name. *)
Variable from : string -> Prop.

(** The invariant of the merge loops. *)
Let consistent (acc : Merged) : Prop :=
  routable acc /\
  (forall (k : string) (entry : ToolMapEntry),
     tool_map acc !! k = Some entry -> from (provider entry)) /\
  (size (tool_map acc) <= length (combined_tools acc))%nat.

Lemma consistent_no_tools : consistent no_tools.
Proof.
  split; [split|split].
  - intros tool [].
  - intros k entry Hk. cbn in Hk. rewrite lookup_empty in Hk. discriminate.
  - intros k entry Hk. cbn in Hk. rewrite lookup_empty in Hk. discriminate.
  - cbn. rewrite map_size_empty. lia.
Qed.

Lemma consistent_add_server_info (entry : json) (acc : Merged) :
  consistent acc -> consistent (add_server_info entry acc).
Proof. intros H. exact H. Qed.

Lemma merge_tools_consistent (p : string) (tools : list json) (acc acc' : Merged)
    (n n' : Z) :
  from p ->
  merge_tools p tools acc n = Ok (acc', n') ->
  consistent acc -> consistent acc'.
Proof.
  intros Hp. revert acc n. induction tools as [|tool tools IH]; intros acc n Hrun Hacc.
  - cbn in Hrun. injection Hrun as <- _. exact Hacc.
  - cbn [merge_tools] in Hrun.
    destruct tool as [| | | | | |fields]; try discriminate Hrun.
    cbn [py_get res_bind] in Hrun.
    destruct (truthy (dict_get "name" fields)) eqn:Ht; cbn [negb] in Hrun.
    2: { eapply IH; eauto. }
    destruct (dict_get "name" fields) as [| | | |s| |] eqn:Hname; try discriminate Hrun.
    eapply IH; [exact Hrun|]. clear Hrun IH.
    destruct Hacc as ([Htools Hkeys] & Hfrom & Hsize).
    split; [split|split]; cbn [combined_tools tool_map].
    + intros tool Hin. apply in_app_or in Hin as [Hin|[<-|[]]].
      * destruct (Htools tool Hin) as (f & k & -> & Hk & Hsome).
        exists f, k. split; [reflexivity|]. split; [exact Hk|].
        apply lookup_insert_is_Some.
        destruct (decide (_make_prefixed_tool_name p s = k));
          [left; assumption | right; split; assumption].
      * eexists _, _. split; [reflexivity|]. split; [apply dict_get_set_eq|].
        rewrite lookup_insert_eq. eauto.
    + intros k entry Hk.
      destruct (decide (_make_prefixed_tool_name p s = k)) as [<-|Hne].
      * rewrite lookup_insert_eq in Hk. injection Hk as <-. reflexivity.
      * rewrite lookup_insert_ne in Hk by exact Hne. eauto.
    + intros k entry Hk.
      destruct (decide (_make_prefixed_tool_name p s = k)) as [<-|Hne].
      * rewrite lookup_insert_eq in Hk. injection Hk as <-. exact Hp.
      * rewrite lookup_insert_ne in Hk by exact Hne. eauto.
    + rewrite length_app. cbn [length].
      destruct (tool_map acc !! _make_prefixed_tool_name p s) as [old|] eqn:Hold.
      * rewrite map_size_insert_Some by (rewrite Hold; eauto). lia.
      * rewrite map_size_insert_None by exact Hold. lia.
Qed.

Lemma merge_payload_consistent (p : string) (payload : json) (acc acc' : Merged) :
  from p ->
  merge_payload p payload acc = Ok acc' ->
  consistent acc -> consistent acc'.
Proof.
  intros Hp Hrun Hacc. unfold merge_payload in Hrun.
  destruct (tools_of payload) as [tools|e]; [|discriminate Hrun].
  cbn [res_bind] in Hrun.
  destruct (merge_tools p tools acc 0) as [[acc1 n1]|e] eqn:Hm; [|discriminate Hrun].
  cbn [res_bind] in Hrun. injection Hrun as <-.
  apply consistent_add_server_info. eapply merge_tools_consistent; eauto.
Qed.

Lemma list_tools_merge_consistent (results : list (string * json * option exn))
    (acc acc' : Merged) :
  (forall r, In r results -> from r.1.1) ->
  list_tools_merge results acc = Ok acc' ->
  consistent acc -> consistent acc'.
Proof.
  revert acc. induction results as [|[[p payload] error] results IH]; intros acc Hfrom Hrun Hacc.
  - cbn in Hrun. injection Hrun as <-. exact Hacc.
  - cbn [list_tools_merge] in Hrun.
    assert (Hrest : forall r, In r results -> from r.1.1) by (intros r Hr; apply Hfrom; right; auto).
    destruct (is_Some_b error || negb (truthy payload)).
    + eapply IH; [exact Hrest | exact Hrun |]. apply consistent_add_server_info. exact Hacc.
    + destruct (merge_payload p payload acc) as [acc1|e] eqn:Hm; [|discriminate Hrun].
      cbn [res_bind] in Hrun. eapply IH; [exact Hrest | exact Hrun |].
      eapply merge_payload_consistent; eauto.
      apply (Hfrom (p, payload, error)). left. reflexivity.
Qed.

Lemma initialize_merge_consistent (session_id : UUID) (connections : list (string * nat))
    (results : list (string * json * option exn * option Response))
    (acc acc' : Merged) (base base' : pydict) (w w' : World) :
  (forall r, In r results -> from r.1.1.1) ->
  initialize_merge session_id connections results acc base w = (Ok (acc', base'), w') ->
  consistent acc -> consistent acc'.
Proof.
  revert acc base w.
  induction results as [|[[[p payload] error] resp] results IH];
    intros acc base w Hfrom Hrun Hacc.
  - cbn in Hrun. injection Hrun as <- _ _. exact Hacc.
  - cbn [initialize_merge] in Hrun.
    assert (Hrest : forall r, In r results -> from r.1.1.1)
      by (intros r Hr; apply Hfrom; right; auto).
    destruct (is_Some_b error || negb (truthy payload)).
    + eapply IH; [exact Hrest | exact Hrun |]. apply consistent_add_server_info. exact Hacc.
    + unfold bind at 1 in Hrun.
      destruct (persist_headers session_id connections p resp w) as [[[]|e] w1];
        [|discriminate Hrun].
      unfold bind at 1, lift at 1 in Hrun.
      destruct (pick_base_result base payload) as [base1|e]; [|discriminate Hrun].
      unfold bind at 1, lift at 1 in Hrun.
      destruct (merge_payload p payload acc) as [acc1|e] eqn:Hm; [|discriminate Hrun].
      eapply IH; [exact Hrest | exact Hrun |].
      eapply merge_payload_consistent; eauto.
      apply (Hfrom (p, payload, error, resp)). left. reflexivity.
Qed.

End MergeFacts.

(** X11 (merge loop of tools/list, routing).  Whatever the providers
    answered, when the merge loop completes, every tool of the merged
    list is an object whose [name] is a key of the tool map; every key of
    the tool map is the prefixed name built from the provider and the
    backend tool name of its entry; the entry names a provider that took
    part in the fan-out; and the tool map has at most as many keys as the
    list has tools. *)
Theorem merged_tools_are_routable (results : list (string * json * option exn))
    (acc : Multiplexer.Merged) :
  Multiplexer.list_tools_merge results Multiplexer.no_tools = Ok acc ->
  Multiplexer.routable acc /\
  (forall (k : string) (entry : ToolMapEntry),
     Multiplexer.tool_map acc !! k = Some entry ->
     In (provider entry) (map (fun r : string * json * option exn => r.1.1) results)) /\
  (size (Multiplexer.tool_map acc) <= length (Multiplexer.combined_tools acc))%nat.
Proof.
  intros Hrun.
  apply (list_tools_merge_consistent
           (fun p => In p (map (fun r : string * json * option exn => r.1.1) results))
           results Multiplexer.no_tools acc).
  - intros r Hr. apply in_map_iff. exists r. auto.
  - exact Hrun.
  - apply (consistent_no_tools
             (fun p => In p (map (fun r : string * json * option exn => r.1.1) results))).
Qed.

(** The merge of the two tool lists of the seed scenario. *)
Lemma merged_tools_are_routable_witness :
  Multiplexer.list_tools_merge
    [("A", Examples.payload_A, None); ("B", Examples.payload_B, None)] Multiplexer.no_tools =
    Ok {| Multiplexer.combined_tools := [Examples.tool "A__ping"; Examples.tool "B__echo"];
          Multiplexer.tool_map := Examples.merged_tool_map;
          Multiplexer.server_info := [Examples.ok_info "A" 1; Examples.ok_info "B" 1] |} /\
  Multiplexer.routable
    {| Multiplexer.combined_tools := [Examples.tool "A__ping"; Examples.tool "B__echo"];
       Multiplexer.tool_map := Examples.merged_tool_map;
       Multiplexer.server_info := [Examples.ok_info "A" 1; Examples.ok_info "B" 1] |}.
Proof.
  assert (Hrun : Multiplexer.list_tools_merge
                   [("A", Examples.payload_A, None); ("B", Examples.payload_B, None)]
                   Multiplexer.no_tools =
                 Ok {| Multiplexer.combined_tools :=
                         [Examples.tool "A__ping"; Examples.tool "B__echo"];
                       Multiplexer.tool_map := Examples.merged_tool_map;
                       Multiplexer.server_info :=
                         [Examples.ok_info "A" 1; Examples.ok_info "B" 1] |})
    by (vm_compute; reflexivity).
  split; [exact Hrun|].
  apply (merged_tools_are_routable _ _ Hrun).
Defined.

Section CountFacts.

Import Multiplexer.

Lemma sum_tool_counts_app (l1 l2 : list json) :
  sum_tool_counts (l1 ++ l2) = sum_tool_counts l1 + sum_tool_counts l2.
Proof.
  unfold sum_tool_counts. induction l1 as [|x l1 IH]; simpl; [reflexivity|].
  rewrite IH. lia.
Qed.

Lemma merge_tools_count (p : string) (tools : list json) (acc acc' : Merged) (n n' : Z) :
  merge_tools p tools acc n = Ok (acc', n') ->
  Z.of_nat (length (combined_tools acc')) - n' = Z.of_nat (length (combined_tools acc)) - n /\
  n <= n'.
Proof.
  revert acc n. induction tools as [|tool tools IH]; intros acc n Hrun.
  - cbn in Hrun. injection Hrun as <- <-. lia.
  - cbn [merge_tools] in Hrun.
    destruct tool as [| | | | | |fields]; try discriminate Hrun.
    cbn [py_get res_bind] in Hrun.
    destruct (truthy (dict_get "name" fields)); cbn [negb] in Hrun.
    2: { eapply IH; eauto. }
    destruct (dict_get "name" fields) as [| | | |s| |]; try discriminate Hrun.
    apply IH in Hrun. cbn [combined_tools] in Hrun.
    rewrite length_app in Hrun. cbn [length] in Hrun. lia.
Qed.

Lemma merge_payload_count (p : string) (payload : json) (acc acc' : Merged) :
  merge_payload p payload acc = Ok acc' ->
  exists n : Z,
    0 <= n /\
    server_info acc' = server_info acc ++ [ok_entry p n] /\
    Z.of_nat (length (combined_tools acc')) = Z.of_nat (length (combined_tools acc)) + n.
Proof.
  intros Hrun. unfold merge_payload in Hrun.
  destruct (tools_of payload) as [tools|e]; [|discriminate Hrun].
  cbn [res_bind] in Hrun.
  destruct (merge_tools p tools acc 0) as [[acc1 n1]|e] eqn:Hm; [|discriminate Hrun].
  cbn [res_bind] in Hrun. injection Hrun as <-.
  destruct (merge_tools_count _ _ _ _ _ _ Hm) as [Hlen Hn].
  exists n1. split; [lia|]. split.
  - cbn [server_info add_server_info].
    rewrite (merge_tools_server_info _ _ _ _ _ _ Hm). reflexivity.
  - cbn [combined_tools add_server_info]. lia.
Qed.

Lemma list_tools_merge_count (results : list (string * json * option exn))
    (acc acc' : Merged) :
  list_tools_merge results acc = Ok acc' ->
  length (server_info acc') = (length (server_info acc) + length results)%nat /\
  Z.of_nat (length (combined_tools acc')) - sum_tool_counts (server_info acc') =
    Z.of_nat (length (combined_tools acc)) - sum_tool_counts (server_info acc) /\
  (Forall (fun entry => 0 <= entry_tool_count entry) (server_info acc) ->
   Forall (fun entry => 0 <= entry_tool_count entry) (server_info acc')).
Proof.
  revert acc. induction results as [|[[p payload] error] results IH]; intros acc Hrun.
  - cbn in Hrun. injection Hrun as <-. split; [cbn; lia|]. split; [reflexivity | auto].
  - cbn [list_tools_merge] in Hrun.
    destruct (is_Some_b error || negb (truthy payload)).
    + destruct (IH _ Hrun) as (Hlen & Hsum & Hpos).
      cbn [server_info combined_tools add_server_info] in Hlen, Hsum, Hpos.
      rewrite length_app in Hlen. rewrite sum_tool_counts_app in Hsum.
      cbn [length] in *. split; [lia|]. split.
      * rewrite Hsum. unfold sum_tool_counts at 2. cbn. lia.
      * intros Hacc. apply Hpos. apply Forall_app. split; [exact Hacc|].
        constructor; [cbn; lia | constructor].
    + destruct (merge_payload p payload acc) as [acc1|e] eqn:Hm; [|discriminate Hrun].
      cbn [res_bind] in Hrun.
      destruct (merge_payload_count _ _ _ _ Hm) as (n & Hn & Hinfo & Hlen1).
      destruct (IH _ Hrun) as (Hlen & Hsum & Hpos).
      rewrite Hinfo in Hlen, Hsum, Hpos.
      rewrite length_app in Hlen. rewrite sum_tool_counts_app in Hsum.
      cbn [length] in *. split; [lia|]. split.
      * rewrite Hsum. unfold sum_tool_counts at 2. cbn. lia.
      * intros Hacc. apply Hpos. apply Forall_app. split; [exact Hacc|].
        constructor; [cbn; lia | constructor].
Qed.

End CountFacts.

(** X12 (merge loop of tools/list, accounting).  When the merge loop
    completes, [server_info] has one entry per provider of the fan-out,
    and the [tool_count]s of its entries, none of them negative, add up
    to the number of tools in the merged list. *)
Theorem merge_counts_every_tool (results : list (string * json * option exn))
    (acc : Multiplexer.Merged) :
  Multiplexer.list_tools_merge results Multiplexer.no_tools = Ok acc ->
  length (Multiplexer.server_info acc) = length results /\
  Multiplexer.sum_tool_counts (Multiplexer.server_info acc) =
    Z.of_nat (length (Multiplexer.combined_tools acc)) /\
  Forall (fun entry => 0 <= Multiplexer.entry_tool_count entry) (Multiplexer.server_info acc).
Proof.
  intros Hrun.
  destruct (list_tools_merge_count results Multiplexer.no_tools acc Hrun)
    as (Hlen & Hsum & Hpos).
  split; [exact Hlen|]. split.
  - cbn in Hsum. lia.
  - apply Hpos. constructor.
Qed.

(** The accounts of the seed scenario when provider [B] has failed. *)
Lemma merge_counts_every_tool_witness :
  Multiplexer.sum_tool_counts
    [Examples.ok_info "A" 1; Examples.error_info "B" "connection refused"] = 1 /\
  exists acc : Multiplexer.Merged,
    Multiplexer.list_tools_merge
      [("A", Examples.payload_A, None);
       ("B", JNull, Some (RequestError "connection refused"))] Multiplexer.no_tools = Ok acc /\
    Multiplexer.server_info acc =
      [Examples.ok_info "A" 1; Examples.error_info "B" "connection refused"] /\
    Multiplexer.sum_tool_counts (Multiplexer.server_info acc) =
      Z.of_nat (length (Multiplexer.combined_tools acc)).
Proof.
  split; [reflexivity|].
  destruct (Multiplexer.list_tools_merge
              [("A", Examples.payload_A, None);
               ("B", JNull, Some (RequestError "connection refused"))] Multiplexer.no_tools)
    as [acc|e] eqn:Hrun; [|vm_compute in Hrun; discriminate Hrun].
  exists acc. split; [reflexivity|].
  destruct (merge_counts_every_tool _ _ Hrun) as (_ & Hsum & _).
  split; [|exact Hsum].
  vm_compute in Hrun. injection Hrun as <-. reflexivity.
Defined.

(** ** The multiplexer: initialize, end to end *)

Section InitializeFacts.

Import Multiplexer.

Variable E : Env.

Lemma initialize_fan_out_results (connections : list (string * nat))
    (request_body : pydict) (providers : list string) (w w' : World)
    (results : list (string * json * option exn * option Response)) :
  gather (map (initialize_call_provider E connections request_body) providers) w =
    (Ok results, w') ->
  map (fun r : string * json * option exn * option Response => r.1.1.1) results = providers.
Proof.
  revert w results. induction providers as [|p providers IH]; intros w results Hrun.
  - cbn in Hrun. injection Hrun as <- _. reflexivity.
  - cbn [map gather] in Hrun. unfold bind in Hrun.
    destruct (initialize_call_provider E connections request_body p w) as [[x|e] w1] eqn:Hp;
      [|discriminate Hrun].
    destruct (gather _ w1) as [[xs|e] w2] eqn:Hg; [|discriminate Hrun].
    injection Hrun as <- <-. cbn [map]. f_equal; [|eapply IH; eauto].
    unfold initialize_call_provider in Hp.
    destruct (assoc_lookup p connections) as [handle|]; [|discriminate Hp].
    unfold bind, attempt in Hp.
    destruct (ConnectionManager.post E handle request_body (Some 60%Q) w) as [[resp|e] w0].
    + destruct (let! data := decode_body E resp in
                let! _ := raise_for_status E resp in Ok data) as [data|e].
      * injection Hp as <- _. reflexivity.
      * destruct (caught e); [injection Hp as <- _; reflexivity | discriminate Hp].
    + destruct (caught e); [injection Hp as <- _; reflexivity | discriminate Hp].
Qed.

(** The runtime objects survive the [persist_response_headers] block with
    their connections. *)
Lemma persist_headers_runtime (session_id : UUID) (connections0 : list (string * nat))
    (p : string) (resp : option Response) (w : World) (s : UUID)
    (rt : RuntimeSessionState) :
  _runtime_sessions w !! s = Some rt ->
  exists rt' : RuntimeSessionState,
    _runtime_sessions (snd (persist_headers session_id connections0 p resp w)) !! s = Some rt' /\
    connections rt' = connections rt.
Proof.
  intros Hrt. unfold persist_headers, bind, RegistryLoader.get_provider_config.
  destruct (_providers w !! p) as [cfg|]; [|exists rt; auto].
  destruct resp as [resp|]; [|exists rt; auto].
  destruct (map lower (persist_response_headers cfg)) as [|h wanted]; [exists rt; auto|].
  destruct (bool_decide _); [exists rt; auto|].
  unfold SessionManager.update_runtime, modify.
  assert (Hupd : exists rt' : RuntimeSessionState,
            match _runtime_sessions w !! session_id with
            | Some rt0 =>
                <[session_id :=
                    SessionManager.with_provider_session_headers
                      (<[p := list_to_map
                                (List.filter
                                   (fun kv : string * string =>
                                      existsb (String.eqb (lower kv.1)) (h :: wanted))
                                   (headers_items (resp_headers resp)))
                              ∪ default ∅ (provider_session_headers rt0 !! p)]>
                         (provider_session_headers rt0)) rt0]> (_runtime_sessions w)
            | None => _runtime_sessions w
            end !! s = Some rt' /\ connections rt' = connections rt).
  { destruct (_runtime_sessions w !! session_id) as [rt0|] eqn:H0; [|exists rt; auto].
    destruct (decide (session_id = s)) as [->|Hne].
    - rewrite lookup_insert_eq. eexists. split; [reflexivity|].
      cbn. congruence.
    - rewrite lookup_insert_ne by exact Hne. exists rt. auto. }
  destruct Hupd as (rt' & Hrt' & Hconn).
  exists rt'. split; [|exact Hconn].
  destruct (assoc_lookup p connections0); cbn; exact Hrt'.
Qed.

Lemma initialize_merge_runtime (session_id : UUID) (connections0 : list (string * nat))
    (results : list (string * json * option exn * option Response))
    (acc : Merged) (base : pydict) (w : World) (s : UUID) (rt : RuntimeSessionState) :
  _runtime_sessions w !! s = Some rt ->
  exists rt' : RuntimeSessionState,
    _runtime_sessions (snd (initialize_merge session_id connections0 results acc base w)) !! s
      = Some rt' /\
    connections rt' = connections rt.
Proof.
  revert acc base w rt.
  induction results as [|[[[p payload] error] resp] results IH]; intros acc base w rt Hrt.
  - exists rt. auto.
  - cbn [initialize_merge].
    destruct (is_Some_b error || negb (truthy payload)); [apply IH; exact Hrt|].
    destruct (persist_headers_runtime session_id connections0 p resp w s rt Hrt)
      as (rt1 & Hrt1 & Hc1).
    unfold bind at 1.
    destruct (persist_headers session_id connections0 p resp w) as [[[]|e] w1];
      cbn [snd] in Hrt1; [|exists rt1; auto].
    unfold bind at 1, lift at 1.
    destruct (pick_base_result base payload) as [base1|e]; [|exists rt1; auto].
    unfold bind at 1, lift at 1.
    destruct (merge_payload p payload acc) as [acc1|e]; [|exists rt1; auto].
    destruct (IH acc1 base1 w1 rt1 Hrt1) as (rt' & Hrt' & Hc').
    exists rt'. split; [exact Hrt' | congruence].
Qed.

End InitializeFacts.

(** X13 (initialize, advertised tools can be called).  When [initialize]
    returns for a session with a runtime, the [tools] member of its result
    is a list of objects, and the [name] of each of them is a key of the
    tool map that the session holds afterwards; the entry under that key
    names the provider and the backend tool whose prefixed name the key
    is, and the session has a connection for that provider. *)
Theorem initialize_advertises_routable_tools (E : Env) (session_id : UUID)
    (initialize_request : pydict) (w w' : World) (runtime : RuntimeSessionState)
    (result : pydict) :
  _runtime_sessions w !! session_id = Some runtime ->
  Multiplexer.initialize E session_id initialize_request w = (Ok result, w') ->
  exists tools : list json,
    dict_get "tools" result = JArr tools /\
    forall tool : json, In tool tools ->
      exists (fields : pydict) (prefixed_name : string) (entry : ToolMapEntry)
             (runtime' : RuntimeSessionState) (handle : nat),
        tool = JObj fields /\
        dict_get "name" fields = JStr prefixed_name /\
        SessionManager.get_tool_mapping session_id w' !! prefixed_name = Some entry /\
        prefixed_name =
          Multiplexer._make_prefixed_tool_name (provider entry) (backend_tool_name entry) /\
        _runtime_sessions w' !! session_id = Some runtime' /\
        assoc_lookup (provider entry) (connections runtime') = Some handle.
Proof.
  intros Hrt Hrun. unfold Multiplexer.initialize in Hrun.
  rewrite (bind_ok _ _ _ _ _ (get_runtime_state_live E session_id w runtime Hrt)) in Hrun.
  cbv zeta in Hrun.
  destruct (gather (map (Multiplexer.initialize_call_provider E (connections runtime)
                           initialize_request) (assoc_keys (connections runtime))) w)
    as [[results|e] w1] eqn:Hg;
    [rewrite (bind_ok _ _ _ _ _ Hg) in Hrun
    | rewrite (bind_raise _ _ _ _ _ Hg) in Hrun; discriminate Hrun].
  destruct (Multiplexer.initialize_merge session_id (connections runtime) results
              Multiplexer.no_tools [] w1) as [[[acc base]|e] w2] eqn:Hm;
    [rewrite (bind_ok _ _ _ _ _ Hm) in Hrun
    | rewrite (bind_raise _ _ _ _ _ Hm) in Hrun; discriminate Hrun].
  (* the runtime of the session, after the fan-out and after the merge *)
  assert (Hrt1 : _runtime_sessions w1 !! session_id = Some runtime).
  { pose proof (gather_frame
                  (map (Multiplexer.initialize_call_provider E (connections runtime)
                          initialize_request) (assoc_keys (connections runtime))) w) as Hf.
    rewrite Hg in Hf. cbn [snd] in Hf.
    rewrite <- Hrt. apply (f_equal (fun x => _runtime_sessions x !! session_id)) in Hf.
    - exact Hf.
    - apply List.Forall_map. apply List.Forall_forall.
      intros p _. apply initialize_call_provider_frame. }
  destruct (initialize_merge_runtime session_id (connections runtime) results
              Multiplexer.no_tools [] w1 session_id runtime Hrt1) as (rt2 & Hrt2 & Hconn).
  rewrite Hm in Hrt2. cbn [snd] in Hrt2.
  (* what the merge loop built *)
  destruct (initialize_merge_consistent
              (fun p => In p (assoc_keys (connections runtime)))
              session_id (connections runtime) results Multiplexer.no_tools acc [] base w1 w2)
    as ([Htools Hkeys] & Hfrom & _).
  { intros r Hr.
    rewrite <- (initialize_fan_out_results E _ _ _ _ _ _ Hg).
    apply in_map_iff. exists r. auto. }
  { exact Hm. }
  { apply (consistent_no_tools (fun p => In p (assoc_keys (connections runtime)))). }
  unfold bind, SessionManager.update_tool_map, SessionManager.update_runtime, modify, ret
    in Hrun.
  injection Hrun as <- <-.
  exists (Multiplexer.combined_tools acc). split.
  - unfold dict_get, dict_set.
    rewrite assoc_lookup_set_ne by discriminate.
    rewrite assoc_lookup_set_eq. reflexivity.
  - intros tool Hin.
    destruct (Htools tool Hin) as (fields & k & -> & Hname & [entry Hentry]).
    destruct (assoc_lookup_keys (connections runtime) (provider entry)
                (Hfrom k entry Hentry)) as (handle & Hhandle).
    exists fields, k, entry, (SessionManager.with_tool_name_map (Multiplexer.tool_map acc) rt2),
      handle.
    split; [reflexivity|]. split; [exact Hname|].
    unfold SessionManager.get_tool_mapping.
    cbn [_runtime_sessions set_runtime_sessions]. rewrite Hrt2, lookup_insert_eq.
    split; [exact Hentry|]. split; [apply Hkeys; exact Hentry|].
    split; [reflexivity|].
    cbn [connections SessionManager.with_tool_name_map]. rewrite Hconn. exact Hhandle.
Qed.

(** [initialize] on session 7 in the seed scenario: the tool [A__ping]
    is advertised and leads to provider [A]. *)
Lemma initialize_advertises_routable_tools_witness :
  _runtime_sessions Examples.live_world !! 7%N = Some Examples.runtime_7 /\
  exists (result : pydict) (w' : World) (tools : list json),
    Multiplexer.initialize Examples.healthy_env 7 Examples.initialize_body
      Examples.live_world = (Ok result, w') /\
    dict_get "tools" result = JArr tools /\
    tools = [Examples.tool "A__ping"; Examples.tool "B__echo"] /\
    SessionManager.get_tool_mapping 7 w' !! "A__ping" = Some Examples.entry_A_ping.
Proof.
  split; [reflexivity|].
  destruct (Multiplexer.initialize Examples.healthy_env 7 Examples.initialize_body
              Examples.live_world) as [[result|e] w'] eqn:Hrun;
    [|vm_compute in Hrun; discriminate Hrun].
  destruct (initialize_advertises_routable_tools Examples.healthy_env 7
              Examples.initialize_body Examples.live_world w' Examples.runtime_7 result
              eq_refl Hrun) as (tools & Htools & _).
  exists result, w', tools. split; [reflexivity|]. split; [exact Htools|].
  vm_compute in Hrun. injection Hrun as <- <-.
  split; [|vm_compute; reflexivity].
  vm_compute in Htools. injection Htools as <-. reflexivity.
Defined.

(** ** The multiplexer: response headers kept for the session *)

Lemma assoc_lookup_None {A : Type} (k : string) (d : list (string * A)) :
  ~ In k (map fst d) -> assoc_lookup k d = None.
Proof.
  induction d as [|[k' v'] d IH]; [reflexivity|].
  intros Hnot. simpl. destruct (String.eqb k k') eqn:Hk.
  - apply String.eqb_eq in Hk. exfalso. apply Hnot. left. simpl. congruence.
  - apply IH. intros Hin. apply Hnot. right. exact Hin.
Qed.

Lemma assoc_set_new {A : Type} (k : string) (v : A) (d : list (string * A)) :
  ~ In k (map fst d) -> assoc_set k v d = d ++ [(k, v)].
Proof.
  induction d as [|[k' v'] d IH]; [reflexivity|].
  intros Hnot. simpl. destruct (String.eqb k k') eqn:Hk.
  - apply String.eqb_eq in Hk. exfalso. apply Hnot. left. simpl. congruence.
  - rewrite IH; [reflexivity|]. intros Hin. apply Hnot. right. exact Hin.
Qed.

(** The items of response headers whose names differ beyond letter case:
    the same headers, under their lowercased names. *)
Lemma headers_items_distinct (hs : list (string * string)) :
  List.NoDup (map (fun kv : string * string => lower kv.1) hs) ->
  Multiplexer.headers_items hs = map (fun kv : string * string => (lower kv.1, kv.2)) hs.
Proof.
  unfold Multiplexer.headers_items.
  assert (Hgen : forall d : list (string * string),
            List.NoDup (map fst d ++ map (fun kv : string * string => lower kv.1) hs) ->
            fold_left
              (fun d kv =>
                 let key := lower (fst kv) in
                 match assoc_lookup key d with
                 | Some old => assoc_set key (old +:+ ", " +:+ snd kv) d
                 | None => assoc_set key (snd kv) d
                 end) hs d =
            d ++ map (fun kv : string * string => (lower kv.1, kv.2)) hs).
  { induction hs as [|[k v] hs IH]; intros d Hnd.
    - cbn. rewrite app_nil_r. reflexivity.
    - cbn [fold_left map fst snd].
      assert (Hfresh : ~ In (lower k) (map fst d)).
      { intros Hin. apply List.NoDup_remove_2 in Hnd. apply Hnd.
        apply in_or_app. left. exact Hin. }
      rewrite (assoc_lookup_None _ _ Hfresh), (assoc_set_new _ _ _ Hfresh).
      rewrite IH.
      + rewrite <- app_assoc. reflexivity.
      + rewrite map_app. cbn [map fst]. rewrite <- app_assoc. exact Hnd. }
  intros Hnd. apply (Hgen []). exact Hnd.
Qed.

Lemma NoDup_filter_keys (P : string * string -> bool) (l : list (string * string)) :
  List.NoDup (map fst l) -> List.NoDup (map fst (List.filter P l)).
Proof.
  induction l as [|kv l IH]; intros Hnd; [constructor|].
  cbn [map] in Hnd. apply List.NoDup_cons_iff in Hnd as [Hnot Hnd].
  cbn [List.filter]. destruct (P kv); [|apply IH; exact Hnd].
  cbn [map]. apply List.NoDup_cons_iff. split; [|apply IH; exact Hnd].
  intros Hin. apply Hnot. apply in_map_iff in Hin as (x & Hx & Hin).
  apply List.filter_In in Hin as [Hin _]. apply in_map_iff. exists x. auto.
Qed.

Lemma lower_idem (s : string) : lower (lower s) = lower s.
Proof.
  induction s as [|c s IH]; [reflexivity|].
  cbn [lower]. rewrite IH. f_equal.
  destruct c as [[] [] [] [] [] [] [] []]; reflexivity.
Qed.

(** The dict of headers that [initialize] keeps from a response. *)
Lemma session_headers_lookup (wanted : list string) (hs : list (string * string))
    (name value : string) :
  In (name, value) hs ->
  List.NoDup (map (fun kv : string * string => lower kv.1) hs) ->
  In (lower name) wanted ->
  (list_to_map
     (List.filter (fun kv : string * string => existsb (String.eqb (lower kv.1)) wanted)
                  (Multiplexer.headers_items hs)) : gmap string string) !! lower name
    = Some value.
Proof.
  intros Hin Hnd Hwanted. rewrite (headers_items_distinct hs Hnd).
  apply elem_of_list_to_map_1.
  - apply NoDup_ListNoDup.
    apply (NoDup_filter_keys _ (map (fun kv : string * string => (lower kv.1, kv.2)) hs)).
    rewrite map_map. exact Hnd.
  - apply list_elem_of_In. apply List.filter_In. split.
    + apply in_map_iff. exists (name, value). auto.
    + cbn [fst]. apply existsb_exists. exists (lower name). split; [exact Hwanted|].
      rewrite lower_idem. apply String.eqb_refl.
Qed.

(** X14 (initialize, persist_response_headers).  When a provider lists a
    header name in [persist_response_headers] and its response carries
    that header, in any letter case, the block that [initialize] runs for
    the response stores the value under the lowercased name in the
    session's [provider_session_headers] and in the default headers of
    the provider's handle, so that the request sent through that handle
    next carries it.  Response header names differ beyond letter
    case. *)
Theorem persisted_header_is_sent (E : Env) (session_id : UUID)
    (connections0 : list (string * nat)) (p : string) (resp : Response)
    (cfg : ProviderConfig) (handle : nat) (hd : BackendHandle) (w : World)
    (name value : string) :
  _providers w !! p = Some cfg ->
  assoc_lookup p connections0 = Some handle ->
  handle_heap w !! handle = Some hd ->
  In (name, value) (resp_headers resp) ->
  List.NoDup (map (fun kv : string * string => lower kv.1) (resp_headers resp)) ->
  In (lower name) (map lower (persist_response_headers cfg)) ->
  let run := Multiplexer.persist_headers session_id connections0 p (Some resp) w in
  fst run = Ok tt /\
  (exists hd' : BackendHandle,
     handle_heap (snd run) !! handle = Some hd' /\
     client_headers hd' !! lower name = Some (JStr value) /\
     base_url hd' = base_url hd /\ closed hd' = closed hd) /\
  (forall (body : pydict) (timeout : option Q),
     exists req : Request,
       http_log (snd (ConnectionManager.do_request E handle body timeout (snd run))) =
         http_log w ++ [req] /\
       req_json req = body /\
       req_headers req !! lower name = Some (JStr value)) /\
  (forall rt : RuntimeSessionState, _runtime_sessions w !! session_id = Some rt ->
     exists rt' : RuntimeSessionState,
       _runtime_sessions (snd run) !! session_id = Some rt' /\
       default ∅ (provider_session_headers rt' !! p) !! lower name = Some value).
Proof.
  intros Hcfg Hhandle Hhd Hin Hnd Hwanted run.
  assert (Hlt : (handle < length (handle_heap w))%nat) by (eapply lookup_lt_Some; eauto).
  unfold run, Multiplexer.persist_headers.
  rewrite (bind_ok _ _ w w cfg)
    by (unfold RegistryLoader.get_provider_config; rewrite Hcfg; reflexivity).
  cbv zeta.
  destruct (map lower (persist_response_headers cfg)) as [|h wanted] eqn:Hw;
    [destruct Hwanted|].
  pose proof (session_headers_lookup (h :: wanted) (resp_headers resp) name value
                Hin Hnd Hwanted) as Hlook.
  set (session_headers :=
         (list_to_map
            (List.filter
               (fun kv : string * string => existsb (String.eqb (lower kv.1)) (h :: wanted))
               (Multiplexer.headers_items (resp_headers resp))) : gmap string string)) in *.
  assert (Hne : session_headers <> ∅).
  { intros Hempty. rewrite Hempty, lookup_empty in Hlook. discriminate. }
  rewrite (bool_decide_eq_false_2 _ Hne).
  unfold bind, SessionManager.update_runtime, ConnectionManager.update_headers, modify.
  rewrite Hhandle.
  cbn [fst snd handle_heap set_handle_heap set_runtime_sessions _runtime_sessions http_log].
  rewrite Hhd.
  split; [reflexivity|]. split; [|split].
  - eexists. split; [apply list_lookup_insert_eq; exact Hlt|].
    cbn [client_headers base_url closed]. split; [|split; reflexivity].
    apply lookup_union_Some_l. rewrite lookup_fmap, Hlook. reflexivity.
  - intros body timeout. unfold ConnectionManager.do_request.
    cbn [handle_heap set_handle_heap set_runtime_sessions].
    rewrite Hhd, list_lookup_insert_eq by exact Hlt.
    eexists. split; [reflexivity|]. split; [reflexivity|].
    cbn [req_headers client_headers].
    apply lookup_union_Some_l. rewrite lookup_fmap, Hlook. reflexivity.
  - intros rt Hrt. rewrite Hrt, lookup_insert_eq.
    eexists. split; [reflexivity|].
    cbn [provider_session_headers SessionManager.with_provider_session_headers].
    rewrite lookup_insert_eq. cbn [default from_option id].
    apply lookup_union_Some_l. exact Hlook.
Qed.

(** Provider [A] asks for [Mcp-Session-Id] to be kept; its reply names
    the header [MCP-Session-Id]. *)
Lemma persisted_header_is_sent_witness :
  exists hd' : BackendHandle,
    handle_heap
      (snd (Multiplexer.persist_headers 7 (connections Examples.runtime_7) "A"
              (Some Examples.response_with_session_id) Examples.live_world)) !! 0%nat
      = Some hd' /\
    client_headers hd' !! "mcp-session-id" = Some (JStr "s-42").
Proof.
  destruct (persisted_header_is_sent Examples.healthy_env 7 (connections Examples.runtime_7)
              "A" Examples.response_with_session_id Examples.provider_A 0 Examples.handle_A
              Examples.live_world "MCP-Session-Id" "s-42")
    as (_ & (hd' & Hhd & Hheader & _) & _).
  - reflexivity.
  - reflexivity.
  - reflexivity.
  - right. left. reflexivity.
  - constructor; [intros [H|[]]; discriminate H|].
    constructor; [intros []|constructor].
  - left. reflexivity.
  - exists hd'. split; [exact Hhd | exact Hheader].
Defined.

(** ** The protocol handler: tools/call *)

(** X15 (tools/call, requests that are not forwarded).  A [tools/call]
    whose [params] has no [name], or a falsy one, is answered with the
    error -32602; so is one whose [name] is a string that the tool map of
    the session does not hold, which covers a session without a runtime;
    one whose tool leads to a provider for which the session has no
    connection is answered with -32001.  Each of these responses echoes
    the request's [id] and [jsonrpc], and the process is left as it was:
    no identifier is drawn, no request sent.  A [params] that is truthy
    and no object makes the handler raise [AttributeError]. *)
Theorem tools_call_not_forwarded (E : Env) (session_id : UUID) (body : pydict)
    (w : World) :
  let params := py_or (dict_get "params" body) (JObj []) in
  let answers (code : Z) :=
    exists response : pydict,
      ProtocolHandler._handle_tools_call E session_id body w = (Ok response, w) /\
      ProtocolHandler.error_code response = Some code /\
      dict_get "jsonrpc" response = dict_get_default "jsonrpc" (JStr "2.0") body /\
      dict_get "id" response = dict_get "id" body in
  (forall name : json,
     py_get params "name" = Ok name -> truthy name = false -> answers (-32602)) /\
  (forall tool_name : string,
     py_get params "name" = Ok (JStr tool_name) -> tool_name <> "" ->
     SessionManager.get_tool_mapping session_id w !! tool_name = None ->
     answers (-32602)) /\
  (forall (tool_name : string) (info : ToolMapEntry) (runtime : RuntimeSessionState),
     py_get params "name" = Ok (JStr tool_name) -> tool_name <> "" ->
     _runtime_sessions w !! session_id = Some runtime ->
     tool_name_map runtime !! tool_name = Some info ->
     assoc_lookup (provider info) (connections runtime) = None ->
     answers (-32001)) /\
  (truthy (dict_get "params" body) = true -> is_dict (dict_get "params" body) = false ->
   ProtocolHandler._handle_tools_call E session_id body w =
     (Raise (AttributeError "object has no attribute 'get'"), w)).
Proof.
  intros params answers.
  assert (Htruthy : forall s : string, s <> "" -> truthy (JStr s) = true).
  { intros s Hs. simpl. apply String.eqb_neq in Hs. rewrite Hs. reflexivity. }
  split; [|split; [|split]].
  - intros name Hname Hfalsy. unfold answers, ProtocolHandler._handle_tools_call.
    fold params.
    rewrite (bind_ok _ _ w w name) by (unfold lift; rewrite Hname; reflexivity).
    rewrite Hfalsy. cbn [negb]. eexists. split; [reflexivity|]. apply jsonrpc_error_echo.
  - intros tool_name Hname Hnonempty Hmissing.
    unfold answers, ProtocolHandler._handle_tools_call. fold params.
    rewrite (bind_ok _ _ w w (JStr tool_name)) by (unfold lift; rewrite Hname; reflexivity).
    rewrite (Htruthy tool_name Hnonempty). cbn [negb].
    rewrite (bind_ok get_world _ w w w) by reflexivity.
    rewrite (bind_ok _ _ w w None)
      by (unfold lift, ProtocolHandler.tool_map_get; rewrite Hmissing; reflexivity).
    eexists. split; [reflexivity|]. apply jsonrpc_error_echo.
  - intros tool_name info runtime Hname Hnonempty Hrt Hinfo Hnone.
    unfold answers, ProtocolHandler._handle_tools_call. fold params.
    rewrite (bind_ok _ _ w w (JStr tool_name)) by (unfold lift; rewrite Hname; reflexivity).
    rewrite (Htruthy tool_name Hnonempty). cbn [negb].
    rewrite (bind_ok get_world _ w w w) by reflexivity.
    rewrite (bind_ok _ _ w w (Some info)).
    2: { unfold lift, ProtocolHandler.tool_map_get, SessionManager.get_tool_mapping.
         rewrite Hrt, Hinfo. reflexivity. }
    rewrite (bind_ok _ _ w w runtime) by (apply (get_runtime_state_live E); exact Hrt).
    rewrite Hnone. eexists. split; [reflexivity|]. apply jsonrpc_error_echo.
  - intros Ht Hd. unfold ProtocolHandler._handle_tools_call.
    fold params. unfold params, py_or. rewrite Ht.
    destruct (dict_get "params" body); try discriminate Hd; reflexivity.
Qed.

(** A call of a tool that session 7 does not know. *)
Lemma tools_call_not_forwarded_witness :
  exists response : pydict,
    ProtocolHandler._handle_tools_call Examples.healthy_env 7 (Examples.call_body (JInt 1))
      Examples.live_world = (Ok response, Examples.live_world) /\
    ProtocolHandler.error_code response = Some (-32602).
Proof.
  destruct (tools_call_not_forwarded Examples.healthy_env 7 (Examples.call_body (JInt 1))
              Examples.live_world) as (_ & Hunknown & _).
  destruct (Hunknown "A__ping") as (response & Hrun & Hcode & _).
  - reflexivity.
  - discriminate.
  - reflexivity.
  - exists response. split; [exact Hrun | exact Hcode].
Defined.

Section ForwardedCalls.

Variable E : Env.

(** A routed [tools/call], up to the [try] block: the client id is
    registered, and the rest of the call is decided by what [forward]
    returns. *)
Lemma tools_call_routed (session_id : UUID) (body : pydict) (w : World)
    (tool_name : string) (info : ToolMapEntry) (runtime : RuntimeSessionState)
    (handle : nat) :
  let params := py_or (dict_get "params" body) (JObj []) in
  let client_id := dict_get "id" body in
  let backend_id := IdMapper.uuid_str (uuid4 E (uuids_drawn w)) in
  let forward_params :=
    dict_set "name" (JStr (backend_tool_name info))
      (match params with JObj p => p | _ => [] end) in
  let forward_body :=
    dict_set "id" (JStr backend_id) (dict_set "params" (JObj forward_params) body) in
  let w1 := snd (IdMapper.register E session_id (provider info) client_id w) in
  let posted :=
    ConnectionManager.post E handle forward_body (Some (backend_timeout (settings E))) w1 in
  let run := ProtocolHandler._handle_tools_call E session_id body w in
  let answers (response : pydict) := run = (Ok response, snd posted) in
  py_get params "name" = Ok (JStr tool_name) -> tool_name <> "" ->
  _runtime_sessions w !! session_id = Some runtime ->
  tool_name_map runtime !! tool_name = Some info ->
  assoc_lookup (provider info) (connections runtime) = Some handle ->
  snd run = snd posted /\
  match fst posted with
  | Raise e =>
      if is_TimeoutException e then
        answers (ProtocolHandler._jsonrpc_error body (-32002)
                   ("Backend '" +:+ provider info +:+ "' timeout during tools/call") None)
      else
        match e with
        | HTTPStatusError _ response =>
            answers (ProtocolHandler._jsonrpc_error body (-32003)
                       ("Backend '" +:+ provider info +:+ "' returned HTTP " +:+
                        pretty (status_code response))
                       (Some [("detail", JStr (take_chars 200 (text response)))]))
        | RequestError msg =>
            answers (ProtocolHandler._jsonrpc_error body (-32003)
                       ("Backend '" +:+ provider info +:+ "' request failed")
                       (Some [("detail", JStr msg)]))
        | ValueError _ =>
            answers (ProtocolHandler._jsonrpc_error body (-32004)
                       ("Backend '" +:+ provider info +:+ "' returned invalid JSON") None)
        | _ => run = (Raise e, snd posted)
        end
  | Ok resp =>
      match Multiplexer.raise_for_status E resp with
      | Raise _ =>
          answers (ProtocolHandler._jsonrpc_error body (-32003)
                     ("Backend '" +:+ provider info +:+ "' returned HTTP " +:+
                      pretty (status_code resp))
                     (Some [("detail", JStr (take_chars 200 (text resp)))]))
      | Ok _ =>
          match Multiplexer.decode_body E resp with
          | Raise e =>
              if startswith (Multiplexer.headers_get "content-type" "" (resp_headers resp))
                   "text/event-stream" || is_ValueError e
              then exists message : string,
                     answers (ProtocolHandler._jsonrpc_error body (-32004) message None)
              else run = (Raise e, snd posted)
          | Ok (JObj _) => exists response : pydict, answers response
          | Ok _ =>
              answers (ProtocolHandler._jsonrpc_error body (-32603)
                         ("Backend '" +:+ provider info +:+
                          "' returned invalid response format") None)
          end
      end
  end.
Proof.
  intros params client_id backend_id forward_params forward_body w1 posted run answers
    Hname Hnonempty Hrt Hinfo Hhandle.
  assert (Htruthy : truthy (JStr tool_name) = true).
  { simpl. apply String.eqb_neq in Hnonempty. rewrite Hnonempty. reflexivity. }
  assert (Hreg : IdMapper.register E session_id (provider info) client_id w =
                 (Ok backend_id, w1)).
  { unfold w1. rewrite register_runs. reflexivity. }
  assert (Hrun : run = ProtocolHandler._handle_tools_call E session_id body w) by reflexivity.
  unfold ProtocolHandler._handle_tools_call in Hrun. fold params in Hrun.
  rewrite (bind_ok _ _ w w (JStr tool_name)) in Hrun
    by (unfold lift; rewrite Hname; reflexivity).
  rewrite Htruthy in Hrun. cbn [negb] in Hrun.
  rewrite (bind_ok get_world _ w w w) in Hrun by reflexivity.
  rewrite (bind_ok _ _ w w (Some info)) in Hrun.
  2: { unfold lift, ProtocolHandler.tool_map_get, SessionManager.get_tool_mapping.
       rewrite Hrt, Hinfo. reflexivity. }
  rewrite (bind_ok _ _ w w runtime) in Hrun
    by (apply (get_runtime_state_live E); exact Hrt).
  rewrite Hhandle in Hrun. fold client_id in Hrun.
  rewrite (bind_ok _ _ w w1 backend_id) in Hrun by exact Hreg.
  fold forward_params in Hrun. fold forward_body in Hrun.
  unfold answers. clearbody run.
  destruct posted as [r w2] eqn:Hpost. unfold posted in Hpost. cbn [fst snd].
  assert (Hforward :
            ProtocolHandler.forward E body (provider info) handle forward_body w1 =
            (Ok (match r with
                 | Raise e => Raise e
                 | Ok resp =>
                     match Multiplexer.raise_for_status E resp with
                     | Raise e => Raise e
                     | Ok _ =>
                         match Multiplexer.decode_body E resp with
                         | Raise e =>
                             if startswith
                                  (Multiplexer.headers_get "content-type" ""
                                     (resp_headers resp)) "text/event-stream"
                             then Ok (inr (ProtocolHandler._jsonrpc_error body (-32004)
                                             ("Backend '" +:+ provider info +:+
                                              "' returned invalid SSE/JSON") None))
                             else if is_ValueError e
                             then Ok (inr (ProtocolHandler._jsonrpc_error body (-32004)
                                             ("Backend '" +:+ provider info +:+
                                              "' returned invalid JSON") None))
                             else Raise e
                         | Ok (JObj backend_payload) => Ok (inl backend_payload)
                         | Ok _ =>
                             Ok (inr (ProtocolHandler._jsonrpc_error body (-32603)
                                        ("Backend '" +:+ provider info +:+
                                         "' returned invalid response format") None))
                         end
                     end
                 end), w2)).
  { unfold ProtocolHandler.forward, attempt, bind. rewrite Hpost.
    destruct r as [resp|e]; [|reflexivity].
    unfold lift. destruct (Multiplexer.raise_for_status E resp) as [[]|e]; [|reflexivity].
    unfold Multiplexer.decode_body.
    destruct (startswith _ "text/event-stream").
    - destruct (Multiplexer.parse_sse_json_body E (text resp)) as [v|e]; [|reflexivity].
      destruct v; reflexivity.
    - destruct (Multiplexer.resp_json E resp) as [v|e];
        [destruct v; reflexivity | destruct (is_ValueError e); reflexivity]. }
  rewrite (bind_ok _ _ _ _ _ Hforward) in Hrun. clear Hforward.
  destruct r as [resp|e].
  - destruct (Multiplexer.raise_for_status E resp) as [[]|e] eqn:Hstatus.
    + destruct (Multiplexer.decode_body E resp) as [v|e] eqn:Hdec.
      * destruct v; try (rewrite Hrun; split; reflexivity).
        rewrite (bind_ok get_world _ w2 w2 w2) in Hrun by reflexivity.
        rewrite Hrun. split; [reflexivity|]. eexists. reflexivity.
      * destruct (startswith _ "text/event-stream"); cbn [orb].
        { rewrite Hrun. split; [reflexivity|]. eexists. reflexivity. }
        destruct (is_ValueError e) eqn:Hvalue.
        { rewrite Hrun. split; [reflexivity|]. eexists. reflexivity. }
        destruct (decode_body_failure E resp e Hdec) as [Hv|Hdeep]; [congruence|].
        destruct e; try discriminate Hdeep. rewrite Hrun. split; reflexivity.
    + unfold Multiplexer.raise_for_status in Hstatus.
      destruct ((200 <=? status_code resp) && (status_code resp <? 300));
        [discriminate Hstatus|].
      injection Hstatus as <-. rewrite Hrun. split; reflexivity.
  - destruct (is_TimeoutException e) eqn:Htimeout.
    + rewrite Hrun. split; reflexivity.
    + destruct e; try discriminate Htimeout; rewrite Hrun; split; reflexivity.
Qed.

End ForwardedCalls.

Lemma dict_get_set_ne (k k' : string) (v : json) (d : pydict) :
  k <> k' -> dict_get k (dict_set k' v d) = dict_get k d.
Proof.
  intros Hne. unfold dict_get, dict_set. rewrite assoc_lookup_set_ne by exact Hne.
  reflexivity.
Qed.

(** X16 (tools/call, failures of the backend).  For a [tools/call] that
    is routed to a provider, what [post] on the provider's handle does
    decides the response: a timeout gives the error -32002; any other
    [httpx.RequestError] gives -32003 with the text of the exception as
    [data.detail]; a reply whose status is not 2xx gives -32003 with the
    first 200 characters of the body as [data.detail]; a 2xx reply whose
    body does not decode gives -32004 when it is a server-sent event or
    when the decoder fails with a [ValueError], and one that decodes to
    something else than an object gives -32603.  Each response echoes
    the [id] and [jsonrpc] of the request.  The [RecursionError] that
    [json.loads] raises for a JSON body nested too deeply is caught by no
    handler and leaves [_handle_tools_call] as it is; so does a
    [RuntimeError] of [post] (a closed handle).  In every case the
    mapping registered for the request stays in the ID mapper. *)
Theorem tools_call_backend_failures (E : Env) (session_id : UUID) (body : pydict)
    (w : World) (tool_name : string) (info : ToolMapEntry)
    (runtime : RuntimeSessionState) (handle : nat) :
  let params := py_or (dict_get "params" body) (JObj []) in
  let client_id := dict_get "id" body in
  let backend_id := IdMapper.uuid_str (uuid4 E (uuids_drawn w)) in
  let forward_params :=
    dict_set "name" (JStr (backend_tool_name info))
      (match params with JObj p => p | _ => [] end) in
  let forward_body :=
    dict_set "id" (JStr backend_id) (dict_set "params" (JObj forward_params) body) in
  let w1 := snd (IdMapper.register E session_id (provider info) client_id w) in
  let posted :=
    ConnectionManager.post E handle forward_body (Some (backend_timeout (settings E))) w1 in
  let run := ProtocolHandler._handle_tools_call E session_id body w in
  let answers (code : Z) (data : json) :=
    exists response : pydict,
      run = (Ok response, snd posted) /\
      ProtocolHandler.error_code response = Some code /\
      ProtocolHandler.error_data response = data /\
      dict_get "id" response = client_id /\
      dict_get "jsonrpc" response = dict_get_default "jsonrpc" (JStr "2.0") body in
  py_get params "name" = Ok (JStr tool_name) -> tool_name <> "" ->
  _runtime_sessions w !! session_id = Some runtime ->
  tool_name_map runtime !! tool_name = Some info ->
  assoc_lookup (provider info) (connections runtime) = Some handle ->
  (forall msg : string,
     fst posted = Raise (TimeoutException msg) -> answers (-32002) JNull) /\
  (forall msg : string,
     fst posted = Raise (RequestError msg) ->
     answers (-32003) (JObj [("detail", JStr msg)])) /\
  (forall resp : Response,
     fst posted = Ok resp -> status_code resp < 200 \/ 300 <= status_code resp ->
     answers (-32003) (JObj [("detail", JStr (take_chars 200 (text resp)))])) /\
  (forall (resp : Response) (e : exn),
     fst posted = Ok resp -> 200 <= status_code resp < 300 ->
     Multiplexer.decode_body E resp = Raise e ->
     let event_stream :=
       startswith (Multiplexer.headers_get "content-type" "" (resp_headers resp))
         "text/event-stream" in
     (event_stream || is_ValueError e = true -> answers (-32004) JNull) /\
     (event_stream || is_ValueError e = false ->
      run = (Raise e, snd posted) /\ is_RecursionError e = true)) /\
  (forall (resp : Response) (v : json),
     fst posted = Ok resp -> 200 <= status_code resp < 300 ->
     Multiplexer.decode_body E resp = Ok v -> is_dict v = false ->
     answers (-32603) JNull) /\
  (forall msg : string,
     fst posted = Raise (RuntimeError msg) -> run = (Raise (RuntimeError msg), snd posted)) /\
  IdMapper.resolve_backend E session_id (provider info) (JStr backend_id) (snd run) =
    client_id.
Proof.
  intros params client_id backend_id forward_params forward_body w1 posted run answers
    Hname Hnonempty Hrt Hinfo Hhandle.
  pose proof (tools_call_routed E session_id body w tool_name info runtime handle
                Hname Hnonempty Hrt Hinfo Hhandle) as Hrouted.
  cbv zeta in Hrouted.
  fold params client_id backend_id forward_params forward_body w1 posted run in Hrouted.
  destruct Hrouted as [Hworld Hcases].
  assert (Hstatus : forall resp : Response,
            (200 <= status_code resp < 300 -> Multiplexer.raise_for_status E resp = Ok tt) /\
            (status_code resp < 200 \/ 300 <= status_code resp ->
             exists e, Multiplexer.raise_for_status E resp = Raise e)).
  { intros resp. unfold Multiplexer.raise_for_status.
    destruct ((200 <=? status_code resp) && (status_code resp <? 300)) eqn:Hs.
    - split; [reflexivity | lia].
    - split; [lia | eauto]. }
  unfold answers. split; [|split; [|split; [|split; [|split; [|split]]]]].
  - intros msg Hp. rewrite Hp in Hcases. cbn in Hcases.
    eexists. split; [exact Hcases|]. repeat split.
  - intros msg Hp. rewrite Hp in Hcases. cbn in Hcases.
    eexists. split; [exact Hcases|]. repeat split.
  - intros resp Hp Hs. rewrite Hp in Hcases.
    destruct (proj2 (Hstatus resp) Hs) as (e & He). rewrite He in Hcases.
    eexists. split; [exact Hcases|]. repeat split.
  - intros resp e Hp Hs Hdec. rewrite Hp in Hcases.
    rewrite (proj1 (Hstatus resp) Hs), Hdec in Hcases.
    split; intros Hcaught; rewrite Hcaught in Hcases.
    + destruct Hcases as (message & Hcases).
      eexists. split; [exact Hcases|]. repeat split.
    + split; [exact Hcases|].
      destruct (decode_body_failure E resp e Hdec) as [Hvalue|Hdeep]; [|exact Hdeep].
      rewrite Hvalue, orb_true_r in Hcaught. discriminate Hcaught.
  - intros resp v Hp Hs Hdec Hnot. rewrite Hp in Hcases.
    rewrite (proj1 (Hstatus resp) Hs), Hdec in Hcases.
    destruct v; try discriminate Hnot; (eexists; split; [exact Hcases|]; repeat split).
  - intros msg Hp. rewrite Hp in Hcases. exact Hcases.
  - rewrite Hworld.
    pose proof (post_frame E handle forward_body (Some (backend_timeout (settings E))) w1)
      as Hf.
    fold posted in Hf. apply (f_equal _backend_to_client) in Hf.
    cbn [frame set_http_log _backend_to_client] in Hf.
    unfold IdMapper.resolve_backend. rewrite Hf.
    unfold w1. rewrite register_runs.
    unfold set_backend_to_client, set_uuids_drawn. cbn [snd _backend_to_client].
    rewrite lookup_insert_eq. cbn [default from_option id py_str].
    fold backend_id. rewrite lookup_insert_eq. reflexivity.
Qed.

(** Provider [A] answers a call of [A__ping] with 503. *)
Lemma tools_call_backend_failures_witness :
  exists response : pydict,
    fst (ProtocolHandler._handle_tools_call Examples.A_503_env 7 (Examples.call_body (JInt 1))
           Examples.ready_world) = Ok response /\
    ProtocolHandler.error_code response = Some (-32003) /\
    ProtocolHandler.error_data response =
      JObj [("detail", JStr Examples.text_unavailable)] /\
    dict_get "id" response = JInt 1.
Proof.
  destruct (tools_call_backend_failures Examples.A_503_env 7 (Examples.call_body (JInt 1))
              Examples.ready_world "A__ping" Examples.entry_A_ping
              (SessionManager.with_tool_name_map Examples.merged_tool_map Examples.runtime_7)
              0%nat) as (_ & _ & Hstatus & _); try reflexivity; try discriminate.
  destruct (Hstatus {| status_code := 503;
                       resp_headers := [("Content-Type", "application/json")];
                       text := Examples.text_unavailable |})
    as (response & Hrun & Hcode & Hdata & Hid & _).
  - vm_compute. reflexivity.
  - right. cbn. lia.
  - exists response. rewrite Hrun. split; [reflexivity|].
    split; [exact Hcode|]. split; [exact Hdata | exact Hid].
Defined.

(** Provider [A] answers a call of [A__ping] with a JSON body that is
    nested too deeply for [json.loads]: the handler raises. *)
Example tools_call_deep_json :
  fst (ProtocolHandler._handle_tools_call Examples.deep_env 7 (Examples.call_body (JInt 1))
         Examples.ready_world) =
    Raise (RecursionError "maximum recursion depth exceeded").
Proof. vm_compute. reflexivity. Qed.

(** X17 (tools/call, the forwarded request).  A [tools/call] that is
    routed through an open handle sends, to the URL that the HTTP client
    makes of the handle's base URL and with the handle's default headers,
    the client's request in which [params.name] is the backend's own tool
    name, [id] is the canonical text of the identifier just drawn, and
    every other member, of the request and of [params], is as the client
    sent it.  Every request that the call sends is this one. *)
Theorem tools_call_forwards_backend_name (E : Env) (session_id : UUID) (body : pydict)
    (w : World) (tool_name : string) (info : ToolMapEntry)
    (runtime : RuntimeSessionState) (handle : nat) (hd : BackendHandle) :
  let params := py_or (dict_get "params" body) (JObj []) in
  let backend_id := IdMapper.uuid_str (uuid4 E (uuids_drawn w)) in
  let run := ProtocolHandler._handle_tools_call E session_id body w in
  py_get params "name" = Ok (JStr tool_name) -> tool_name <> "" ->
  _runtime_sessions w !! session_id = Some runtime ->
  tool_name_map runtime !! tool_name = Some info ->
  assoc_lookup (provider info) (connections runtime) = Some handle ->
  handle_heap w !! handle = Some hd -> closed hd = false ->
  0 <= retry_attempts (settings E) ->
  exists (req : Request) (client_params forwarded_params : pydict),
    http_log (snd run) !! length (http_log w) = Some req /\
    (forall (i : nat) (req' : Request),
       (length (http_log w) <= i)%nat -> http_log (snd run) !! i = Some req' -> req' = req) /\
    req_url req = request_url E (base_url hd) /\
    req_headers req = client_headers hd /\
    dict_get "id" (req_json req) = JStr backend_id /\
    IdMapper.is_canonical_uuid backend_id = true /\
    params = JObj client_params /\
    dict_get "params" (req_json req) = JObj forwarded_params /\
    dict_get "name" forwarded_params = JStr (backend_tool_name info) /\
    (forall k : string, k <> "name" ->
       dict_get k forwarded_params = dict_get k client_params) /\
    (forall k : string, k <> "id" -> k <> "params" ->
       dict_get k (req_json req) = dict_get k body).
Proof.
  intros params backend_id run Hname Hnonempty Hrt Hinfo Hhandle Hhd Hopen Hretries.
  pose proof (tools_call_routed E session_id body w tool_name info runtime handle
                Hname Hnonempty Hrt Hinfo Hhandle) as Hrouted.
  cbv zeta in Hrouted. fold params backend_id run in Hrouted.
  destruct Hrouted as [Hworld _].
  set (client_id := dict_get "id" body) in *.
  set (w1 := snd (IdMapper.register E session_id (provider info) client_id w)) in *.
  assert (Hparams : exists client_params, params = JObj client_params).
  { destruct params; try discriminate Hname. eauto. }
  destruct Hparams as (client_params & Hparams). rewrite Hparams in Hworld.
  set (forwarded_params := dict_set "name" (JStr (backend_tool_name info)) client_params) in *.
  set (forward_body :=
         dict_set "id" (JStr backend_id)
           (dict_set "params" (JObj forwarded_params) body)) in *.
  assert (Hhd1 : handle_heap w1 !! handle = Some hd) by exact Hhd.
  destruct (post_run E handle forward_body (Some (backend_timeout (settings E))) w1 hd
              Hhd1 Hopen Hretries) as (j & _ & Hpost & _).
  rewrite Hpost in Hworld. cbn [snd] in Hworld.
  match type of Hpost with
  | context [repeat ?r (S j)] => set (req := r) in *
  end.
  assert (Hlog : http_log (snd run) = http_log w ++ repeat req (S j)).
  { rewrite Hworld. reflexivity. }
  exists req, client_params, forwarded_params.
  split; [|split].
  - rewrite Hlog. rewrite lookup_app_r by lia. rewrite Nat.sub_diag. reflexivity.
  - intros i req' Hi Hlook. rewrite Hlog in Hlook.
    rewrite lookup_app_r in Hlook by exact Hi.
    apply list_elem_of_lookup_2 in Hlook. apply list_elem_of_In in Hlook.
    apply repeat_spec in Hlook. exact Hlook.
  - split; [reflexivity|]. split; [reflexivity|].
    split; [apply dict_get_set_eq|]. split; [apply uuid_str_canonical|].
    split; [exact Hparams|].
    split; [cbn [req_json req]; unfold forward_body;
            rewrite dict_get_set_ne by discriminate; apply dict_get_set_eq|].
    split; [apply dict_get_set_eq|]. split.
    + intros k Hk. apply dict_get_set_ne. exact Hk.
    + intros k Hid Hpar. cbn [req_json req]. unfold forward_body.
      rewrite !dict_get_set_ne by assumption. reflexivity.
Qed.

(** The call of [A__ping] in session 7: provider [A] receives a call of
    [ping] under the first backend id. *)
Lemma tools_call_forwards_backend_name_witness :
  exists req : Request,
    http_log (snd (ProtocolHandler._handle_tools_call Examples.healthy_env 7
                     (Examples.call_body (JInt 1)) Examples.ready_world)) !! 0%nat
      = Some req /\
    req_url req = "http://a.example/mcp/" /\
    dict_get "id" (req_json req) = JStr Examples.first_backend_id.
Proof.
  destruct (tools_call_forwards_backend_name Examples.healthy_env 7
              (Examples.call_body (JInt 1)) Examples.ready_world "A__ping"
              Examples.entry_A_ping
              (SessionManager.with_tool_name_map Examples.merged_tool_map Examples.runtime_7)
              0%nat Examples.handle_A)
    as (req & _ & _ & Hlog & _ & Hurl & _ & Hid & _);
    try reflexivity; try discriminate.
  exists req. split; [exact Hlog|]. split; [exact Hurl | exact Hid].
Defined.

(** ** The session manager: creating a session *)

Section LifecycleFacts.

Import SessionManager.

Variable E : Env.

(** A provider name that [create_session] accepts. *)
Let accepted (w : World) (name : string) : Prop :=
  exists cfg : ProviderConfig,
    _providers w !! name = Some cfg /\ lower (protocol cfg) = "http".

Lemma validate_providers_world (servers : list string) (cfgs : list ProviderConfig)
    (w : World) :
  snd (validate_providers servers cfgs w) = w.
Proof.
  revert cfgs. induction servers as [|name servers IH]; intros cfgs; [reflexivity|].
  cbn [validate_providers]. unfold bind, attempt, RegistryLoader.get_provider_config.
  destruct (_providers w !! name) as [cfg|]; [|reflexivity].
  destruct (negb (String.eqb (lower (protocol cfg)) "http")); [reflexivity | apply IH].
Qed.

Lemma validate_providers_accepts (servers : list string) (cfgs : list ProviderConfig)
    (w : World) :
  Forall (accepted w) servers ->
  exists found : list ProviderConfig,
    validate_providers servers cfgs w = (Ok (cfgs ++ found), w) /\
    Forall2 (fun name cfg => _providers w !! name = Some cfg) servers found.
Proof.
  intros Hall. revert cfgs.
  induction Hall as [|name servers (cfg & Hcfg & Hhttp) _ IH]; intros cfgs.
  - exists []. rewrite app_nil_r. split; [reflexivity | constructor].
  - cbn [validate_providers]. unfold bind, attempt, RegistryLoader.get_provider_config.
    rewrite Hcfg, Hhttp, String.eqb_refl. cbn [negb].
    destruct (IH (cfgs ++ [cfg])) as (found & Hrun & Hfound).
    exists (cfg :: found). rewrite Hrun, <- app_assoc. split; [reflexivity|].
    constructor; assumption.
Qed.

Lemma validate_providers_rejects (servers : list string) (cfgs : list ProviderConfig)
    (w : World) :
  ~ Forall (accepted w) servers ->
  exists msg : string, validate_providers servers cfgs w = (Raise (ValueError msg), w).
Proof.
  revert cfgs. induction servers as [|name servers IH]; intros cfgs Hnot.
  - exfalso. apply Hnot. constructor.
  - cbn [validate_providers]. unfold bind, attempt, RegistryLoader.get_provider_config.
    destruct (_providers w !! name) as [cfg|] eqn:Hcfg; [|eexists; reflexivity].
    destruct (String.eqb (lower (protocol cfg)) "http") eqn:Hhttp; cbn [negb];
      [|eexists; reflexivity].
    apply IH. intros Hrest. apply Hnot. constructor; [|exact Hrest].
    exists cfg. split; [exact Hcfg|]. apply String.eqb_eq. exact Hhttp.
Qed.

End LifecycleFacts.

(** X18 (create_session, validation).  When one of the names in
    [servers] is not in the registry, or names a provider whose protocol
    is not [http] (in any letter case), [create_session] raises
    [ValueError] before anything is done: no record is written, no
    identifier drawn, no handle created. *)
Theorem create_session_rejects_unknown_provider (E : Env) (servers : list string)
    (credentials : gmap string (gmap string json)) (w : World) :
  (exists name : string,
     In name servers /\
     forall cfg : ProviderConfig,
       _providers w !! name = Some cfg -> lower (protocol cfg) <> "http") ->
  exists msg : string,
    SessionManager.create_session E servers credentials w = (Raise (ValueError msg), w).
Proof.
  intros (name & Hin & Hbad).
  destruct (validate_providers_rejects servers [] w) as (msg & Hrun).
  - intros Hall. rewrite List.Forall_forall in Hall.
    destruct (Hall name Hin) as (cfg & Hcfg & Hhttp). exact (Hbad cfg Hcfg Hhttp).
  - exists msg. unfold SessionManager.create_session.
    rewrite (bind_raise _ _ _ _ _ Hrun). reflexivity.
Qed.

(** A session over [A] and a provider that the registry does not know. *)
Lemma create_session_rejects_unknown_provider_witness :
  SessionManager.create_session Examples.quiet_env ["A"; "C"] ∅ Examples.cold_world =
    (Raise (ValueError "Unknown provider 'C'"), Examples.cold_world).
Proof.
  destruct (create_session_rejects_unknown_provider Examples.quiet_env ["A"; "C"] ∅
              Examples.cold_world) as (msg & Hrun).
  - exists "C". split; [right; left; reflexivity|].
    intros cfg Hcfg. vm_compute in Hcfg. discriminate Hcfg.
  - rewrite Hrun. vm_compute in Hrun. injection Hrun as <-. reflexivity.
Defined.

Section BuildFacts.

Import SessionManager.

Variable E : Env.

(** What building the connections of a session leaves alone, whatever
    its outcome: the records, the registry, the runtime sessions, the id
    map, the HTTP log and the counters, the handle objects that exist
    and the handles that the connection manager holds. *)
Let untouched (w w' : World) : Prop :=
  sessions_table w' = sessions_table w /\ _providers w' = _providers w /\
  _runtime_sessions w' = _runtime_sessions w /\
  _backend_to_client w' = _backend_to_client w /\
  http_log w' = http_log w /\ uuids_drawn w' = uuids_drawn w /\
  clock_reads w' = clock_reads w /\
  (forall (a : nat) (hd : BackendHandle),
     handle_heap w !! a = Some hd -> handle_heap w' !! a = Some hd) /\
  (forall (s : UUID) (p : string) (h : nat),
     ConnectionManager.get_handle s p w = Some h ->
     ConnectionManager.get_handle s p w' = Some h).

Lemma untouched_refl (w : World) : untouched w w.
Proof. repeat split; auto. Qed.

Lemma untouched_trans (w1 w2 w3 : World) :
  untouched w1 w2 -> untouched w2 w3 -> untouched w1 w3.
Proof.
  intros (A1 & A2 & A3 & A4 & A5 & A6 & A7 & A8 & A9)
         (B1 & B2 & B3 & B4 & B5 & B6 & B7 & B8 & B9).
  repeat split; try congruence; auto.
Qed.

(** What [get_or_create_handle] returns and leaves behind. *)
Lemma get_or_create_handle_result (s : UUID) (p url : string)
    (hdrs : gmap string json) (rt : option RuntimeSessionState) (w : World) :
  exists (h : nat) (w' : World),
    ConnectionManager.get_or_create_handle s p url hdrs rt w = (Ok h, w') /\
    ConnectionManager.get_handle s p w' = Some h /\
    (ConnectionManager.get_handle s p w = None ->
     handle_heap w' !! h = Some (ConnectionManager.new_handle url hdrs)) /\
    (forall (s' : UUID) (p' : string), (s', p') <> (s, p) ->
       ConnectionManager.get_handle s' p' w' = ConnectionManager.get_handle s' p' w) /\
    untouched w w'.
Proof.
  destruct (get_or_create_handle_run s p url url hdrs hdrs rt rt w)
    as (h & Hfst & Hget & _ & Hother & Hheap & Hnew).
  destruct (ConnectionManager.get_or_create_handle s p url hdrs rt w) as [r w'] eqn:Hrun.
  cbn [fst snd] in *. subst r.
  exists h, w'. split; [reflexivity|]. split; [exact Hget|]. split; [exact Hnew|].
  split; [exact Hother|].
  assert (Hframe : w' = set_handles (fun _ => _handles w')
                          (set_handle_heap (fun _ => handle_heap w') w)).
  { unfold ConnectionManager.get_or_create_handle in Hrun.
    destruct (default ∅ (_handles w !! s) !! p); injection Hrun as _ <-; reflexivity. }
  repeat split; try (rewrite Hframe; reflexivity).
  - exact Hheap.
  - intros s' p' h' Hh'.
    destruct (decide ((s', p') = (s, p))) as [Heq|Hne].
    + injection Heq as -> ->.
      unfold ConnectionManager.get_or_create_handle in Hrun.
      unfold ConnectionManager.get_handle in Hh'. rewrite Hh' in Hrun.
      injection Hrun as <- <-.
      unfold ConnectionManager.get_handle. cbn [_handles set_handles].
      rewrite lookup_insert_eq. exact Hh'.
    + rewrite Hother by exact Hne. exact Hh'.
Qed.

Lemma assoc_lookup_In_keys {A : Type} (d : list (string * A)) (k : string) (v : A) :
  assoc_lookup k d = Some v -> In k (assoc_keys d).
Proof.
  induction d as [|[k' v'] d IH]; [discriminate|].
  simpl. destruct (String.eqb k k') eqn:Hk.
  - intros _. left. symmetry. apply String.eqb_eq. exact Hk.
  - intros H. right. apply IH. exact H.
Qed.

Lemma assoc_keys_set {A : Type} (d : list (string * A)) (k x : string) (v : A) :
  In x (assoc_keys (assoc_set k v d)) -> x = k \/ In x (assoc_keys d).
Proof.
  induction d as [|[k' v'] d IH]; simpl.
  - intros [<-|[]]. left. reflexivity.
  - destruct (String.eqb k k') eqn:Hk; simpl.
    + intros [<-|Hin]; [left; reflexivity | right; right; exact Hin].
    + intros [<-|Hin]; [right; left; reflexivity|].
      destruct (IH Hin) as [->|Hd]; [left; reflexivity | right; right; exact Hd].
Qed.

(** The provider names for which the connection can be built: the
    registry knows the provider and the credentials of the session give
    its auth headers. *)
Let buildable (sess : MCPGatewaySession) (w : World) (nm : string) : Prop :=
  exists (cfg : ProviderConfig) (hdrs : gmap string json),
    _providers w !! nm = Some cfg /\
    AuthManager.build_headers E cfg (default ∅ (credentials sess !! nm)) = Ok hdrs.

Lemma build_connections_untouched (sess : MCPGatewaySession) (servers : list string)
    (runtime : RuntimeSessionState) (w : World) :
  untouched w (snd (build_connections E sess servers runtime w)).
Proof.
  revert runtime w. induction servers as [|nm servers IH]; intros runtime w.
  - apply untouched_refl.
  - cbn [build_connections]. unfold bind at 1, RegistryLoader.get_provider_config.
    destruct (_providers w !! nm) as [cfg|]; [|apply untouched_refl].
    unfold bind at 1, lift.
    destruct (AuthManager.build_headers E cfg (default ∅ (credentials sess !! nm)))
      as [hdrs|e]; [|apply untouched_refl].
    destruct (get_or_create_handle_result (session_id sess) nm (rpc_endpoint cfg) hdrs None w)
      as (h & w1 & Hrun & _ & _ & _ & Hw1).
    rewrite (bind_ok _ _ _ _ _ Hrun).
    eapply untouched_trans; [exact Hw1 | apply IH].
Qed.

Lemma build_connections_ok (sess : MCPGatewaySession) (servers : list string)
    (runtime : RuntimeSessionState) (w : World) :
  Forall (buildable sess w) servers ->
  exists (runtime' : RuntimeSessionState) (w' : World),
    build_connections E sess servers runtime w = (Ok runtime', w') /\
    runtime' = with_connections (connections runtime') runtime /\
    (forall nm : string, ~ In nm servers ->
       assoc_lookup nm (connections runtime') = assoc_lookup nm (connections runtime)) /\
    (forall nm : string, In nm (assoc_keys (connections runtime')) ->
       In nm (assoc_keys (connections runtime)) \/ In nm servers) /\
    (forall nm : string, In nm servers ->
       exists h : nat,
         assoc_lookup nm (connections runtime') = Some h /\
         ConnectionManager.get_handle (session_id sess) nm w' = Some h /\
         forall (cfg : ProviderConfig) (hdrs : gmap string json),
           _providers w !! nm = Some cfg ->
           AuthManager.build_headers E cfg (default ∅ (credentials sess !! nm)) = Ok hdrs ->
           ConnectionManager.get_handle (session_id sess) nm w = None ->
           handle_heap w' !! h = Some (ConnectionManager.new_handle (rpc_endpoint cfg) hdrs)).
Proof.
  revert runtime w. induction servers as [|nm servers IH]; intros runtime w Hall.
  - exists runtime, w. split; [reflexivity|]. split; [destruct runtime; reflexivity|].
    split; [reflexivity|]. split; [auto|]. intros nm [].
  - apply Forall_cons_iff in Hall as [(cfg & hdrs & Hcfg & Hhdrs) Hall].
    cbn [build_connections].
    rewrite (bind_ok _ _ w w cfg)
      by (unfold RegistryLoader.get_provider_config; rewrite Hcfg; reflexivity).
    rewrite (bind_ok _ _ w w hdrs) by (unfold lift; rewrite Hhdrs; reflexivity).
    destruct (get_or_create_handle_result (session_id sess) nm (rpc_endpoint cfg) hdrs None w)
      as (h0 & w1 & Hrun & Hget0 & Hnew0 & Hother0 & Hw1).
    rewrite (bind_ok _ _ _ _ _ Hrun).
    set (runtime1 := with_connections (assoc_set nm h0 (connections runtime)) runtime).
    assert (Hall1 : Forall (buildable sess w1) servers).
    { destruct Hw1 as (_ & Hprov & _).
      eapply List.Forall_impl; [|exact Hall].
      intros x (c & hs & Hc & Hh). exists c, hs. split; [congruence | exact Hh]. }
    destruct (IH runtime1 w1 Hall1) as (runtime' & w' & Hbuild & Hshape & Hkeep & Hkeys & Hin).
    pose proof (build_connections_untouched sess servers runtime1 w1) as Hw'.
    rewrite Hbuild in Hw'. cbn [snd] in Hw'.
    exists runtime', w'. split; [exact Hbuild|]. split; [rewrite Hshape at 1; reflexivity|].
    split; [|split].
    + intros x Hx. rewrite Hkeep by (intros Hr; apply Hx; right; exact Hr).
      cbn [connections runtime1 with_connections].
      apply assoc_lookup_set_ne. intros ->. apply Hx. left. reflexivity.
    + intros x Hx. destruct (Hkeys x Hx) as [Hx1|Hx1]; [|right; right; exact Hx1].
      cbn [connections runtime1 with_connections] in Hx1.
      apply assoc_keys_set in Hx1 as [->|Hx1]; [right; left; reflexivity | left; exact Hx1].
    + intros x Hx.
      assert (Hget0' : ConnectionManager.get_handle (session_id sess) nm w' = Some h0).
      { destruct Hw' as (_ & _ & _ & _ & _ & _ & _ & _ & Hsame). apply Hsame. exact Hget0. }
      assert (Hheap' : forall (a : nat) (hd : BackendHandle),
                handle_heap w1 !! a = Some hd -> handle_heap w' !! a = Some hd).
      { destruct Hw' as (_ & _ & _ & _ & _ & _ & _ & Hheap & _). exact Hheap. }
      destruct (String.string_dec x nm) as [->|Hne].
      * (* the name just connected *)
        assert (Hlook : assoc_lookup nm (connections runtime') = Some h0).
        { destruct (in_dec String.string_dec nm servers) as [Hrest|Hrest].
          - destruct (Hin nm Hrest) as (h & Hlook & Hget & _).
            rewrite Hget0' in Hget. injection Hget as <-. exact Hlook.
          - rewrite Hkeep by exact Hrest.
            cbn [connections runtime1 with_connections]. apply assoc_lookup_set_eq. }
        exists h0. split; [exact Hlook|]. split; [exact Hget0'|].
        intros c hs Hc Hh Hnone.
        assert (c = cfg) by congruence. subst c.
        assert (hs = hdrs) by congruence. subst hs.
        apply Hheap'. apply Hnew0. exact Hnone.
      * destruct Hx as [Heq|Hx]; [congruence|].
        destruct (Hin x Hx) as (h & Hlook & Hget & Hnew).
        exists h. split; [exact Hlook|]. split; [exact Hget|].
        intros c hs Hc Hh Hnone. apply Hnew.
        -- destruct Hw1 as (_ & Hprov & _). congruence.
        -- exact Hh.
        -- rewrite Hother0 by congruence. exact Hnone.
Qed.

(** [_build_runtime_state] when every connection can be built. *)
Lemma build_runtime_state_ok (sess : MCPGatewaySession) (w : World) :
  Forall (buildable sess w) (servers sess) ->
  exists (runtime : RuntimeSessionState) (w1 w' : World),
    _build_runtime_state E sess w = (Ok runtime, w') /\
    build_connections E sess (servers sess) new_runtime w = (Ok runtime, w1) /\
    w' = set_runtime_sessions (fun m => <[session_id sess := runtime]> m) w1 /\
    runtime = with_connections (connections runtime) new_runtime /\
    (forall nm : string, In nm (assoc_keys (connections runtime)) <-> In nm (servers sess)) /\
    (forall nm : string, In nm (servers sess) ->
       exists h : nat,
         assoc_lookup nm (connections runtime) = Some h /\
         ConnectionManager.get_handle (session_id sess) nm w' = Some h /\
         forall (cfg : ProviderConfig) (hdrs : gmap string json),
           _providers w !! nm = Some cfg ->
           AuthManager.build_headers E cfg (default ∅ (credentials sess !! nm)) = Ok hdrs ->
           ConnectionManager.get_handle (session_id sess) nm w = None ->
           handle_heap w' !! h = Some (ConnectionManager.new_handle (rpc_endpoint cfg) hdrs)).
Proof.
  intros Hall.
  destruct (build_connections_ok sess (servers sess) new_runtime w Hall)
    as (runtime & w1 & Hbuild & Hshape & _ & Hkeys & Hin).
  exists runtime, w1, (set_runtime_sessions (fun m => <[session_id sess := runtime]> m) w1).
  split; [|split; [exact Hbuild|split; [reflexivity|split; [exact Hshape|split]]]].
  - unfold _build_runtime_state. rewrite (bind_ok _ _ _ _ _ Hbuild). reflexivity.
  - intros nm. split.
    + intros Hk. destruct (Hkeys nm Hk) as [[]|Hs]. exact Hs.
    + intros Hs. destruct (Hin nm Hs) as (h & Hlook & _).
      eapply assoc_lookup_In_keys; eauto.
  - intros nm Hs. destruct (Hin nm Hs) as (h & Hlook & Hget & Hnew).
    exists h. split; [exact Hlook|]. split; [exact Hget | exact Hnew].
Qed.

(** [_build_runtime_state] when it fails: the runtime sessions are as
    they were. *)
Lemma build_runtime_state_untouched (sess : MCPGatewaySession) (w : World) :
  let run := _build_runtime_state E sess w in
  untouched w (set_runtime_sessions (fun _ => _runtime_sessions w) (snd run)) /\
  (forall e : exn, fst run = Raise e -> untouched w (snd run)).
Proof.
  intros run. unfold run, _build_runtime_state, bind.
  pose proof (build_connections_untouched sess (servers sess) new_runtime w) as Hw.
  destruct (build_connections E sess (servers sess) new_runtime w) as [[runtime|e] w1];
    cbn [fst snd] in *.
  - split; [|intros e He; discriminate He].
    destruct Hw as (A1 & A2 & A3 & A4 & A5 & A6 & A7 & A8 & A9).
    repeat split; try assumption.
  - split; [|intros _ _; exact Hw].
    destruct Hw as (A1 & A2 & A3 & A4 & A5 & A6 & A7 & A8 & A9).
    repeat split; try assumption.
Qed.

End BuildFacts.

Section CreateFacts.

Import SessionManager.

Variable E : Env.

(** In a registry keyed by provider name, as [RegistryLoader._load]
    builds it, the configs found for a list of names have these names. *)
Lemma names_of_found (w : World) (names : list string) (found : list ProviderConfig) :
  (forall (k : string) (cfg : ProviderConfig), _providers w !! k = Some cfg -> name cfg = k) ->
  Forall2 (fun nm cfg => _providers w !! nm = Some cfg) names found ->
  map name found = names.
Proof.
  intros Hkeyed Hall. induction Hall as [|nm cfg names found Hcfg _ IH]; [reflexivity|].
  cbn [map]. rewrite IH, (Hkeyed nm cfg Hcfg). reflexivity.
Qed.

(** [create_session] up to the point where the runtime is built: the
    record is written under the identifier drawn. *)
Lemma create_session_persists (servers0 : list string)
    (credentials0 : gmap string (gmap string json)) (w : World) :
  let id := uuid4 E (uuids_drawn w) in
  let record :=
    {| session_id := id; state := "ready"; servers := servers0;
       credentials := credentials0 |} in
  let persisted :=
    set_sessions_table (fun t => <[id := record]> t) (set_uuids_drawn S w) in
  (forall (k : string) (cfg : ProviderConfig), _providers w !! k = Some cfg -> name cfg = k) ->
  sessions_table w !! id = None ->
  Forall (fun nm => exists cfg : ProviderConfig,
                      _providers w !! nm = Some cfg /\ lower (protocol cfg) = "http")
         servers0 ->
  create_session E servers0 credentials0 w =
    match _build_runtime_state E record persisted with
    | (Ok _, w') => (Ok record, w')
    | (Raise e, w') =>
        (Raise e, set_sessions_table
                    (fun t => <[id := with_state "failed" record]> t) w')
    end.
Proof.
  intros id record persisted Hkeyed Hfresh Hall.
  destruct (validate_providers_accepts servers0 [] w Hall) as (found & Hvalid & Hfound).
  cbn [app] in Hvalid.
  pose proof (names_of_found w servers0 found Hkeyed Hfound) as Hnames.
  unfold create_session. rewrite (bind_ok _ _ _ _ _ Hvalid).
  assert (Hpersist : _persist_session E found credentials0 "ready" w = (Ok record, persisted)).
  { unfold _persist_session. cbn [sessions_table set_uuids_drawn]. fold id.
    rewrite Hfresh, Hnames. reflexivity. }
  rewrite (bind_ok _ _ _ _ _ Hpersist).
  unfold bind at 1, attempt.
  pose proof (build_runtime_state_untouched E record persisted) as [Hok Hfail].
  destruct (_build_runtime_state E record persisted) as [[runtime|e] w'] eqn:Hbuild;
    cbn [fst snd] in *.
  - reflexivity.
  - unfold bind, _update_state, modify, raise. cbn [session_id record].
    destruct (Hfail e eq_refl) as (Htable & _).
    assert (Hrecord : sessions_table w' !! id = Some record).
    { rewrite Htable. cbn [sessions_table persisted set_sessions_table set_uuids_drawn].
      apply lookup_insert_eq. }
    unfold set_sessions_table at 1. rewrite Hrecord. reflexivity.
Qed.

(** Where the runtime sessions stand after [_build_runtime_state]. *)
Lemma build_runtime_state_sessions (sess : MCPGatewaySession) (w : World) :
  match _build_runtime_state E sess w with
  | (Ok runtime, w') =>
      _runtime_sessions w' = <[session_id sess := runtime]> (_runtime_sessions w)
  | (Raise _, w') => _runtime_sessions w' = _runtime_sessions w
  end.
Proof.
  unfold _build_runtime_state, bind.
  pose proof (build_connections_untouched E sess (servers sess) new_runtime w)
    as (_ & _ & Hrts & _).
  destruct (build_connections E sess (servers sess) new_runtime w) as [[runtime|e] w1];
    cbn [snd] in Hrts.
  - cbn [modify ret _runtime_sessions set_runtime_sessions]. rewrite Hrts. reflexivity.
  - exact Hrts.
Qed.

(** The loop of [load_persisted_sessions]. *)
Lemma restore_sessions_run (sessions : list MCPGatewaySession) (w : World) :
  let run := restore_sessions E sessions w in
  fst run = Ok tt /\
  sessions_table (snd run) = sessions_table w /\
  _providers (snd run) = _providers w /\
  http_log (snd run) = http_log w /\
  uuids_drawn (snd run) = uuids_drawn w /\
  (forall sid : UUID, is_Some (_runtime_sessions w !! sid) ->
     is_Some (_runtime_sessions (snd run) !! sid)) /\
  (forall sid : UUID,
     (forall sess : MCPGatewaySession, In sess sessions -> session_id sess <> sid) ->
     _runtime_sessions (snd run) !! sid = _runtime_sessions w !! sid) /\
  (forall sess : MCPGatewaySession, In sess sessions ->
     Forall (fun nm => exists (cfg : ProviderConfig) (hdrs : gmap string json),
                         _providers w !! nm = Some cfg /\
                         AuthManager.build_headers E cfg (default ∅ (credentials sess !! nm))
                           = Ok hdrs) (servers sess) ->
     is_Some (_runtime_sessions (snd run) !! session_id sess)).
Proof.
  revert w. induction sessions as [|sess sessions IH]; intros w run.
  - unfold run. cbn. repeat split; auto.
    intros sess [].
  - pose proof (build_runtime_state_untouched E sess w) as [Hframe _].
    pose proof (build_runtime_state_sessions sess w) as Hrts.
    pose proof (build_runtime_state_ok E sess w) as Hok.
    destruct (_build_runtime_state E sess w) as [r w1] eqn:Hbuild. cbn [fst snd] in *.
    assert (Hrun : restore_sessions E (sess :: sessions) w = restore_sessions E sessions w1).
    { cbn [restore_sessions]. unfold bind, attempt. rewrite Hbuild. reflexivity. }
    unfold run. rewrite Hrun.
    destruct Hframe as (Htable & Hprov & _ & _ & Hlog & Huuid & _).
    cbn [sessions_table _providers http_log uuids_drawn set_runtime_sessions]
      in Htable, Hprov, Hlog, Huuid.
    destruct (IH w1) as (Hfst & Htable' & Hprov' & Hlog' & Huuid' & Hmono & Honly & Hall).
    split; [exact Hfst|]. split; [congruence|]. split; [congruence|].
    split; [congruence|]. split; [congruence|].
    assert (Hstep : forall sid : UUID,
              is_Some (_runtime_sessions w !! sid) -> is_Some (_runtime_sessions w1 !! sid)).
    { intros sid Hsome. destruct r as [runtime|e]; rewrite Hrts; [|exact Hsome].
      apply lookup_insert_is_Some.
      destruct (decide (session_id sess = sid)); [left; assumption | right; split; assumption]. }
    split; [intros sid Hsome; apply Hmono, Hstep, Hsome|]. split.
    + intros sid Hnone.
      rewrite Honly by (intros s Hin; apply Hnone; right; exact Hin).
      destruct r as [runtime|e]; rewrite Hrts; [|reflexivity].
      apply lookup_insert_ne. apply Hnone. left. reflexivity.
    + intros s [<-|Hin] Hbuildable.
      * apply Hmono. destruct (Hok Hbuildable) as (runtime & w0 & w' & Hbuilt & _).
        assert (r = Ok runtime) by congruence. subst r.
        rewrite Hrts. rewrite lookup_insert_eq. eauto.
      * apply Hall; [exact Hin|].
        eapply List.Forall_impl; [|exact Hbuildable].
        intros nm (cfg & hdrs & Hcfg & Hh). exists cfg, hdrs. split; [congruence | exact Hh].
Qed.

End CreateFacts.

(** X19 (create_session, success).  In a registry keyed by provider
    name, when every name in [servers] is known with the protocol [http],
    the given credentials yield the auth headers of each provider, and
    the identifier drawn is not taken, [create_session] returns the new
    record, with the state [ready], the given names and credentials, and
    has written it to the table; the session has a runtime whose
    connections are keyed by exactly the names in [servers], each leading
    to the handle that the connection manager holds for the session and
    the provider; a handle that did not exist before is open, with the
    provider's endpoint and the headers built from the credentials.  One
    identifier is drawn and no HTTP request is sent. *)
Theorem create_session_builds_runtime (E : Env) (servers0 : list string)
    (credentials0 : gmap string (gmap string json)) (w : World) :
  let id := uuid4 E (uuids_drawn w) in
  let record :=
    {| session_id := id; state := "ready"; servers := servers0;
       credentials := credentials0 |} in
  (forall (k : string) (cfg : ProviderConfig), _providers w !! k = Some cfg -> name cfg = k) ->
  sessions_table w !! id = None ->
  Forall (fun nm => exists (cfg : ProviderConfig) (hdrs : gmap string json),
                      _providers w !! nm = Some cfg /\ lower (protocol cfg) = "http" /\
                      AuthManager.build_headers E cfg (default ∅ (credentials0 !! nm))
                        = Ok hdrs) servers0 ->
  exists (w' : World) (runtime : RuntimeSessionState),
    SessionManager.create_session E servers0 credentials0 w = (Ok record, w') /\
    sessions_table w' = <[id := record]> (sessions_table w) /\
    _runtime_sessions w' = <[id := runtime]> (_runtime_sessions w) /\
    (forall nm : string, In nm (assoc_keys (connections runtime)) <-> In nm servers0) /\
    (forall nm : string, In nm servers0 ->
       exists h : nat,
         assoc_lookup nm (connections runtime) = Some h /\
         ConnectionManager.get_handle id nm w' = Some h /\
         forall (cfg : ProviderConfig) (hdrs : gmap string json),
           _providers w !! nm = Some cfg ->
           AuthManager.build_headers E cfg (default ∅ (credentials0 !! nm)) = Ok hdrs ->
           ConnectionManager.get_handle id nm w = None ->
           handle_heap w' !! h = Some (ConnectionManager.new_handle (rpc_endpoint cfg) hdrs)) /\
    http_log w' = http_log w /\
    uuids_drawn w' = S (uuids_drawn w).
Proof.
  intros id record Hkeyed Hfresh Hall.
  set (persisted :=
         SessionManager.set_sessions_table (fun t => <[id := record]> t)
           (set_uuids_drawn S w)).
  assert (Haccepted : Forall (fun nm => exists cfg : ProviderConfig,
                                _providers w !! nm = Some cfg /\
                                lower (protocol cfg) = "http") servers0).
  { eapply List.Forall_impl; [|exact Hall].
    intros nm (cfg & hdrs & Hcfg & Hhttp & _). eauto. }
  pose proof (create_session_persists E servers0 credentials0 w Hkeyed Hfresh Haccepted)
    as Hcreate.
  cbv zeta in Hcreate. fold id in Hcreate. fold record in Hcreate. fold persisted in Hcreate.
  destruct (build_runtime_state_ok E record persisted)
    as (runtime & w1 & w' & Hbuild & Hconn & Hw' & _ & Hkeys & Hhandles).
  { eapply List.Forall_impl; [|exact Hall].
    intros nm (cfg & hdrs & Hcfg & _ & Hh). exists cfg, hdrs. split; [exact Hcfg | exact Hh]. }
  rewrite Hbuild in Hcreate.
  pose proof (build_connections_untouched E record servers0 SessionManager.new_runtime persisted)
    as Hframe.
  change (servers record) with servers0 in Hconn. rewrite Hconn in Hframe. cbn [snd] in Hframe.
  destruct Hframe as (Htable & _ & Hrts & _ & Hlog & Huuid & _).
  exists w', runtime. split; [exact Hcreate|].
  rewrite Hw'. cbn [sessions_table _runtime_sessions http_log uuids_drawn set_runtime_sessions].
  split; [rewrite Htable; reflexivity|].
  split; [rewrite Hrts; reflexivity|].
  split; [exact Hkeys|]. split; [|split; [rewrite Hlog; reflexivity | rewrite Huuid; reflexivity]].
  intros nm Hin. destruct (Hhandles nm Hin) as (h & Hlook & Hget & Hnew).
  exists h. split; [exact Hlook|]. rewrite <- Hw'. split; [exact Hget|].
  intros cfg hdrs Hcfg Hh Hnone. exact (Hnew cfg hdrs Hcfg Hh Hnone).
Qed.

(** A session over [A] and [B] in a process that has no session yet. *)
Lemma create_session_builds_runtime_witness :
  exists w' : World,
    SessionManager.create_session Examples.quiet_env ["A"; "B"]
      {[ "A" := Examples.creds_A; "B" := Examples.creds_B ]} Examples.registry_world =
      (Ok {| session_id := 1000; state := "ready"; servers := ["A"; "B"];
             credentials := {[ "A" := Examples.creds_A; "B" := Examples.creds_B ]} |}, w') /\
    handle_heap w' = [Examples.handle_A; Examples.handle_B] /\
    http_log w' = [].
Proof.
  destruct (create_session_builds_runtime Examples.quiet_env ["A"; "B"]
              {[ "A" := Examples.creds_A; "B" := Examples.creds_B ]} Examples.registry_world)
    as (w' & runtime & Hrun & _ & _ & _ & _ & Hlog & _).
  - intros k cfg Hcfg.
    destruct (decide (k = "A")) as [->|HA];
      [vm_compute in Hcfg; injection Hcfg as <-; reflexivity|].
    destruct (decide (k = "B")) as [->|HB];
      [vm_compute in Hcfg; injection Hcfg as <-; reflexivity|].
    unfold Examples.registry_world in Hcfg. cbn [_providers] in Hcfg.
    rewrite lookup_insert_ne in Hcfg by congruence.
    rewrite lookup_singleton_ne in Hcfg by congruence. discriminate Hcfg.
  - reflexivity.
  - repeat constructor.
    + eexists _, _. split; [reflexivity|]. split; [reflexivity|]. vm_compute. reflexivity.
    + eexists _, _. split; [reflexivity|]. split; [reflexivity|]. vm_compute. reflexivity.
  - exists w'. split; [exact Hrun|]. split; [|exact Hlog].
    vm_compute in Hrun. injection Hrun as <-. vm_compute. reflexivity.
Defined.

(** X20 (create_session, failure while building the runtime).  When the
    providers are accepted and the record is written, but building the
    runtime raises, as it does when the credentials of a provider are
    missing, [create_session] lets the exception through and leaves the
    record in the table with the state [failed]; the session gets no
    runtime and no HTTP request is sent. *)
Theorem create_session_marks_failed_session (E : Env) (servers0 : list string)
    (credentials0 : gmap string (gmap string json)) (w : World) (e : exn) :
  let id := uuid4 E (uuids_drawn w) in
  let record :=
    {| session_id := id; state := "ready"; servers := servers0;
       credentials := credentials0 |} in
  let persisted :=
    SessionManager.set_sessions_table (fun t => <[id := record]> t) (set_uuids_drawn S w) in
  (forall (k : string) (cfg : ProviderConfig), _providers w !! k = Some cfg -> name cfg = k) ->
  sessions_table w !! id = None ->
  Forall (fun nm => exists cfg : ProviderConfig,
                      _providers w !! nm = Some cfg /\ lower (protocol cfg) = "http")
         servers0 ->
  fst (SessionManager._build_runtime_state E record persisted) = Raise e ->
  exists w' : World,
    SessionManager.create_session E servers0 credentials0 w = (Raise e, w') /\
    sessions_table w' =
      <[id := SessionManager.with_state "failed" record]> (sessions_table w) /\
    _runtime_sessions w' = _runtime_sessions w /\
    http_log w' = http_log w.
Proof.
  intros id record persisted Hkeyed Hfresh Hall Hfail.
  pose proof (create_session_persists E servers0 credentials0 w Hkeyed Hfresh Hall) as Hcreate.
  cbv zeta in Hcreate. fold id in Hcreate. fold record in Hcreate. fold persisted in Hcreate.
  pose proof (build_runtime_state_untouched E record persisted) as [_ Hframe].
  destruct (SessionManager._build_runtime_state E record persisted) as [r w1].
  cbn [fst snd] in *. subst r.
  destruct (Hframe e eq_refl) as (Htable & _ & Hrts & _ & Hlog & _).
  eexists. split; [exact Hcreate|].
  cbn [sessions_table _runtime_sessions http_log SessionManager.set_sessions_table].
  split; [|split; [exact Hrts | exact Hlog]].
  rewrite Htable. cbn [sessions_table persisted SessionManager.set_sessions_table
                         set_uuids_drawn].
  apply insert_insert_eq.
Qed.

(** A session over [A] without the token of [A]. *)
Lemma create_session_marks_failed_session_witness :
  exists w' : World,
    SessionManager.create_session Examples.quiet_env ["A"] ∅ Examples.registry_world =
      (Raise (ValueError "Missing 'token' for bearer auth (provider=A)"), w') /\
    state <$> sessions_table w' !! 1000%N = Some "failed".
Proof.
  destruct (create_session_marks_failed_session Examples.quiet_env ["A"] ∅
              Examples.registry_world
              (ValueError "Missing 'token' for bearer auth (provider=A)"))
    as (w' & Hrun & Htable & _).
  - intros k cfg Hcfg.
    destruct (decide (k = "A")) as [->|HA];
      [vm_compute in Hcfg; injection Hcfg as <-; reflexivity|].
    destruct (decide (k = "B")) as [->|HB];
      [vm_compute in Hcfg; injection Hcfg as <-; reflexivity|].
    unfold Examples.registry_world in Hcfg. cbn [_providers] in Hcfg.
    rewrite lookup_insert_ne in Hcfg by congruence.
    rewrite lookup_singleton_ne in Hcfg by congruence. discriminate Hcfg.
  - reflexivity.
  - repeat constructor. eexists. split; reflexivity.
  - vm_compute. reflexivity.
  - exists w'. split; [exact Hrun|]. rewrite Htable, lookup_insert_eq. reflexivity.
Defined.

(** X21 (load_persisted_sessions).  Restoring the sessions at startup
    never raises, whatever goes wrong for a session; it leaves the table
    of records and the HTTP log as they are, and no runtime is lost.
    Only the sessions whose state is [ready] are restored: the runtime of
    any other identifier is as it was.  A [ready] session whose providers
    are all in the registry, with credentials that give their auth
    headers, has a runtime afterwards, whatever happened to the
    others. *)
Theorem load_persisted_sessions_is_best_effort (E : Env) (w : World) :
  let run := SessionManager.load_persisted_sessions E w in
  fst run = Ok tt /\
  sessions_table (snd run) = sessions_table w /\
  http_log (snd run) = http_log w /\
  (forall sid : UUID, is_Some (_runtime_sessions w !! sid) ->
     is_Some (_runtime_sessions (snd run) !! sid)) /\
  (forall sid : UUID,
     (forall (key : UUID) (sess : MCPGatewaySession),
        sessions_table w !! key = Some sess -> state sess = "ready" ->
        session_id sess <> sid) ->
     _runtime_sessions (snd run) !! sid = _runtime_sessions w !! sid) /\
  (forall (key : UUID) (sess : MCPGatewaySession),
     sessions_table w !! key = Some sess -> state sess = "ready" ->
     Forall (fun nm => exists (cfg : ProviderConfig) (hdrs : gmap string json),
                         _providers w !! nm = Some cfg /\
                         AuthManager.build_headers E cfg (default ∅ (credentials sess !! nm))
                           = Ok hdrs) (servers sess) ->
     is_Some (_runtime_sessions (snd run) !! session_id sess)).
Proof.
  intros run. unfold run, SessionManager.load_persisted_sessions.
  rewrite (bind_ok get_world _ w w w) by reflexivity.
  set (sessions := List.filter (fun sess => String.eqb (state sess) "ready")
                               (map snd (map_to_list (sessions_table w)))).
  assert (Hin : forall sess : MCPGatewaySession,
            In sess sessions <->
            (exists key : UUID, sessions_table w !! key = Some sess) /\ state sess = "ready").
  { intros sess. unfold sessions. rewrite List.filter_In, in_map_iff, String.eqb_eq.
    split.
    - intros [((key & s) & Hs & Hk) Hready]. cbn [snd] in Hs. subst s.
      apply list_elem_of_In, elem_of_map_to_list in Hk. eauto.
    - intros [(key & Hk) Hready]. split; [|exact Hready].
      exists (key, sess). split; [reflexivity|].
      apply list_elem_of_In, elem_of_map_to_list. exact Hk. }
  destruct (restore_sessions_run E sessions w)
    as (Hfst & Htable & _ & Hlog & _ & Hmono & Honly & Hall).
  split; [exact Hfst|]. split; [exact Htable|]. split; [exact Hlog|].
  split; [exact Hmono|]. split.
  - intros sid Hnone. apply Honly. intros sess Hs.
    apply Hin in Hs as [(key & Hk) Hready]. exact (Hnone key sess Hk Hready).
  - intros key sess Hk Hready Hbuildable. apply Hall; [|exact Hbuildable].
    apply Hin. eauto.
Qed.

(** At startup the runtime of session 7 is rebuilt from its record. *)
Lemma load_persisted_sessions_is_best_effort_witness :
  sessions_table Examples.cold_world !! 7%N = Some Examples.session_7 /\
  _runtime_sessions Examples.cold_world !! 7%N = None /\
  is_Some (_runtime_sessions
             (snd (SessionManager.load_persisted_sessions Examples.quiet_env
                     Examples.cold_world)) !! 7%N).
Proof.
  split; [reflexivity|]. split; [reflexivity|].
  destruct (load_persisted_sessions_is_best_effort Examples.quiet_env Examples.cold_world)
    as (_ & _ & _ & _ & _ & Hready).
  apply (Hready 7%N Examples.session_7); [reflexivity | reflexivity |].
  repeat constructor.
  - eexists _, _. split; [reflexivity|]. vm_compute. reflexivity.
  - eexists _, _. split; [reflexivity|]. vm_compute. reflexivity.
Defined.

(** X22 (get_runtime_state).  [get_runtime_state] returns the runtime
    that the session has, leaving the process as it is; it raises
    [KeyError], again leaving the process as it is, for a session with
    neither a runtime nor a record; and, the records being keyed by their
    id, a runtime that it has returned, rebuilt from the record or not, is
    returned again by the next call, which changes nothing.  It never
    sends an HTTP request and never writes to the table of records. *)
Theorem get_runtime_state_is_idempotent (E : Env) (session_id0 : UUID) (w : World) :
  let run := SessionManager.get_runtime_state E session_id0 w in
  (forall (k : UUID) (sess : MCPGatewaySession),
     sessions_table w !! k = Some sess -> session_id sess = k) ->
  (forall runtime : RuntimeSessionState,
     _runtime_sessions w !! session_id0 = Some runtime -> run = (Ok runtime, w)) /\
  (_runtime_sessions w !! session_id0 = None -> sessions_table w !! session_id0 = None ->
   run = (Raise (KeyError ("Session " +:+ IdMapper.uuid_str session_id0 +:+ " not found")), w)) /\
  (forall runtime : RuntimeSessionState,
     fst run = Ok runtime ->
     SessionManager.get_runtime_state E session_id0 (snd run) = (Ok runtime, snd run)) /\
  http_log (snd run) = http_log w /\
  sessions_table (snd run) = sessions_table w.
Proof.
  intros run Hkeyed.
  assert (Hlive : forall runtime : RuntimeSessionState,
            _runtime_sessions w !! session_id0 = Some runtime -> run = (Ok runtime, w)).
  { intros runtime Hrt. apply get_runtime_state_live. exact Hrt. }
  split; [exact Hlive|].
  destruct (_runtime_sessions w !! session_id0) as [runtime|] eqn:Hrt.
  - rewrite (Hlive runtime eq_refl). cbn [fst snd].
    split; [intros Hnone; discriminate Hnone|].
    split; [|split; reflexivity].
    intros r Hr. injection Hr as <-. apply get_runtime_state_live. exact Hrt.
  - assert (Hrun : run =
              match sessions_table w !! session_id0 with
              | Some sess => SessionManager._build_runtime_state E sess w
              | None =>
                  (Raise (KeyError ("Session " +:+ IdMapper.uuid_str session_id0 +:+
                                    " not found")), w)
              end).
    { unfold run, SessionManager.get_runtime_state, bind, get_world,
        SessionManager._load_session_model.
      rewrite Hrt. destruct (sessions_table w !! session_id0); reflexivity. }
    destruct (sessions_table w !! session_id0) as [sess|] eqn:Hsess.
    + split; [intros _ Hnone; discriminate Hnone|].
      pose proof (build_runtime_state_sessions E sess w) as Hrts.
      pose proof (build_runtime_state_untouched E sess w) as [Hframe _].
      rewrite <- Hrun in Hrts, Hframe.
      destruct run as [r w'] eqn:Hr. cbn [fst snd] in *.
      destruct Hframe as (Htable & _ & _ & _ & Hlog & _).
      cbn [sessions_table http_log set_runtime_sessions] in Htable, Hlog.
      split; [|split; [exact Hlog | exact Htable]].
      intros runtime Hok. subst r.
      apply get_runtime_state_live.
      rewrite Hrts, (Hkeyed _ _ Hsess). apply lookup_insert_eq.
    + rewrite Hrun. cbn [fst snd].
      split; [reflexivity|]. split; [intros runtime Hok; discriminate Hok|].
      split; reflexivity.
Qed.

(** The first request for session 7 after a restart rebuilds its
    runtime; the second finds it in place. *)
Lemma get_runtime_state_is_idempotent_witness :
  fst (SessionManager.get_runtime_state Examples.quiet_env 7 Examples.cold_world) =
    Ok Examples.runtime_7 /\
  SessionManager.get_runtime_state Examples.quiet_env 7
    (snd (SessionManager.get_runtime_state Examples.quiet_env 7 Examples.cold_world)) =
    (Ok Examples.runtime_7,
     snd (SessionManager.get_runtime_state Examples.quiet_env 7 Examples.cold_world)).
Proof.
  assert (Hfirst : fst (SessionManager.get_runtime_state Examples.quiet_env 7
                          Examples.cold_world) = Ok Examples.runtime_7)
    by (vm_compute; reflexivity).
  split; [exact Hfirst|].
  destruct (get_runtime_state_is_idempotent Examples.quiet_env 7 Examples.cold_world)
    as (_ & _ & Hagain & _).
  - intros k sess Hk.
    destruct (decide (k = 7%N)) as [->|Hne].
    + vm_compute in Hk. injection Hk as <-. reflexivity.
    + unfold Examples.cold_world in Hk. cbn [sessions_table] in Hk.
      rewrite lookup_singleton_ne in Hk by congruence. discriminate Hk.
  - apply Hagain. exact Hfirst.
Defined.

(** X23 (route POST /create-session).  The route answers a request that
    names an unknown provider, or one whose protocol is not [http], with
    the status 400 and changes nothing.  For accepted providers, in a
    registry keyed by provider name and with a fresh identifier: when
    building the runtime raises [ValueError], as it does for missing
    credentials, the answer is again 400, with the text of the exception
    as detail, and the record of the session stays in the table with the
    state [failed]; when the runtime is built, the answer names the new
    session and the endpoint [/session/<id>/mcp] with the canonical text
    of the id, and the session is one that [ensure_session_exists]
    finds. *)
Theorem create_session_route_statuses (E : Env) (servers0 : list string)
    (credentials0 : gmap string (gmap string json)) (w : World) :
  let run := GatewayController.create_session E servers0 credentials0 w in
  let id := uuid4 E (uuids_drawn w) in
  let record :=
    {| session_id := id; state := "ready"; servers := servers0;
       credentials := credentials0 |} in
  let persisted :=
    SessionManager.set_sessions_table (fun t => <[id := record]> t) (set_uuids_drawn S w) in
  ((exists name : string,
      In name servers0 /\
      forall cfg : ProviderConfig,
        _providers w !! name = Some cfg -> lower (protocol cfg) <> "http") ->
   exists msg : string,
     run = (Ok (inr {| GatewayController.http_status := 400;
                       GatewayController.detail := msg |}), w)) /\
  ((forall (k : string) (cfg : ProviderConfig), _providers w !! k = Some cfg -> name cfg = k) ->
   sessions_table w !! id = None ->
   Forall (fun nm => exists cfg : ProviderConfig,
                       _providers w !! nm = Some cfg /\ lower (protocol cfg) = "http")
          servers0 ->
   (forall msg : string,
      fst (SessionManager._build_runtime_state E record persisted) = Raise (ValueError msg) ->
      exists w' : World,
        run = (Ok (inr {| GatewayController.http_status := 400;
                          GatewayController.detail := msg |}), w') /\
        sessions_table w' !! id = Some (SessionManager.with_state "failed" record)) /\
   (forall runtime : RuntimeSessionState,
      fst (SessionManager._build_runtime_state E record persisted) = Ok runtime ->
      exists w' : World,
        run = (Ok (inl {| GatewayController.created_session_id := id;
                          GatewayController.mcp_endpoint :=
                            "/session/" +:+ IdMapper.uuid_str id +:+ "/mcp";
                          GatewayController.status := "created" |}), w') /\
        SessionManager.ensure_session_exists id w' = (Ok record, w'))).
Proof.
  intros run id record persisted. split.
  - intros (name & Hin & Hbad).
    destruct (validate_providers_rejects servers0 [] w) as (msg & Hvalid).
    { intros Hall. rewrite List.Forall_forall in Hall.
      destruct (Hall name Hin) as (cfg & Hcfg & Hhttp). exact (Hbad cfg Hcfg Hhttp). }
    exists msg. unfold run, GatewayController.create_session, bind, attempt,
      SessionManager.create_session.
    rewrite (bind_raise _ _ _ _ _ Hvalid). reflexivity.
  - intros Hkeyed Hfresh Hall.
    pose proof (create_session_persists E servers0 credentials0 w Hkeyed Hfresh Hall)
      as Hcreate.
    cbv zeta in Hcreate. fold id in Hcreate. fold record in Hcreate.
    fold persisted in Hcreate.
    pose proof (build_runtime_state_untouched E record persisted) as [Hok Hfail].
    destruct (SessionManager._build_runtime_state E record persisted) as [r w1].
    cbn [fst snd] in *.
    unfold run, GatewayController.create_session, bind, attempt. rewrite Hcreate.
    split.
    + intros msg Hr. subst r. eexists. split; [reflexivity|].
      cbn [sessions_table SessionManager.set_sessions_table]. apply lookup_insert_eq.
    + intros runtime Hr. subst r. eexists. split; [reflexivity|].
      destruct Hok as (Htable & _).
      cbn [sessions_table set_runtime_sessions] in Htable.
      unfold SessionManager.ensure_session_exists, bind, SessionManager._load_session_model.
      rewrite Htable.
      cbn [sessions_table persisted SessionManager.set_sessions_table set_uuids_drawn].
      rewrite lookup_insert_eq. reflexivity.
Qed.

(** The route for a session over [A] and [B], and for one over an unknown
    provider. *)
Lemma create_session_route_statuses_witness :
  (exists w' : World,
     GatewayController.create_session Examples.quiet_env ["A"; "B"]
       {[ "A" := Examples.creds_A; "B" := Examples.creds_B ]} Examples.registry_world =
       (Ok (inl {| GatewayController.created_session_id := 1000;
                   GatewayController.mcp_endpoint :=
                     "/session/00000000-0000-0000-0000-0000000003e8/mcp";
                   GatewayController.status := "created" |}), w')) /\
  GatewayController.create_session Examples.quiet_env ["C"] ∅ Examples.registry_world =
    (Ok (inr {| GatewayController.http_status := 400;
                GatewayController.detail := "Unknown provider 'C'" |}),
     Examples.registry_world).
Proof.
  destruct (create_session_route_statuses Examples.quiet_env ["A"; "B"]
              {[ "A" := Examples.creds_A; "B" := Examples.creds_B ]} Examples.registry_world)
    as (_ & Hcreated).
  destruct (create_session_route_statuses Examples.quiet_env ["C"] ∅ Examples.registry_world)
    as (Hrejected & _).
  split.
  - destruct Hcreated as (_ & Hbuilt).
    + intros k cfg Hcfg.
      destruct (decide (k = "A")) as [->|HA];
        [vm_compute in Hcfg; injection Hcfg as <-; reflexivity|].
      destruct (decide (k = "B")) as [->|HB];
        [vm_compute in Hcfg; injection Hcfg as <-; reflexivity|].
      unfold Examples.registry_world in Hcfg. cbn [_providers] in Hcfg.
      rewrite lookup_insert_ne in Hcfg by congruence.
      rewrite lookup_singleton_ne in Hcfg by congruence. discriminate Hcfg.
    + reflexivity.
    + repeat constructor; (eexists; split; reflexivity).
    + destruct (Hbuilt Examples.runtime_7) as (w' & Hrun & _);
        [vm_compute; reflexivity|].
      exists w'. exact Hrun.
  - destruct Hrejected as (msg & Hrun).
    + exists "C". split; [left; reflexivity|].
      intros cfg Hcfg. vm_compute in Hcfg. discriminate Hcfg.
    + rewrite Hrun. vm_compute in Hrun. injection Hrun as <-. reflexivity.
Defined.

(** ** The session manager: the tool map of a session *)

(** X24 (update_tool_map, get_tool_mapping).  The tool map written for a
    session that has a runtime is the one read back, the connections and
    the cache of the runtime staying as they are; a write for a session
    without a runtime is dropped, the process is left as it was, and the
    map read for such a session is empty; the maps of other sessions are
    not touched. *)
Theorem tool_map_round_trip (session_id0 : UUID) (tool_map0 : gmap string ToolMapEntry)
    (w : World) :
  let w' := snd (SessionManager.update_tool_map session_id0 tool_map0 w) in
  fst (SessionManager.update_tool_map session_id0 tool_map0 w) = Ok tt /\
  (forall runtime : RuntimeSessionState,
     _runtime_sessions w !! session_id0 = Some runtime ->
     SessionManager.get_tool_mapping session_id0 w' = tool_map0 /\
     _runtime_sessions w' !! session_id0 =
       Some (SessionManager.with_tool_name_map tool_map0 runtime)) /\
  (_runtime_sessions w !! session_id0 = None ->
   w' = w /\ SessionManager.get_tool_mapping session_id0 w' = ∅) /\
  (forall other : UUID, other <> session_id0 ->
     SessionManager.get_tool_mapping other w' = SessionManager.get_tool_mapping other w).
Proof.
  intros w'. split; [reflexivity|].
  unfold w'. clear w'. destruct w as [table provs heap handles rts b2c log drawn reads].
  unfold SessionManager.update_tool_map, SessionManager.update_runtime, modify,
    SessionManager.get_tool_mapping, set_runtime_sessions.
  cbn [snd _runtime_sessions sessions_table _providers handle_heap _handles
       _backend_to_client http_log uuids_drawn clock_reads].
  split; [|split].
  - intros runtime Hrt. rewrite Hrt, lookup_insert_eq. split; reflexivity.
  - intros Hnone. rewrite Hnone. cbv iota. rewrite Hnone. split; reflexivity.
  - intros other Hne.
    destruct (rts !! session_id0); [|reflexivity].
    rewrite lookup_insert_ne by congruence. reflexivity.
Qed.

(** The tool map of the seed scenario, written for session 7 and read
    back. *)
Lemma tool_map_round_trip_witness :
  _runtime_sessions Examples.live_world !! 7%N = Some Examples.runtime_7 /\
  SessionManager.get_tool_mapping 7
    (snd (SessionManager.update_tool_map 7 Examples.merged_tool_map Examples.live_world)) =
    Examples.merged_tool_map.
Proof.
  split; [reflexivity|].
  destruct (tool_map_round_trip 7 Examples.merged_tool_map Examples.live_world)
    as (_ & Hlive & _).
  destruct (Hlive Examples.runtime_7 eq_refl) as [Hmap _]. exact Hmap.
Defined.

(** ** The protocol handler: initialize and tools/list *)



(** ** The multiplexer: the template of the initialize result *)

Section TemplateFacts.

Import Multiplexer.

(** A template that is not empty is never replaced. *)
Lemma initialize_merge_keeps_base (session_id0 : UUID) (connections0 : list (string * nat))
    (results : list (string * json * option exn * option Response))
    (acc acc' : Merged) (base base' : pydict) (w w' : World) :
  base <> [] ->
  initialize_merge session_id0 connections0 results acc base w = (Ok (acc', base'), w') ->
  base' = base.
Proof.
  intros Hbase. revert acc w.
  induction results as [|[[[p payload] error] resp] results IH]; intros acc w Hrun.
  - cbn in Hrun. injection Hrun as _ <- _. reflexivity.
  - cbn [initialize_merge] in Hrun.
    destruct (is_Some_b error || negb (truthy payload)); [eapply IH; exact Hrun|].
    unfold bind at 1 in Hrun.
    destruct (persist_headers session_id0 connections0 p resp w) as [[[]|e] w1];
      [|discriminate Hrun].
    assert (Hpick : pick_base_result base payload = Ok base).
    { unfold pick_base_result. destruct base; [congruence | reflexivity]. }
    unfold bind at 1, lift at 1 in Hrun. rewrite Hpick in Hrun.
    unfold bind at 1, lift at 1 in Hrun.
    destruct (merge_payload p payload acc) as [acc1|e]; [|discriminate Hrun].
    eapply IH; exact Hrun.
Qed.

End TemplateFacts.

(** X26 (initialize, the template of the result).  When the first
    provider of the fan-out answers with an object whose [result] is an
    object that is not empty, the result of [initialize] is that object
    with [tools] and [server_info] set: every other member, such as the
    protocol version or the capabilities, is the first provider's, and
    what the later providers put in their [result] beside [tools] is
    dropped. *)
Theorem initialize_keeps_first_result (E : Env) (session_id0 : UUID)
    (initialize_request : pydict) (w w1 w' : World) (runtime : RuntimeSessionState)
    (p : string) (fields template result : pydict) (resp : option Response)
    (rest : list (string * json * option exn * option Response)) :
  _runtime_sessions w !! session_id0 = Some runtime ->
  gather (map (Multiplexer.initialize_call_provider E (connections runtime)
                 initialize_request) (assoc_keys (connections runtime))) w =
    (Ok ((p, JObj fields, None, resp) :: rest), w1) ->
  assoc_lookup "result" fields = Some (JObj template) -> template <> [] ->
  Multiplexer.initialize E session_id0 initialize_request w = (Ok result, w') ->
  forall k : string, k <> "tools" -> k <> "server_info" ->
    dict_get k result = dict_get k template.
Proof.
  intros Hrt Hg Hresult Htemplate Hrun k Htools Hinfo.
  unfold Multiplexer.initialize in Hrun.
  rewrite (bind_ok _ _ _ _ _ (get_runtime_state_live E session_id0 w runtime Hrt)) in Hrun.
  cbv zeta in Hrun. rewrite (bind_ok _ _ _ _ _ Hg) in Hrun.
  destruct (Multiplexer.initialize_merge session_id0 (connections runtime)
              ((p, JObj fields, None, resp) :: rest) Multiplexer.no_tools [] w1)
    as [[[acc base]|e] w2] eqn:Hm;
    [rewrite (bind_ok _ _ _ _ _ Hm) in Hrun
    | rewrite (bind_raise _ _ _ _ _ Hm) in Hrun; discriminate Hrun].
  assert (Hbase : base = template).
  { cbn [Multiplexer.initialize_merge is_Some_b orb] in Hm.
    assert (Htruthy : truthy (JObj fields) = true).
    { destruct fields; [discriminate Hresult | reflexivity]. }
    rewrite Htruthy in Hm. cbn [negb] in Hm.
    unfold bind at 1 in Hm.
    destruct (Multiplexer.persist_headers session_id0 (connections runtime) p resp w1)
      as [[[]|e] w3]; [|discriminate Hm].
    assert (Hpick : Multiplexer.pick_base_result [] (JObj fields) = Ok template).
    { unfold Multiplexer.pick_base_result, py_in, py_getitem, dict_contains.
      rewrite Hresult. reflexivity. }
    unfold bind at 1, lift at 1 in Hm. rewrite Hpick in Hm.
    unfold bind at 1, lift at 1 in Hm.
    destruct (Multiplexer.merge_payload p (JObj fields) Multiplexer.no_tools) as [acc1|e];
      [|discriminate Hm].
    eapply initialize_merge_keeps_base; [exact Htemplate | exact Hm]. }
  subst base.
  unfold bind, SessionManager.update_tool_map, SessionManager.update_runtime, modify, ret
    in Hrun.
  injection Hrun as <- _.
  rewrite !dict_get_set_ne by assumption. reflexivity.
Qed.

(** [initialize] in the seed scenario: the protocol of the result is the
    one that provider [A] announced. *)
Lemma initialize_keeps_first_result_witness :
  exists (result : pydict) (w' : World),
    Multiplexer.initialize Examples.healthy_env 7 Examples.initialize_body
      Examples.live_world = (Ok result, w') /\
    dict_get "protocol" result = JStr "2024-11".
Proof.
  destruct (Multiplexer.initialize Examples.healthy_env 7 Examples.initialize_body
              Examples.live_world) as [[result|e] w'] eqn:Hrun;
    [|vm_compute in Hrun; discriminate Hrun].
  exists result, w'. split; [reflexivity|].
  destruct (gather (map (Multiplexer.initialize_call_provider Examples.healthy_env
                           (connections Examples.runtime_7) Examples.initialize_body)
                        (assoc_keys (connections Examples.runtime_7))) Examples.live_world)
    as [[results|e] w1] eqn:Hg; [|vm_compute in Hg; discriminate Hg].
  destruct results as [|[[[p payload] error] resp] rest];
    [vm_compute in Hg; discriminate Hg|].
  assert (Hfirst : (p, payload, error) = ("A", Examples.payload_A, None)).
  { vm_compute in Hg. injection Hg as Hp Hpayload Herror _ _ _.
    subst p payload error. reflexivity. }
  injection Hfirst as -> -> ->.
  rewrite (initialize_keeps_first_result Examples.healthy_env 7 Examples.initialize_body
             Examples.live_world w1 w' Examples.runtime_7 "A" _ _ result resp rest
             eq_refl Hg eq_refl); [reflexivity | discriminate | exact Hrun | | ];
    discriminate.
Defined.

(** ** The multiplexer: the cache of tools/list *)



